(** * EureProno: the settlement and accounting core

    A shallow embedding of the client-side reductions (history, dashboard,
    leaderboard, reaction tally, comments) and of the storage rules of the
    SQL migration (constraints and triggers) they rely on.

    Conventions.
    - An amount of a [DECIMAL(10,2)] column is an exact rational ([Q]).
      The reductions of the pages are first given over exact rationals
      (equality of amounts is [==]); module [Binary64] gives the money
      reductions again over the numbers the pages compute with (IEEE 754
      binary64), where sums depend on the order of their additions.
      Counters are [nat].
    - Row identifiers are UUID texts ([string]); timestamps are integers
      ([Z], microseconds since the epoch).
    - [tips.status] has the SQL type [tip_status]; a comparison with a string
      literal in the client is a comparison with the matching constructor.
    - An array is a [list]; [reduce] is [fold_left], [filter] keeps the
      elements that satisfy a decidable predicate. *)

From Stdlib Require Import QArith Qround Qabs Lqa Lia ZArith String Ascii.
From Stdlib Require Import Sorted Permutation Floats.
From stdpp Require Import base list gmap strings.

Abbreviation uuid := string (only parsing).
Abbreviation timestamptz := Z (only parsing).

(** [CREATE TYPE public.tip_status AS ENUM ('pending', 'won', 'lost', 'void')] *)
Inductive tip_status : Set := pending | won | lost | void.

#[global] Instance tip_status_eq_dec : EqDecision tip_status.
Proof. solve_decision. Defined.

(** ** JavaScript helpers *)
Module Js.

(** [a > b] on numbers. *)
Definition gt (a b : Q) : bool := negb (Qle_bool a b).

(** A counter read as a number. *)
Definition num (n : nat) : Q := inject_Z (Z.of_nat n).

(** [s.includes(sub)] *)
Fixpoint includes (s sub : string) : bool :=
  String.prefix sub s ||
  match s with
  | EmptyString => false
  | String _ s' => includes s' sub
  end.

(** [Array.prototype.sort(cmp)]: a stable sort.  [x] comes from the left
    of the already sorted rest, so it is placed before the first element
    it does not have to follow ([cmp x y <= 0]). *)
Section Sort.
Context {A : Type} (cmp : A -> A -> Q).

Fixpoint insert_sorted (x : A) (l : list A) : list A :=
  match l with
  | [] => [x]
  | y :: l' =>
      if Qle_bool (cmp x y) 0 then x :: y :: l'
      else y :: insert_sorted x l'
  end.

Definition sort (l : list A) : list A := foldr insert_sorted [] l.
End Sort.

(** [Map<string, V>]: keys in insertion order. *)
Section Map.
Context {V : Type}.

Definition Map := list (string * V).

Definition has (k : string) (m : Map) : bool :=
  existsb (fun kv => String.eqb (fst kv) k) m.

Fixpoint get (k : string) (m : Map) : option V :=
  match m with
  | [] => None
  | (k', v') :: m' => if String.eqb k' k then Some v' else get k m'
  end.

Fixpoint set (k : string) (v : V) (m : Map) : Map :=
  match m with
  | [] => [(k, v)]
  | (k', v') :: m' =>
      if String.eqb k' k then (k', v) :: m' else (k', v') :: set k v m'
  end.

(** [f] applied to the object stored under [k] (the object is shared
    with the map, so the map sees the change). *)
Fixpoint mutate (k : string) (f : V -> V) (m : Map) : Map :=
  match m with
  | [] => []
  | (k', v') :: m' =>
      if String.eqb k' k then (k', f v') :: m' else (k', v') :: mutate k f m'
  end.

Definition values (m : Map) : list V := snd <$> m.
End Map.
Arguments Map : clear implicits.

End Js.

(** ** Toast notifications shown by the client *)
Inductive toast : Set :=
| toast_error (message : string)
| toast_success (message : string).

(** ** The storage rules of the SQL migration

    Row-level security is not modelled: every write below is issued by a
    caller the policies admit (a moderator updating a tip, a signed-in user
    writing a row under its own id). *)
Module Migration.

(** The errors the statements below can end with, and the text the
    server reports for each. *)
Inductive pg_error : Set :=
| unique_violation (constraint : string)
| check_violation (relation constraint : string)
| foreign_key_violation (relation constraint : string)
| numeric_value_out_of_range
| raise_exception (msg : string).

Definition quoted (s : string) : string :=
  String (ascii_of_nat 34) (s ++ String (ascii_of_nat 34) EmptyString).

Definition message (e : pg_error) : string :=
  match e with
  | unique_violation c =>
      "duplicate key value violates unique constraint " ++ quoted c
  | check_violation r c =>
      "new row for relation " ++ quoted r ++ " violates check constraint " ++ quoted c
  | foreign_key_violation r c =>
      "insert or update on table " ++ quoted r
        ++ " violates foreign key constraint " ++ quoted c
  | numeric_value_out_of_range => "numeric field overflow"
  | raise_exception m => m
  end.

Inductive result (A : Type) : Type :=
| Ok (a : A)
| Err (e : pg_error).
Arguments Ok {A} a.
Arguments Err {A} e.

#[global] Instance result_ret : MRet result := fun A a => Ok a.

#[global] Instance result_bind : MBind result := fun A B k r =>
  match r with
  | Ok a => k a
  | Err e => Err e
  end.

(** A statement that fails leaves the table as it was. *)
Definition table_after {A : Type} (before : A) (r : result A) : A :=
  match r with
  | Ok after => after
  | Err _ => before
  end.

(** A value stored in a [DECIMAL(10,2)] column: rounded to two fractional
    digits (half away from zero), refused beyond ten digits. *)
Definition round_half_away (x : Q) : Z :=
  if Qle_bool 0 x then Qfloor (x + (1 # 2)) else (- Qfloor (- x + (1 # 2)))%Z.

Definition numeric_10_2 (x : Q) : result Q :=
  let n := round_half_away (x * 100) in
  if (Z.abs n <? 10 ^ 10)%Z then Ok (n # 100) else Err numeric_value_out_of_range.

(** [ORDER BY key ASC] *)
Section OrderBy.
Context {A : Type} (key : A -> Z).

Fixpoint insert_asc (x : A) (l : list A) : list A :=
  match l with
  | [] => [x]
  | y :: l' =>
      if (key x <=? key y)%Z then x :: y :: l' else y :: insert_asc x l'
  end.

Definition order_by_asc (l : list A) : list A := foldr insert_asc [] l.
End OrderBy.

Module profiles.
Record row := {
  id : uuid;
  username : string;
  avatar_url : option string;
  created_at : timestamptz }.
End profiles.

Module tips.
Record row := {
  id : uuid;
  created_by : uuid;
  match_name : string;
  sport : string;
  bet_type : string;
  odds : Q;
  status : tip_status;
  analysis : option string;
  match_start_time : timestamptz;
  created_at : timestamptz;
  updated_at : timestamptz }.

Definition set_status (s : tip_status) (r : row) : row :=
  {| id := id r; created_by := created_by r; match_name := match_name r;
     sport := sport r; bet_type := bet_type r; odds := odds r;
     status := s; analysis := analysis r;
     match_start_time := match_start_time r; created_at := created_at r;
     updated_at := updated_at r |}.

Definition set_updated_at (t : timestamptz) (r : row) : row :=
  {| id := id r; created_by := created_by r; match_name := match_name r;
     sport := sport r; bet_type := bet_type r; odds := odds r;
     status := status r; analysis := analysis r;
     match_start_time := match_start_time r; created_at := created_at r;
     updated_at := t |}.

(** [update_updated_at_column()] *)
Definition update_updated_at_column (now : timestamptz) (OLD NEW : row) : result row :=
  Ok (set_updated_at now NEW).

(** [enforce_tip_anti_cheat()]; the three columns are [NOT NULL], so
    [IS DISTINCT FROM] is plain inequality (of numbers for [odds]). *)
Definition enforce_tip_anti_cheat (now : timestamptz) (OLD NEW : row) : result row :=
  if (match_start_time OLD <=? now)%Z then
    if negb (String.eqb (bet_type NEW) (bet_type OLD))
       || negb (Qeq_bool (odds NEW) (odds OLD))
       || negb (String.eqb (match_name NEW) (match_name OLD))
    then Err (raise_exception
           "Cannot edit tip details after match has started. Only status can be updated.")
    else Ok NEW
  else Ok NEW.

(** The [BEFORE UPDATE ... FOR EACH ROW] triggers, fired in the order of
    their names: [tip_anti_cheat], then [update_tips_updated_at]. *)
Definition before_update (now : timestamptz) (OLD NEW : row) : result row :=
  NEW1 ← enforce_tip_anti_cheat now OLD NEW;
  update_updated_at_column now OLD NEW1.

(** The body of an [update({ ... })] request on [tips]: the columns it
    assigns, each with the value as it was sent.  The key columns [id] and
    [created_by], whose constraints involve other tables, are not assigned
    by the requests modelled here. *)
Record request := {
  new_match_name : option string;
  new_sport : option string;
  new_bet_type : option string;
  new_odds : option Q;
  new_status : option tip_status;
  new_analysis : option (option string);
  new_match_start_time : option timestamptz;
  new_created_at : option timestamptz;
  new_updated_at : option timestamptz }.

(** [update({ status })] *)
Definition only_status (s : tip_status) : request :=
  {| new_match_name := None; new_sport := None; new_bet_type := None;
     new_odds := None; new_status := Some s; new_analysis := None;
     new_match_start_time := None; new_created_at := None;
     new_updated_at := None |}.

(** The assigned values as their columns hold them: the value for [odds] is
    cast to [DECIMAL(10,2)], which rounds it or refuses it; the other
    column types take their values as they are. *)
Definition cast (q : request) : result request :=
  match new_odds q with
  | None => Ok q
  | Some v =>
      o ← numeric_10_2 v;
      Ok {| new_match_name := new_match_name q; new_sport := new_sport q;
            new_bet_type := new_bet_type q; new_odds := Some o;
            new_status := new_status q; new_analysis := new_analysis q;
            new_match_start_time := new_match_start_time q;
            new_created_at := new_created_at q;
            new_updated_at := new_updated_at q |}
  end.

(** The row [NEW] of an update of [OLD]: the assigned columns take the
    (cast) values of the request, the others keep theirs. *)
Definition assign (q : request) (OLD : row) : row :=
  {| id := id OLD; created_by := created_by OLD;
     match_name := default (match_name OLD) (new_match_name q);
     sport := default (sport OLD) (new_sport q);
     bet_type := default (bet_type OLD) (new_bet_type q);
     odds := default (odds OLD) (new_odds q);
     status := default (status OLD) (new_status q);
     analysis := default (analysis OLD) (new_analysis q);
     match_start_time := default (match_start_time OLD) (new_match_start_time q);
     created_at := default (created_at OLD) (new_created_at q);
     updated_at := default (updated_at OLD) (new_updated_at q) |}.

(** The rows of an update, one after the other: a row the condition selects
    goes through the triggers with its [NEW] row; one exception aborts the
    statement. *)
Fixpoint update_rows (now : timestamptz) (set : row -> row) (where_ : row -> bool)
    (tbl : list row) : result (list row) :=
  match tbl with
  | [] => Ok []
  | r :: tbl' =>
      r' ← (if where_ r then before_update now r (set r) else Ok r);
      tbl'' ← update_rows now set where_ tbl';
      Ok (r' :: tbl'')
  end.

(** [UPDATE tips SET ... WHERE ...]: the values are cast to their column
    types, then the selected rows are updated. *)
Definition update (now : timestamptz) (q : request) (where_ : row -> bool)
    (tbl : list row) : result (list row) :=
  q' ← cast q;
  update_rows now (assign q') where_ tbl.
End tips.

Module user_tracking.
Record row := {
  id : uuid;
  user_id : uuid;
  tip_id : uuid;
  stake : Q;
  created_at : timestamptz }.

(** [INSERT INTO user_tracking (user_id, tip_id, stake)]: the value is
    coerced to the column type, then [CHECK (stake > 0)],
    [UNIQUE(user_id, tip_id)] and the reference to [tips(id)] are
    checked in that order.  [fresh_id] and [now] stand for the column
    defaults. *)
Definition insert (tips_tbl : list tips.row) (fresh_id : uuid) (now : timestamptz)
    (uid tid : uuid) (stake_value : Q) (tbl : list row) : result (list row) :=
  s ← numeric_10_2 stake_value;
  if negb (Js.gt s 0) then
    Err (check_violation "user_tracking" "user_tracking_stake_check")
  else if existsb (fun r => String.eqb (user_id r) uid && String.eqb (tip_id r) tid) tbl then
    Err (unique_violation "user_tracking_user_id_tip_id_key")
  else if negb (existsb (fun tp => String.eqb (tips.id tp) tid) tips_tbl) then
    Err (foreign_key_violation "user_tracking" "user_tracking_tip_id_fkey")
  else
    Ok (tbl ++ [ {| id := fresh_id; user_id := uid; tip_id := tid;
                    stake := s; created_at := now |} ]).
End user_tracking.

Module tip_reactions.
Record row := {
  id : uuid;
  user_id : uuid;
  tip_id : uuid;
  reaction_type : string;
  created_at : timestamptz }.

Definition same_key (uid tid ty : string) (r : row) : bool :=
  String.eqb (user_id r) uid && String.eqb (tip_id r) tid
  && String.eqb (reaction_type r) ty.

(** [INSERT INTO tip_reactions (user_id, tip_id, reaction_type)] under
    [UNIQUE(user_id, tip_id, reaction_type)] and the reference to
    [tips(id)]. *)
Definition insert (tips_tbl : list tips.row) (fresh_id : uuid) (now : timestamptz)
    (uid tid ty : string) (tbl : list row) : result (list row) :=
  if existsb (same_key uid tid ty) tbl then
    Err (unique_violation "tip_reactions_user_id_tip_id_reaction_type_key")
  else if negb (existsb (fun tp => String.eqb (tips.id tp) tid) tips_tbl) then
    Err (foreign_key_violation "tip_reactions" "tip_reactions_tip_id_fkey")
  else
    Ok (tbl ++ [ {| id := fresh_id; user_id := uid; tip_id := tid;
                    reaction_type := ty; created_at := now |} ]).

(** [DELETE FROM tip_reactions WHERE user_id = .. AND tip_id = .. AND
    reaction_type = ..] *)
Definition delete (uid tid ty : string) (tbl : list row) : list row :=
  List.filter (fun r => negb (same_key uid tid ty r)) tbl.
End tip_reactions.

Module tip_comments.
Record row := {
  id : uuid;
  user_id : uuid;
  tip_id : uuid;
  content : string;
  created_at : timestamptz }.
End tip_comments.

(** [CREATE TYPE public.app_role AS ENUM ('admin', 'moderator', 'user')] *)
Inductive app_role : Set := admin | moderator | user.

#[global] Instance app_role_eq_dec : EqDecision app_role.
Proof. solve_decision. Defined.

Module user_roles.
Record row := {
  id : uuid;
  user_id : uuid;
  role : app_role }.
End user_roles.

(** [has_role(_user_id, _role)] *)
Definition has_role (roles_tbl : list user_roles.row) (_user_id : uuid) (_role : app_role)
    : bool :=
  existsb (fun r => String.eqb (user_roles.user_id r) _user_id
                    && bool_decide (user_roles.role r = _role)) roles_tbl.

(** The condition of the policies that let a caller insert, update or
    delete tips. *)
Definition may_manage_tips (roles_tbl : list user_roles.row) (uid : uuid) : bool :=
  has_role roles_tbl uid moderator || has_role roles_tbl uid admin.

(** [split_part(s, '@', 1)]: the text before the first [@]. *)
Fixpoint split_part_at_1 (s : string) : string :=
  match s with
  | EmptyString => EmptyString
  | String c s' => if Ascii.eqb c "@" then EmptyString else String c (split_part_at_1 s')
  end.

(** The columns of a new row of [auth.users] that [handle_new_user] reads
    (users of this application sign up with an email);
    [meta_username] is [raw_user_meta_data->>'username']. *)
Record auth_user := {
  auth_id : uuid;
  email : string;
  meta_username : option string }.

(** [handle_new_user()]: the profile and the [user] role of a new account,
    under the primary key of [profiles] and [UNIQUE(user_id, role)];
    [role_id] and [now] stand for the column defaults. *)
Definition handle_new_user (role_id : uuid) (now : timestamptz) (NEW : auth_user)
    (tables : list profiles.row * list user_roles.row)
    : result (list profiles.row * list user_roles.row) :=
  let '(profiles_tbl, roles_tbl) := tables in
  if existsb (fun p => String.eqb (profiles.id p) (auth_id NEW)) profiles_tbl then
    Err (unique_violation "profiles_pkey")
  else if has_role roles_tbl (auth_id NEW) user then
    Err (unique_violation "user_roles_user_id_role_key")
  else
    Ok (profiles_tbl ++ [ {| profiles.id := auth_id NEW;
                             profiles.username :=
                               default (split_part_at_1 (email NEW)) (meta_username NEW);
                             profiles.avatar_url := None;
                             profiles.created_at := now |} ],
        roles_tbl ++ [ {| user_roles.id := role_id;
                          user_roles.user_id := auth_id NEW;
                          user_roles.role := user |} ]).

End Migration.

(** ** [useAuth]: the role of the signed-in user *)
Module useAuth.
Import Migration.

(** [.from("user_roles").select("role").eq("user_id", userId)] *)
Definition select_roles (roles_tbl : list user_roles.row) (userId : uuid) : list app_role :=
  user_roles.role <$>
    List.filter (fun r => String.eqb (user_roles.user_id r) userId) roles_tbl.

(** The callback of [fetchRole]: the new value of the [role] state, given the
    rows received ([None] when the request gave no data). *)
Definition on_roles (data : option (list app_role)) (role : app_role) : app_role :=
  match data with
  | Some roles =>
      if (0 <? length roles)%nat then
        if bool_decide (admin ∈ roles) then admin
        else if bool_decide (moderator ∈ roles) then moderator
        else user
      else role
  | None => role
  end.

Definition fetchRole (roles_tbl : list user_roles.row) (userId : uuid) (role : app_role)
    : app_role :=
  on_roles (Some (select_roles roles_tbl userId)) role.

Definition isModerator (role : app_role) : bool :=
  bool_decide (role = moderator) || bool_decide (role = admin).

End useAuth.

(** ** [UserHistory]: one user's tracked bets *)
Module UserHistory.
Local Open Scope Q_scope.

Record TipInfo := {
  match_name : string;
  bet_type : string;
  odds : Q;
  status : tip_status;
  sport : string }.

Record TrackingEntry := {
  id : uuid;
  stake : Q;
  created_at : timestamptz;
  tips : TipInfo }.

Definition totalStaked (entries : list TrackingEntry) : Q :=
  fold_left (fun acc e => acc + stake e) entries 0.

Definition wonEntries (entries : list TrackingEntry) : list TrackingEntry :=
  filter (fun e => status (tips e) = won) entries.

Definition lostEntries (entries : list TrackingEntry) : list TrackingEntry :=
  filter (fun e => status (tips e) = lost) entries.

Definition totalProfit (entries : list TrackingEntry) : Q :=
  fold_left (fun acc e => acc + stake e * (odds (tips e) - 1)) (wonEntries entries) 0
  - fold_left (fun acc e => acc + stake e) (lostEntries entries) 0.

Definition roi (entries : list TrackingEntry) : Q :=
  if Js.gt (totalStaked entries) 0
  then (totalProfit entries / totalStaked entries) * 100
  else 0.

(** The win-rate figure (the number handed to [toFixed(0)]). *)
Definition winRate (entries : list TrackingEntry) : Q :=
  let w := length (wonEntries entries) in
  let l := length (lostEntries entries) in
  if (0 <? w + l)%nat
  then (Js.num w / Js.num (w + l)) * 100
  else 0.

(** The P/L cell of one history row. *)
Definition pl (e : TrackingEntry) : Q :=
  if decide (status (tips e) = won)
  then stake e * (odds (tips e) - 1)
  else if decide (status (tips e) = lost) then - stake e else 0.

End UserHistory.

(** ** [Dashboard]: the moderator's figures over all tips and stakes *)
Module Dashboard.
Local Open Scope Q_scope.

Record Tip := {
  id : uuid;
  match_name : string;
  sport : string;
  bet_type : string;
  odds : Q;
  status : tip_status;
  analysis : option string;
  match_start_time : timestamptz;
  created_at : timestamptz }.

Record Profile := { username : string }.

Record TrackingEntry := {
  entry_id : uuid;
  stake : Q;
  tip_id : uuid;
  user_id : uuid;
  profiles : option Profile }.

Definition totalTips (tips : list Tip) : nat := length tips.

Definition wonTips (tips : list Tip) : nat :=
  length (filter (fun t => status t = won) tips).

Definition lostTips (tips : list Tip) : nat :=
  length (filter (fun t => status t = lost) tips).

Definition totalStakes (tracking : list TrackingEntry) : Q :=
  fold_left (fun acc t => acc + stake t) tracking 0.

Definition wonTipIds (tips : list Tip) : gset string :=
  list_to_set (id <$> filter (fun t => status t = won) tips).

Definition lostTipIds (tips : list Tip) : gset string :=
  list_to_set (id <$> filter (fun t => status t = lost) tips).

(** [tips.find((tp) => tp.id === tip_id)] *)
Definition find_tip (tips : list Tip) (tid : uuid) : option Tip :=
  find (fun tp => String.eqb (id tp) tid) tips.

(** The reducer of [totalProfit]. *)
Definition profit_step (tips : list Tip) (acc : Q) (t : TrackingEntry) : Q :=
  match find_tip tips (tip_id t) with
  | None => acc
  | Some tip =>
      if decide (tip_id t ∈ wonTipIds tips) then acc + stake t * (odds tip - 1)
      else if decide (tip_id t ∈ lostTipIds tips) then acc - stake t
      else acc
  end.

Definition totalProfit (tips : list Tip) (tracking : list TrackingEntry) : Q :=
  fold_left (profit_step tips) tracking 0.

Definition roi (tips : list Tip) (tracking : list TrackingEntry) : Q :=
  if Js.gt (totalStakes tracking) 0
  then (totalProfit tips tracking / totalStakes tracking) * 100
  else 0.

Definition status_text (s : tip_status) : string :=
  match s with
  | pending => "pending"
  | won => "won"
  | lost => "lost"
  | void => "void"
  end.

(** [updateTipStatus]: [update({ status }).eq("id", tipId)] on the stored
    [tips] table, and the toast that reports the outcome. *)
Definition updateTipStatus (now : timestamptz) (tipId : uuid) (status : tip_status)
    (tbl : list Migration.tips.row) : toast * list Migration.tips.row :=
  match Migration.tips.update now (Migration.tips.only_status status)
          (fun r => String.eqb (Migration.tips.id r) tipId) tbl with
  | Migration.Err error => (toast_error (Migration.message error), tbl)
  | Migration.Ok tbl' => (toast_success ("Tip marked as " ++ status_text status), tbl')
  end.

End Dashboard.

(** ** [Leaderboard]: users ranked by realised profit *)
Module Leaderboard.
Local Open Scope Q_scope.

(** One element of [trackingData]:
    [user_id, stake, tip_id, tips(odds, status), profiles(username)]. *)
Module Row.
Record Tip := { odds : Q; status : tip_status }.
Record Profile := { username : string }.
Record t := {
  user_id : uuid;
  stake : Q;
  tip_id : uuid;
  tips : option Tip;
  profiles : option Profile }.
End Row.

Record LeaderboardEntry := {
  user_id : uuid;
  username : string;
  total_profit : Q;
  total_staked : Q;
  wins : nat;
  total_bets : nat }.

(** [t.profiles?.username || "User"] *)
Definition display_name (p : option Row.Profile) : string :=
  match p with
  | Some p => if String.eqb (Row.username p) "" then "User" else Row.username p
  | None => "User"
  end.

(** What the loop body does to the entry it fetched with [userMap.get]. *)
Definition account (tipStatus : tip_status) (odds stake : Q)
    (entry : LeaderboardEntry) : LeaderboardEntry :=
  let entry :=
    {| user_id := user_id entry; username := username entry;
       total_profit := total_profit entry;
       total_staked := total_staked entry + stake;
       wins := wins entry;
       total_bets := S (total_bets entry) |} in
  if decide (tipStatus = won) then
    {| user_id := user_id entry; username := username entry;
       total_profit := total_profit entry + stake * (odds - 1);
       total_staked := total_staked entry;
       wins := S (wins entry);
       total_bets := total_bets entry |}
  else if decide (tipStatus = lost) then
    {| user_id := user_id entry; username := username entry;
       total_profit := total_profit entry - stake;
       total_staked := total_staked entry;
       wins := wins entry;
       total_bets := total_bets entry |}
  else entry.

(** The body of [trackingData.forEach]. *)
Definition visit (userMap : Js.Map LeaderboardEntry) (t : Row.t)
    : Js.Map LeaderboardEntry :=
  match Row.tips t with
  | None => userMap
  | Some tip =>
      let tipStatus := Row.status tip in
      if bool_decide (tipStatus = pending) || bool_decide (tipStatus = void)
      then userMap
      else
        let uid := Row.user_id t in
        let userMap :=
          if Js.has uid userMap then userMap
          else Js.set uid
                 {| user_id := uid; username := display_name (Row.profiles t);
                    total_profit := 0; total_staked := 0;
                    wins := 0; total_bets := 0 |} userMap in
        Js.mutate uid (account tipStatus (Row.odds tip) (Row.stake t)) userMap
  end.

Definition group_by_user (trackingData : list Row.t) : Js.Map LeaderboardEntry :=
  fold_left visit trackingData [].

(** [(a, b) => b.total_profit - a.total_profit] *)
Definition by_profit (a b : LeaderboardEntry) : Q :=
  total_profit b - total_profit a.

(** The entries [fetchLeaderboard] hands to [setEntries]. *)
Definition fetchLeaderboard (trackingData : list Row.t) : list LeaderboardEntry :=
  take 10 (Js.sort by_profit (Js.values (group_by_user trackingData))).

(** The ROI printed for one entry. *)
Definition roi (entry : LeaderboardEntry) : Q :=
  if Js.gt (total_staked entry) 0
  then (total_profit entry / total_staked entry) * 100
  else 0.

End Leaderboard.

(** ** [Index]: the tips feed and its reaction tally *)
Module Index.
Import Migration.

Record Reactions := {
  like : nat;
  fire : nat;
  userLiked : bool;
  userFired : bool }.

Definition no_reactions : Reactions :=
  {| like := 0; fire := 0; userLiked := false; userFired := false |}.

(** [r.user_id === user?.id] *)
Definition is_viewer (user : option uuid) (uid : uuid) : bool :=
  match user with
  | Some u => String.eqb uid u
  | None => false
  end.

Definition add_like (mine : bool) (m : Reactions) : Reactions :=
  {| like := S (like m); fire := fire m;
     userLiked := if mine then true else userLiked m;
     userFired := userFired m |}.

Definition add_fire (mine : bool) (m : Reactions) : Reactions :=
  {| like := like m; fire := S (fire m);
     userLiked := userLiked m;
     userFired := if mine then true else userFired m |}.

(** The body of [data.forEach] in [fetchReactions]. *)
Definition count_reaction (user : option uuid) (map : gmap string Reactions)
    (r : tip_reactions.row) : gmap string Reactions :=
  let tid := tip_reactions.tip_id r in
  let map :=
    match map !! tid with
    | None => <[tid := no_reactions]> map
    | Some _ => map
    end in
  if String.eqb (tip_reactions.reaction_type r) "like" then
    alter (add_like (is_viewer user (tip_reactions.user_id r))) tid map
  else if String.eqb (tip_reactions.reaction_type r) "fire" then
    alter (add_fire (is_viewer user (tip_reactions.user_id r))) tid map
  else map.

(** [fetchReactions]: the tally of all rows of [tip_reactions]. *)
Definition fetchReactions (user : option uuid) (data : list tip_reactions.row)
    : gmap string Reactions :=
  fold_left (count_reaction user) data ∅.

(** What a card shows: [reactions[tip.id] || { like: 0, ... }]. *)
Definition shown (reactions : gmap string Reactions) (tipId : uuid) : Reactions :=
  default no_reactions (reactions !! tipId).

(** The page state [handleReact] reads and rewrites: the stored reactions
    and the tally of the last fetch. *)
Record State := {
  tip_reactions_tbl : list tip_reactions.row;
  reactions : gmap string Reactions }.

(** [handleReact(tipId, type)] followed by the [fetchReactions] it ends
    with.  A failed insert is not looked at. *)
Definition handleReact (user : option uuid) (tips_tbl : list tips.row)
    (fresh_id : uuid) (now : timestamptz) (tipId type : string) (st : State) : State :=
  match user with
  | None => st
  | Some uid =>
      let current :=
        match reactions st !! tipId with
        | Some m => if String.eqb type "like" then userLiked m else userFired m
        | None => false
        end in
      let tbl :=
        if current
        then tip_reactions.delete uid tipId type (tip_reactions_tbl st)
        else table_after (tip_reactions_tbl st)
               (tip_reactions.insert tips_tbl fresh_id now uid tipId type
                  (tip_reactions_tbl st)) in
      {| tip_reactions_tbl := tbl; reactions := fetchReactions user tbl |}
  end.

(** [fetchTracking]: the tips the signed-in user tracks; without a user the
    state is left as it is. *)
Definition fetchTracking (user : option uuid) (tbl : list user_tracking.row)
    (trackedTips : gset string) : gset string :=
  match user with
  | None => trackedTips
  | Some uid =>
      list_to_set
        (user_tracking.tip_id <$>
           List.filter (fun t => String.eqb (user_tracking.user_id t) uid) tbl)
  end.

(** The body of [data.forEach] in [fetchCommentCounts]. *)
Definition count_comment (counts : gmap string nat) (c : tip_comments.row)
    : gmap string nat :=
  <[tip_comments.tip_id c := default 0 (counts !! tip_comments.tip_id c) + 1]> counts.

Definition fetchCommentCounts (data : list tip_comments.row) : gmap string nat :=
  fold_left count_comment data ∅.

(** What a card receives: [commentCounts[tip.id] || 0]. *)
Definition commentCount (commentCounts : gmap string nat) (tipId : uuid) : nat :=
  default 0 (commentCounts !! tipId).

Record Profile := { username : string }.

Record Tip := {
  id : uuid;
  match_name : string;
  sport : string;
  bet_type : string;
  odds : Q;
  status : tip_status;
  analysis : option string;
  match_start_time : timestamptz;
  created_at : timestamptz;
  created_by : uuid;
  profiles : option Profile }.

Definition activeTips (tips : list Tip) : list Tip :=
  filter (fun t => status t = pending) tips.

Definition settledTips (tips : list Tip) : list Tip :=
  filter (fun t => status t <> pending) tips.

End Index.

(** ** [TipComments]: the comments under one tip *)
Module TipComments.
Import Migration.

Record Profile := { username : string }.

(** A row of [select("*, profiles(username)")]. *)
Record Comment := {
  id : uuid;
  user_id : uuid;
  tip_id : uuid;
  content : string;
  created_at : timestamptz;
  profiles : option Profile }.

Definition with_profile (profiles_tbl : list profiles.row) (c : tip_comments.row)
    : Comment :=
  {| id := tip_comments.id c;
     user_id := tip_comments.user_id c;
     tip_id := tip_comments.tip_id c;
     content := tip_comments.content c;
     created_at := tip_comments.created_at c;
     profiles :=
       (fun p => {| username := profiles.username p |}) <$>
       find (fun p => String.eqb (profiles.id p) (tip_comments.user_id c)) profiles_tbl |}.

(** [.eq("tip_id", tipId).order("created_at", { ascending: true })] *)
Definition fetchComments (profiles_tbl : list profiles.row)
    (tbl : list tip_comments.row) (tipId : uuid) : list Comment :=
  with_profile profiles_tbl <$>
    (order_by_asc tip_comments.created_at
       (List.filter (fun c => String.eqb (tip_comments.tip_id c) tipId) tbl)).

End TipComments.

(** ** [TipCard]: tracking a tip with a stake *)
Module TipCard.
Import Migration.

(** [handleStake] for the signed-in user [uid] on the card of tip [tid].
    [stake] is [parseFloat] of the input ([None] for [NaN]).  The result
    is the toast and the stored [user_tracking] table afterwards. *)
Definition handleStake (tips_tbl : list tips.row) (fresh_id : uuid) (now : timestamptz)
    (uid tid : uuid) (stake : option Q) (tbl : list user_tracking.row)
    : toast * list user_tracking.row :=
  match stake with
  | None => (toast_error "Enter a valid stake amount", tbl)
  | Some stakeNum =>
      if Qeq_bool stakeNum 0 || Qle_bool stakeNum 0 then
        (toast_error "Enter a valid stake amount", tbl)
      else
        match user_tracking.insert tips_tbl fresh_id now uid tid stakeNum tbl with
        | Err error =>
            if Js.includes (message error) "duplicate"
            then (toast_error "You already tracked this tip", tbl)
            else (toast_error "Failed to track tip", tbl)
        | Ok tbl' => (toast_success "Tip tracked!", tbl')
        end
  end.

(** When the card offers the "I played this!" button:
    [user && tip.status === "pending" && !isTracked]. *)
Definition offers_tracking (user : option uuid) (status : tip_status) (isTracked : bool)
    : bool :=
  bool_decide (is_Some user) && bool_decide (status = pending) && negb isTracked.

End TipCard.

(** ** Reference definitions, following the data model *)

(** The realised profit of a stake of [amount] on a tip with the given
    status and odds. *)
Definition profit (status : tip_status) (amount odds : Q) : Q :=
  match status with
  | won => amount * (odds - 1)
  | lost => - amount
  | pending | void => 0
  end.

(** A tip is settled once it is won or lost. *)
Definition settled (status : tip_status) : Prop := status = won \/ status = lost.

#[global] Instance settled_dec (s : tip_status) : Decision (settled s).
Proof. unfold settled. apply _. Defined.

Definition Qsum (l : list Q) : Q := foldr Qplus 0%Q l.

(** The sum of a list of amounts as [reduce] accumulates it: from 0, the
    elements added one after the other, left to right. *)
Definition sum_left (l : list Q) : Q := fold_left Qplus l 0%Q.

(** What one stake adds to the dashboard's profit: the profit of the stake
    on the tip its [tip_id] resolves to, nothing when it resolves to none. *)
Definition contribution (tips : list Dashboard.Tip) (t : Dashboard.TrackingEntry) : Q :=
  match Dashboard.find_tip tips (Dashboard.tip_id t) with
  | Some tip => profit (Dashboard.status tip) (Dashboard.stake t) (Dashboard.odds tip)
  | None => 0
  end.

(** The number of stakes whose tip has status [s], among the statuses of the
    tips of a list of stakes. *)
Fixpoint count_status (s : tip_status) (statuses : list tip_status) : nat :=
  match statuses with
  | [] => 0
  | x :: statuses' => (if decide (x = s) then 1 else 0) + count_status s statuses'
  end.

(** ** Sample data *)
Module Sample.
Local Open Scope string_scope.
Local Open Scope Q_scope.

Definition history_entry (i : string) (amount o : Q) (s : tip_status)
    : UserHistory.TrackingEntry :=
  {| UserHistory.id := i; UserHistory.stake := amount; UserHistory.created_at := 0%Z;
     UserHistory.tips :=
       {| UserHistory.match_name := "PSG vs OM"; UserHistory.bet_type := "Over 1.5 goals";
          UserHistory.odds := o; UserHistory.status := s; UserHistory.sport := "Football" |} |}.

Definition history : list UserHistory.TrackingEntry :=
  [ history_entry "s1" 10 4 won; history_entry "s2" 20 (3 # 2) lost;
    history_entry "s3" 5 2 pending; history_entry "s4" 7 2 void ].

Definition tip (i : string) (o : Q) (s : tip_status) : Dashboard.Tip :=
  {| Dashboard.id := i; Dashboard.match_name := "PSG vs OM"; Dashboard.sport := "Football";
     Dashboard.bet_type := "Over 1.5 goals"; Dashboard.odds := o; Dashboard.status := s;
     Dashboard.analysis := None; Dashboard.match_start_time := 100%Z;
     Dashboard.created_at := 0%Z |}.

Definition tips : list Dashboard.Tip :=
  [ tip "t1" 2 won; tip "t2" (3 # 2) lost; tip "t3" 2 pending ].

Definition tracked (i tid uid : string) (amount : Q) : Dashboard.TrackingEntry :=
  {| Dashboard.entry_id := i; Dashboard.stake := amount; Dashboard.tip_id := tid;
     Dashboard.user_id := uid; Dashboard.profiles := None |}.

Definition tracking : list Dashboard.TrackingEntry :=
  [ tracked "s1" "t1" "u1" 10; tracked "s2" "t2" "u1" 20; tracked "s3" "t3" "u2" 5 ].

(** A stake whose tip is not among [tips]. *)
Definition orphan : Dashboard.TrackingEntry := tracked "s9" "t9" "u3" 10.
End Sample.

(** ** The leaderboard, as the specification words it *)

(** A tracking row takes part in the leaderboard when its tip is settled. *)
Definition settled_row (t : Leaderboard.Row.t) : Prop :=
  match Leaderboard.Row.tips t with
  | Some tip => settled (Leaderboard.Row.status tip)
  | None => False
  end.

#[global] Instance settled_row_dec (t : Leaderboard.Row.t) : Decision (settled_row t).
Proof. unfold settled_row. destruct (Leaderboard.Row.tips t); apply _. Defined.

Definition won_row (t : Leaderboard.Row.t) : Prop :=
  match Leaderboard.Row.tips t with
  | Some tip => Leaderboard.Row.status tip = won
  | None => False
  end.

#[global] Instance won_row_dec (t : Leaderboard.Row.t) : Decision (won_row t).
Proof. unfold won_row. destruct (Leaderboard.Row.tips t); apply _. Defined.

Definition row_profit (t : Leaderboard.Row.t) : Q :=
  match Leaderboard.Row.tips t with
  | Some tip =>
      profit (Leaderboard.Row.status tip) (Leaderboard.Row.stake t) (Leaderboard.Row.odds tip)
  | None => 0
  end.

(** The settled stakes of user [uid]. *)
Definition settled_stakes (uid : uuid) (rows : list Leaderboard.Row.t)
    : list Leaderboard.Row.t :=
  filter (fun t => settled_row t /\ Leaderboard.Row.user_id t = uid) rows.

(** Entry [e] carries the totals of the settled stakes of its user. *)
Definition totals (rows : list Leaderboard.Row.t) (e : Leaderboard.LeaderboardEntry)
    : Prop :=
  let mine := settled_stakes (Leaderboard.user_id e) rows in
  (Leaderboard.total_staked e == Qsum (Leaderboard.Row.stake <$> mine))%Q
  /\ (Leaderboard.total_profit e == Qsum (row_profit <$> mine))%Q
  /\ Leaderboard.wins e = length (filter won_row mine)
  /\ Leaderboard.total_bets e = length mine.

(** ... of which there is at least one. *)
Definition summarizes (rows : list Leaderboard.Row.t) (e : Leaderboard.LeaderboardEntry)
    : Prop :=
  totals rows e /\ settled_stakes (Leaderboard.user_id e) rows <> [].

(** The state of the grouping loop after the rows [rows]: one entry per
    user with a settled stake, filed under the user's id. *)
Definition tracks (rows : list Leaderboard.Row.t)
    (m : Js.Map Leaderboard.LeaderboardEntry) : Prop :=
  NoDup m.*1
  /\ (forall k e, Js.get k m = Some e -> Leaderboard.user_id e = k /\ summarizes rows e)
  /\ (forall k, Js.get k m = None -> settled_stakes k rows = []).

(** Non-increasing profit. *)
Definition profit_ge (a b : Leaderboard.LeaderboardEntry) : Prop :=
  (Leaderboard.total_profit b <= Leaderboard.total_profit a)%Q.

Module SampleBoard.
Local Open Scope string_scope.
Local Open Scope Q_scope.

Definition row (uid tid : string) (amount o : Q) (s : tip_status) : Leaderboard.Row.t :=
  {| Leaderboard.Row.user_id := uid; Leaderboard.Row.stake := amount;
     Leaderboard.Row.tip_id := tid;
     Leaderboard.Row.tips :=
       Some {| Leaderboard.Row.odds := o; Leaderboard.Row.status := s |};
     Leaderboard.Row.profiles := Some {| Leaderboard.Row.username := uid |} |}.

(** [carol] has stakes on pending and void tips only. *)
Definition rows : list Leaderboard.Row.t :=
  [ row "alice" "t1" 10 2 lost; row "bob" "t2" 5 3 won;
    row "carol" "t3" 5 2 pending; row "alice" "t2" 30 3 won;
    row "carol" "t4" 8 2 void; row "dave" "t1" 4 2 lost ].
End SampleBoard.

Module SampleTips.
Local Open Scope string_scope.
Local Open Scope Q_scope.

(** A stored tip whose match starts at time 100. *)
Definition psg_om : Migration.tips.row :=
  {| Migration.tips.id := "t1"; Migration.tips.created_by := "mod";
     Migration.tips.match_name := "PSG vs OM"; Migration.tips.sport := "Football";
     Migration.tips.bet_type := "Over 1.5 goals"; Migration.tips.odds := 185 # 100;
     Migration.tips.status := pending; Migration.tips.analysis := None;
     Migration.tips.match_start_time := 100%Z; Migration.tips.created_at := 10%Z;
     Migration.tips.updated_at := 10%Z |}.

Definition set_odds (o : Q) (r : Migration.tips.row) : Migration.tips.row :=
  {| Migration.tips.id := Migration.tips.id r;
     Migration.tips.created_by := Migration.tips.created_by r;
     Migration.tips.match_name := Migration.tips.match_name r;
     Migration.tips.sport := Migration.tips.sport r;
     Migration.tips.bet_type := Migration.tips.bet_type r;
     Migration.tips.odds := o;
     Migration.tips.status := Migration.tips.status r;
     Migration.tips.analysis := Migration.tips.analysis r;
     Migration.tips.match_start_time := Migration.tips.match_start_time r;
     Migration.tips.created_at := Migration.tips.created_at r;
     Migration.tips.updated_at := Migration.tips.updated_at r |}.


Definition other : Migration.tips.row :=
  {| Migration.tips.id := "t2"; Migration.tips.created_by := "mod";
     Migration.tips.match_name := "Lakers vs Celtics"; Migration.tips.sport := "Basketball";
     Migration.tips.bet_type := "Lakers win"; Migration.tips.odds := 2;
     Migration.tips.status := pending; Migration.tips.analysis := None;
     Migration.tips.match_start_time := 500%Z; Migration.tips.created_at := 20%Z;
     Migration.tips.updated_at := 20%Z |}.

Definition table : list Migration.tips.row := [psg_om; other].
End SampleTips.

(** ** The anti-cheat rule, as the specification words it *)

(** [NEW] changes the bet terms of [OLD]: its match name, bet type or odds. *)
Definition changes_terms (OLD NEW : Migration.tips.row) : Prop :=
  Migration.tips.match_name NEW <> Migration.tips.match_name OLD
  \/ Migration.tips.bet_type NEW <> Migration.tips.bet_type OLD
  \/ ~ (Migration.tips.odds NEW == Migration.tips.odds OLD)%Q.


Module SampleComments.
Local Open Scope string_scope.

Definition comment (i uid tid text : string) (at_ : Z) : Migration.tip_comments.row :=
  {| Migration.tip_comments.id := i; Migration.tip_comments.user_id := uid;
     Migration.tip_comments.tip_id := tid; Migration.tip_comments.content := text;
     Migration.tip_comments.created_at := at_ |}.

Definition table : list Migration.tip_comments.row :=
  [ comment "c1" "alice" "t1" "Good pick" 30; comment "c2" "bob" "t2" "Risky" 10;
    comment "c3" "bob" "t1" "Agreed" 20; comment "c4" "carol" "t1" "Let us see" 25 ].

Definition profiles : list Migration.profiles.row :=
  [ {| Migration.profiles.id := "alice"; Migration.profiles.username := "Alice";
       Migration.profiles.avatar_url := None; Migration.profiles.created_at := 1 |} ].
End SampleComments.

(** Creation times in ascending order. *)
Definition created_le (a b : TipComments.Comment) : Prop :=
  (TipComments.created_at a <= TipComments.created_at b)%Z.

Module SampleStakes.
Local Open Scope string_scope.
Local Open Scope Q_scope.

Definition table : list Migration.user_tracking.row :=
  [ {| Migration.user_tracking.id := "s1"; Migration.user_tracking.user_id := "alice";
       Migration.user_tracking.tip_id := "t1"; Migration.user_tracking.stake := 10;
       Migration.user_tracking.created_at := 40 |};
    {| Migration.user_tracking.id := "s2"; Migration.user_tracking.user_id := "bob";
       Migration.user_tracking.tip_id := "t1"; Migration.user_tracking.stake := 5;
       Migration.user_tracking.created_at := 41 |} ].
End SampleStakes.

(** User [uid] already tracks tip [tid]. *)
Definition tracked_by (uid tid : uuid) (tbl : list Migration.user_tracking.row) : Prop :=
  exists r, r ∈ tbl
    /\ Migration.user_tracking.user_id r = uid /\ Migration.user_tracking.tip_id r = tid.

Definition already_tracked : toast := toast_error "You already tracked this tip".
Definition failed_to_track : toast := toast_error "Failed to track tip".

(** ** The reaction tally, as the specification words it *)

(** What identifies a reaction: who reacted, on which tip, with which kind. *)
Definition reaction_key (r : Migration.tip_reactions.row) : string * string * string :=
  (Migration.tip_reactions.user_id r, Migration.tip_reactions.tip_id r,
   Migration.tip_reactions.reaction_type r).

(** [UNIQUE(user_id, tip_id, reaction_type)] *)
Definition unique_reactions (tbl : list Migration.tip_reactions.row) : Prop :=
  NoDup (reaction_key <$> tbl).

(** Tip [tid] is stored. *)
Definition tip_exists (tips_tbl : list Migration.tips.row) (tid : string) : Prop :=
  tid ∈ Migration.tips.id <$> tips_tbl.

#[global] Instance tip_exists_dec tips_tbl tid : Decision (tip_exists tips_tbl tid).
Proof. unfold tip_exists. apply _. Defined.


(** User [uid] has a reaction of kind [ty] on tip [tid]. *)
Definition reacted (uid tid ty : string) (tbl : list Migration.tip_reactions.row) : Prop :=
  (uid, tid, ty) ∈ reaction_key <$> tbl.

#[global] Instance reacted_dec uid tid ty tbl : Decision (reacted uid tid ty tbl).
Proof. unfold reacted. apply _. Defined.

Definition on_tip (tid : string) (k : string * string * string) : Prop :=
  k.1.2 = tid.

Definition of_kind (tid ty : string) (k : string * string * string) : Prop :=
  k.1.2 = tid /\ k.2 = ty.

Definition by_viewer (user : option string) (tid ty : string)
    (k : string * string * string) : Prop :=
  user = Some k.1.1 /\ k.1.2 = tid /\ k.2 = ty.

#[global] Instance on_tip_dec tid k : Decision (on_tip tid k).
Proof. unfold on_tip. apply _. Defined.

#[global] Instance of_kind_dec tid ty k : Decision (of_kind tid ty k).
Proof. unfold of_kind. apply _. Defined.

#[global] Instance by_viewer_dec user tid ty k : Decision (by_viewer user tid ty k).
Proof. unfold by_viewer. apply _. Defined.

(** The counts and flags of tip [tid] among the reactions [keys]. *)
Definition counts (user : option string) (keys : list (string * string * string))
    (tid : string) : Index.Reactions :=
  {| Index.like := length (filter (of_kind tid "like") keys);
     Index.fire := length (filter (of_kind tid "fire") keys);
     Index.userLiked := bool_decide (Exists (by_viewer user tid "like") keys);
     Index.userFired := bool_decide (Exists (by_viewer user tid "fire") keys) |}.

(** The tally has an entry for the tips that have a reaction. *)
Definition tally_of (user : option string) (keys : list (string * string * string))
    (tid : string) : option Index.Reactions :=
  if decide (Exists (on_tip tid) keys) then Some (counts user keys tid) else None.

(** One more reaction with key [k], added to the counts of its tip. *)
Definition bump (user : option string) (k : string * string * string)
    (m : Index.Reactions) : Index.Reactions :=
  if String.eqb k.2 "like" then Index.add_like (Index.is_viewer user k.1.1) m
  else if String.eqb k.2 "fire" then Index.add_fire (Index.is_viewer user k.1.1) m
  else m.

(** The stored reactions after one toggle by [uid]: the reaction is removed
    when there is one, added when there is none and the tip is stored. *)
Definition toggled (tips_tbl : list Migration.tips.row) (fresh_id : string) (now : Z)
    (uid tid ty : string) (tbl : list Migration.tip_reactions.row)
    : list Migration.tip_reactions.row :=
  if decide (reacted uid tid ty tbl)
  then filter (fun r => reaction_key r <> (uid, tid, ty)) tbl
  else if decide (tip_exists tips_tbl tid)
       then tbl ++ [ {| Migration.tip_reactions.id := fresh_id;
                        Migration.tip_reactions.user_id := uid;
                        Migration.tip_reactions.tip_id := tid;
                        Migration.tip_reactions.reaction_type := ty;
                        Migration.tip_reactions.created_at := now |} ]
       else tbl.

Module SampleReactions.
Local Open Scope string_scope.

Definition reaction (i uid tid ty : string) : Migration.tip_reactions.row :=
  {| Migration.tip_reactions.id := i; Migration.tip_reactions.user_id := uid;
     Migration.tip_reactions.tip_id := tid; Migration.tip_reactions.reaction_type := ty;
     Migration.tip_reactions.created_at := 50 |}.

Definition table : list Migration.tip_reactions.row :=
  [ reaction "r1" "alice" "t1" "like"; reaction "r2" "bob" "t1" "like";
    reaction "r3" "alice" "t2" "fire" ].

Definition page (user : option string) : Index.State :=
  {| Index.tip_reactions_tbl := table;
     Index.reactions := Index.fetchReactions user table |}.
End SampleReactions.

(** ** The history a dashboard row would show *)

(** The history entry of a tracked stake: the stake joined with the tip its
    [tip_id] resolves to (as [select("*, tips(...)")] embeds it); none when
    the tip is missing. *)
Definition history_entry_of (tips : list Dashboard.Tip) (t : Dashboard.TrackingEntry)
    : option UserHistory.TrackingEntry :=
  tip ← Dashboard.find_tip tips (Dashboard.tip_id t);
  Some {| UserHistory.id := Dashboard.entry_id t;
          UserHistory.stake := Dashboard.stake t;
          UserHistory.created_at := 0;
          UserHistory.tips :=
            {| UserHistory.match_name := Dashboard.match_name tip;
               UserHistory.bet_type := Dashboard.bet_type tip;
               UserHistory.odds := Dashboard.odds tip;
               UserHistory.status := Dashboard.status tip;
               UserHistory.sport := Dashboard.sport tip |} |}.

Definition history_of (tips : list Dashboard.Tip) (tracking : list Dashboard.TrackingEntry)
    : list UserHistory.TrackingEntry :=
  omap (history_entry_of tips) tracking.

(** ** The order of the grouping *)

(** The users of a list, each at the place of its first appearance. *)
Fixpoint first_seen (users : list string) : list string :=
  match users with
  | [] => []
  | u :: users' => u :: filter (fun v => v <> u) (first_seen users')
  end.

(** ** Invariants of the stored stakes *)

(** [UNIQUE(user_id, tip_id)], [CHECK (stake > 0)] and the reference to
    [tips(id)]. *)
Definition tracking_constraints (tips_tbl : list Migration.tips.row)
    (tbl : list Migration.user_tracking.row) : Prop :=
  NoDup ((fun r => (Migration.user_tracking.user_id r, Migration.user_tracking.tip_id r))
           <$> tbl)
  /\ Forall (fun r => (0 < Migration.user_tracking.stake r)%Q
                      /\ tip_exists tips_tbl (Migration.user_tracking.tip_id r)) tbl.

(** ** Edits of a stored tip *)

(** [SET match_start_time = t] *)
Definition set_match_start_time (t : Z) (r : Migration.tips.row) : Migration.tips.row :=
  {| Migration.tips.id := Migration.tips.id r;
     Migration.tips.created_by := Migration.tips.created_by r;
     Migration.tips.match_name := Migration.tips.match_name r;
     Migration.tips.sport := Migration.tips.sport r;
     Migration.tips.bet_type := Migration.tips.bet_type r;
     Migration.tips.odds := Migration.tips.odds r;
     Migration.tips.status := Migration.tips.status r;
     Migration.tips.analysis := Migration.tips.analysis r;
     Migration.tips.match_start_time := t;
     Migration.tips.created_at := Migration.tips.created_at r;
     Migration.tips.updated_at := Migration.tips.updated_at r |}.

Module SampleRoles.
Local Open Scope string_scope.

Definition table : list Migration.user_roles.row :=
  [ {| Migration.user_roles.id := "ur1"; Migration.user_roles.user_id := "alice";
       Migration.user_roles.role := Migration.user |};
    {| Migration.user_roles.id := "ur2"; Migration.user_roles.user_id := "mod";
       Migration.user_roles.role := Migration.user |};
    {| Migration.user_roles.id := "ur3"; Migration.user_roles.user_id := "mod";
       Migration.user_roles.role := Migration.moderator |} ].

Definition newcomer : Migration.auth_user :=
  {| Migration.auth_id := "erin"; Migration.email := "erin@example.org";
     Migration.meta_username := None |}.
End SampleRoles.

(** * The money figures in the arithmetic of the pages

    The reductions above add and multiply amounts as exact rationals.  The
    pages compute them with JavaScript numbers: IEEE 754 binary64, every
    operation rounded to the nearest number, ties to even.  There the
    result of a sum depends on the order and on the grouping of its
    additions.  This module gives the money reductions of the three pages
    over binary64 numbers, operation for operation; the rows are the same
    as above, their decimal amounts read by [Number]. *)
Module Binary64.
Module H := UserHistory.
Module D := Dashboard.
Module L := Leaderboard.
Local Open Scope float_scope.

(** An integer as a number (exact below 2^53). *)
Definition of_Z (z : Z) : float := SF2Prim (binary_normalize prec emax z 0 false).

(** [Number(x)] for a decimal amount [x] of the reply: the binary64 number
    nearest to it (for the amounts a [DECIMAL(10,2)] column holds, whose
    numerator and denominator are exact numbers). *)
Definition Number (x : Q) : float := of_Z (Qnum x) / of_Z (Z.pos (Qden x)).

(** [a >= b] on numbers. *)
Definition ge (a b : float) : bool := PrimFloat.leb b a.

(** A counter read as a number. *)
Definition num (n : nat) : float := of_Z (Z.of_nat n).

(** [Array.prototype.sort(cmp)] with a comparator that returns a number: a
    stable sort, as in [Js.sort].  [x] comes from the left of the sorted
    rest and goes behind [y] only when [cmp x y > 0]; a comparison that is
    not a number counts as 0. *)
Section Sort.
Context {A : Type} (cmp : A -> A -> float).

Fixpoint insert_sorted (x : A) (l : list A) : list A :=
  match l with
  | [] => [x]
  | y :: l' =>
      if PrimFloat.ltb 0 (cmp x y) then y :: insert_sorted x l'
      else x :: y :: l'
  end.

Definition sort (l : list A) : list A := foldr insert_sorted [] l.
End Sort.

Module UserHistory.

Definition totalStaked (entries : list H.TrackingEntry) : float :=
  fold_left (fun acc e => acc + Number (H.stake e)) entries 0.

Definition totalProfit (entries : list H.TrackingEntry) : float :=
  fold_left (fun acc e => acc + Number (H.stake e) * (Number (H.odds (H.tips e)) - 1))
    (H.wonEntries entries) 0
  - fold_left (fun acc e => acc + Number (H.stake e)) (H.lostEntries entries) 0.

Definition winRate (entries : list H.TrackingEntry) : float :=
  let w := length (H.wonEntries entries) in
  let l := length (H.lostEntries entries) in
  if (0 <? w + l)%nat
  then (num w / num (w + l)) * 100
  else 0.

(** The total is printed as a gain when [totalProfit >= 0], as a loss
    otherwise. *)
Definition shown_as_loss (entries : list H.TrackingEntry) : bool :=
  negb (ge (totalProfit entries) 0).

End UserHistory.

Module Dashboard.

Definition totalStakes (tracking : list D.TrackingEntry) : float :=
  fold_left (fun acc t => acc + Number (D.stake t)) tracking 0.

Definition profit_step (tips : list D.Tip) (acc : float) (t : D.TrackingEntry) : float :=
  match D.find_tip tips (D.tip_id t) with
  | None => acc
  | Some tip =>
      if decide (D.tip_id t ∈ D.wonTipIds tips)
      then acc + Number (D.stake t) * (Number (D.odds tip) - 1)
      else if decide (D.tip_id t ∈ D.lostTipIds tips) then acc - Number (D.stake t)
      else acc
  end.

Definition totalProfit (tips : list D.Tip) (tracking : list D.TrackingEntry) : float :=
  fold_left (profit_step tips) tracking 0.

End Dashboard.

Module Leaderboard.

Record LeaderboardEntry := {
  user_id : uuid;
  username : string;
  total_profit : float;
  total_staked : float;
  wins : nat;
  total_bets : nat }.

Definition account (tipStatus : tip_status) (odds stake : float)
    (entry : LeaderboardEntry) : LeaderboardEntry :=
  let entry :=
    {| user_id := user_id entry; username := username entry;
       total_profit := total_profit entry;
       total_staked := total_staked entry + stake;
       wins := wins entry;
       total_bets := S (total_bets entry) |} in
  if decide (tipStatus = won) then
    {| user_id := user_id entry; username := username entry;
       total_profit := total_profit entry + stake * (odds - 1);
       total_staked := total_staked entry;
       wins := S (wins entry);
       total_bets := total_bets entry |}
  else if decide (tipStatus = lost) then
    {| user_id := user_id entry; username := username entry;
       total_profit := total_profit entry - stake;
       total_staked := total_staked entry;
       wins := wins entry;
       total_bets := total_bets entry |}
  else entry.

Definition visit (userMap : Js.Map LeaderboardEntry) (t : L.Row.t)
    : Js.Map LeaderboardEntry :=
  match L.Row.tips t with
  | None => userMap
  | Some tip =>
      let tipStatus := L.Row.status tip in
      if bool_decide (tipStatus = pending) || bool_decide (tipStatus = void)
      then userMap
      else
        let uid := L.Row.user_id t in
        let userMap :=
          if Js.has uid userMap then userMap
          else Js.set uid
                 {| user_id := uid; username := L.display_name (L.Row.profiles t);
                    total_profit := 0; total_staked := 0;
                    wins := 0; total_bets := 0 |} userMap in
        Js.mutate uid
          (account tipStatus (Number (L.Row.odds tip)) (Number (L.Row.stake t))) userMap
  end.

Definition group_by_user (trackingData : list L.Row.t) : Js.Map LeaderboardEntry :=
  fold_left visit trackingData [].

(** [(a, b) => b.total_profit - a.total_profit] *)
Definition by_profit (a b : LeaderboardEntry) : float :=
  total_profit b - total_profit a.

(** All entries by profit, before the first ten are kept. *)
Definition ranking (trackingData : list L.Row.t) : list LeaderboardEntry :=
  sort by_profit (Js.values (group_by_user trackingData)).

Definition fetchLeaderboard (trackingData : list L.Row.t) : list LeaderboardEntry :=
  take 10 (ranking trackingData).

End Leaderboard.

End Binary64.

(** ** Amounts that do not add up exactly in binary64 *)
Module SampleRounding.
Local Open Scope string_scope.
Local Open Scope Q_scope.

(** One won stake of 0.60 at odds 2.00 and three lost stakes of 0.10, 0.20
    and 0.30: in exact arithmetic the profit is 0. *)
Definition history : list UserHistory.TrackingEntry :=
  [ Sample.history_entry "s1" (60 # 100) 2 won;
    Sample.history_entry "s2" (10 # 100) 2 lost;
    Sample.history_entry "s3" (20 # 100) 2 lost;
    Sample.history_entry "s4" (30 # 100) 2 lost ].

(** The same stakes, the lost ones in the opposite order. *)
Definition history_reordered : list UserHistory.TrackingEntry :=
  [ Sample.history_entry "s1" (60 # 100) 2 won;
    Sample.history_entry "s4" (30 # 100) 2 lost;
    Sample.history_entry "s3" (20 # 100) 2 lost;
    Sample.history_entry "s2" (10 # 100) 2 lost ].

(** Two won tips and a lost one, at odds 2.00, and one stake on each:
    0.10 won, 0.40 lost, 0.30 won. *)
Definition tips : list Dashboard.Tip :=
  [ Sample.tip "t1" 2 won; Sample.tip "t2" 2 lost; Sample.tip "t3" 2 won ].

Definition tracking : list Dashboard.TrackingEntry :=
  [ Sample.tracked "s1" "t1" "u1" (10 # 100); Sample.tracked "s2" "t2" "u1" (40 # 100);
    Sample.tracked "s3" "t3" "u1" (30 # 100) ].

(** [bea] wins 0.30 with one stake, [abe] with two stakes of 0.10 and
    0.20, all at odds 2.00; the first row is [bea]'s. *)
Definition rows : list Leaderboard.Row.t :=
  [ SampleBoard.row "bea" "t1" (30 # 100) 2 won;
    SampleBoard.row "abe" "t1" (10 # 100) 2 won;
    SampleBoard.row "abe" "t2" (20 # 100) 2 won ].

(** [zoe] and [yan] win 0.50 each, in amounts that binary64 adds exactly;
    [xia] wins 1.00. *)
Definition tied : list Leaderboard.Row.t :=
  [ SampleBoard.row "zoe" "t1" (50 # 100) 2 won;
    SampleBoard.row "yan" "t1" (25 # 100) 2 won;
    SampleBoard.row "xia" "t1" 1 2 won;
    SampleBoard.row "yan" "t2" (25 # 100) 2 won ].
End SampleRounding.

(** * Properties *)

(** ** Sums of amounts *)
Section Sums.
Local Open Scope Q_scope.

Lemma Qsum_cons (x : Q) (l : list Q) : Qsum (x :: l) = x + Qsum l.
Proof. reflexivity. Qed.

Lemma Qsum_nil : Qsum [] = 0.
Proof. reflexivity. Qed.

Lemma Qsum_app (l1 l2 : list Q) : Qsum (l1 ++ l2) == Qsum l1 + Qsum l2.
Proof.
  induction l1 as [|x l1 IH].
  - rewrite Qsum_nil, app_nil_l. ring.
  - rewrite <- app_comm_cons, !Qsum_cons, IH. ring.
Qed.

(** A [reduce] that adds [f x] for each element is the sum of the [f x]. *)
Lemma reduce_add {A : Type} (f : A -> Q) (l : list A) (a : Q) :
  fold_left (fun acc x => acc + f x) l a == a + Qsum (f <$> l).
Proof.
  revert a. induction l as [|x l IH]; intros a.
  - rewrite fmap_nil, Qsum_nil. simpl. ring.
  - rewrite fmap_cons, Qsum_cons. simpl. rewrite IH. ring.
Qed.

Lemma Qsum_nonneg (l : list Q) : Forall (fun x : Q => (0 <= x)%Q) l -> 0 <= Qsum l.
Proof.
  induction 1 as [|x l Hx _ IH]; [apply Qle_refl|].
  rewrite Qsum_cons. lra.
Qed.

Lemma gt_true (a b : Q) : Js.gt a b = true <-> b < a.
Proof.
  unfold Js.gt. rewrite negb_true_iff.
  destruct (Qle_bool a b) eqn:E.
  - apply Qle_bool_iff in E. split; [discriminate | lra].
  - split; [intros _ | reflexivity].
    apply Qnot_le_lt. intros H. apply Qle_bool_iff in H. congruence.
Qed.

End Sums.

(** ** Accounting: per-stake profit and the totals built from it *)
Section Accounting.
Local Open Scope Q_scope.

Lemma pl_profit (e : UserHistory.TrackingEntry) :
  UserHistory.pl e =
  profit (UserHistory.status (UserHistory.tips e)) (UserHistory.stake e)
    (UserHistory.odds (UserHistory.tips e)).
Proof.
  unfold UserHistory.pl.
  destruct (UserHistory.status (UserHistory.tips e)); reflexivity.
Qed.

Lemma history_totalProfit_split (entries : list UserHistory.TrackingEntry) :
  UserHistory.totalProfit entries ==
    Qsum ((fun e => UserHistory.stake e * (UserHistory.odds (UserHistory.tips e) - 1))
            <$> UserHistory.wonEntries entries)
    - Qsum (UserHistory.stake <$> UserHistory.lostEntries entries).
Proof.
  unfold UserHistory.totalProfit.
  rewrite (reduce_add (fun e => UserHistory.stake e * (UserHistory.odds (UserHistory.tips e) - 1))).
  rewrite (reduce_add UserHistory.stake). ring.
Qed.

Lemma history_totalProfit_sum (entries : list UserHistory.TrackingEntry) :
  UserHistory.totalProfit entries == Qsum (UserHistory.pl <$> entries).
Proof.
  rewrite history_totalProfit_split.
  unfold UserHistory.wonEntries, UserHistory.lostEntries.
  induction entries as [|e entries IH].
  - rewrite !filter_nil, !fmap_nil, Qsum_nil. ring.
  - rewrite !filter_cons, fmap_cons, Qsum_cons, <- IH.
    rewrite pl_profit.
    destruct (UserHistory.status (UserHistory.tips e)) eqn:E;
      repeat case_decide; try congruence; cbn [profit];
      rewrite ?fmap_cons, ?Qsum_cons; ring.
Qed.

(** With unique tip ids, the id sets of the dashboard agree with the status
    of the tip that [find] returns. *)
Lemma find_tip_Some tips tid tip :
  Dashboard.find_tip tips tid = Some tip -> tip ∈ tips /\ Dashboard.id tip = tid.
Proof.
  unfold Dashboard.find_tip. intros H. apply find_some in H as [Hin Heq].
  split; [by apply list_elem_of_In | by apply String.eqb_eq].
Qed.

Lemma find_tip_None tips tid :
  Dashboard.find_tip tips tid = None -> forall tip, tip ∈ tips -> Dashboard.id tip <> tid.
Proof.
  unfold Dashboard.find_tip. intros H tip Hin Heq.
  apply list_elem_of_In in Hin.
  apply (find_none _ _ H) in Hin. apply String.eqb_neq in Hin. done.
Qed.

Lemma unique_id (tips : list Dashboard.Tip) t1 t2 :
  NoDup (Dashboard.id <$> tips) -> t1 ∈ tips -> t2 ∈ tips ->
  Dashboard.id t1 = Dashboard.id t2 -> t1 = t2.
Proof.
  induction tips as [|t tips IH]; intros Hnd H1 H2 Heq.
  - by apply elem_of_nil in H1.
  - rewrite fmap_cons in Hnd. apply NoDup_cons in Hnd as [Hnotin Hnd].
    apply elem_of_cons in H1 as [->|H1]; apply elem_of_cons in H2 as [->|H2].
    + done.
    + exfalso. apply Hnotin. rewrite Heq. by apply list_elem_of_fmap_2.
    + exfalso. apply Hnotin. rewrite <- Heq. by apply list_elem_of_fmap_2.
    + by apply IH.
Qed.

Lemma elem_of_ids_with (s : tip_status) (tips : list Dashboard.Tip) tid :
  tid ∈ (list_to_set (Dashboard.id <$> filter (fun t => Dashboard.status t = s) tips) : gset string)
  <-> exists t, t ∈ tips /\ Dashboard.status t = s /\ Dashboard.id t = tid.
Proof.
  rewrite elem_of_list_to_set, list_elem_of_fmap. split.
  - intros (t & -> & Hin). apply list_elem_of_filter in Hin as [Hs Hin]. eauto.
  - intros (t & Hin & Hs & <-). exists t. split; [done|].
    by apply list_elem_of_filter.
Qed.

Lemma profit_step_contribution tips acc t :
  NoDup (Dashboard.id <$> tips) ->
  Dashboard.profit_step tips acc t == acc + contribution tips t.
Proof.
  intros Hnd. unfold Dashboard.profit_step, contribution.
  destruct (Dashboard.find_tip tips (Dashboard.tip_id t)) as [tip|] eqn:Hfind; [|ring].
  apply find_tip_Some in Hfind as [Hin Hid].
  assert (Hset : forall s,
    Dashboard.tip_id t ∈
      (list_to_set (Dashboard.id <$> filter (fun t => Dashboard.status t = s) tips) : gset string)
    <-> Dashboard.status tip = s).
  { intros s. rewrite elem_of_ids_with. split.
    - intros (t' & Hin' & Hs & Hid'). rewrite <- Hs. f_equal.
      apply (unique_id tips); [done..|congruence].
    - intros Hs. eauto. }
  unfold Dashboard.wonTipIds, Dashboard.lostTipIds.
  repeat case_decide;
    destruct (Dashboard.status tip) eqn:E; cbn [profit];
    try ring;
    repeat match goal with H : _ ∈ _ |- _ => apply Hset in H | H : _ ∉ _ |- _ => rewrite Hset in H end;
    congruence.
Qed.

Lemma dashboard_totalProfit_sum tips tracking :
  NoDup (Dashboard.id <$> tips) ->
  Dashboard.totalProfit tips tracking == Qsum (contribution tips <$> tracking).
Proof.
  intros Hnd. unfold Dashboard.totalProfit.
  assert (H : forall a, fold_left (Dashboard.profit_step tips) tracking a
                        == a + Qsum (contribution tips <$> tracking)).
  { induction tracking as [|t tracking IH]; intros a.
    - rewrite fmap_nil, Qsum_nil. simpl. ring.
    - rewrite fmap_cons, Qsum_cons. simpl.
      rewrite IH, profit_step_contribution by done. ring. }
  rewrite H. ring.
Qed.
End Accounting.

(** ** The scenarios of the specification *)
Section Scenarios.
Local Open Scope Q_scope.

Example won_at_evens :
  let e := Sample.history_entry "s1" 10 2 won in
  UserHistory.pl e == 10 /\ UserHistory.roi [e] == 100.
Proof. split; reflexivity. Qed.

Example lost_stake :
  UserHistory.pl (Sample.history_entry "s1" 20 (3 # 2) lost) == - 20.
Proof. reflexivity. Qed.

Example two_stakes_on_a_won_tip :
  let entries := [Sample.history_entry "s1" 10 3 won; Sample.history_entry "s2" 20 3 won] in
  UserHistory.totalStaked entries == 30
  /\ UserHistory.totalProfit entries == 60
  /\ UserHistory.roi entries == 200.
Proof. repeat split; reflexivity. Qed.

Example sub_cent_stake_is_not_positive :
  Migration.numeric_10_2 (1 # 1000) = Migration.Ok (0 # 100).
Proof. reflexivity. Qed.
End Scenarios.

(** ** Totals and ROI *)
Section Summary.
Local Open Scope Q_scope.


Lemma history_totalStaked_sum (entries : list UserHistory.TrackingEntry) :
  UserHistory.totalStaked entries == Qsum (UserHistory.stake <$> entries).
Proof. unfold UserHistory.totalStaked. rewrite reduce_add. ring. Qed.

Lemma dashboard_totalStakes_sum (tracking : list Dashboard.TrackingEntry) :
  Dashboard.totalStakes tracking == Qsum (Dashboard.stake <$> tracking).
Proof. unfold Dashboard.totalStakes. rewrite reduce_add. ring. Qed.


End Summary.



(** ** Win rate *)
Section WinRate.
Local Open Scope Q_scope.

Lemma filter_settled_status (s : tip_status) (entries : list UserHistory.TrackingEntry) :
  settled s ->
  filter (fun e => UserHistory.status (UserHistory.tips e) = s)
    (filter (fun e => settled (UserHistory.status (UserHistory.tips e))) entries)
  = filter (fun e => UserHistory.status (UserHistory.tips e) = s) entries.
Proof.
  intros Hs. induction entries as [|e entries IH]; [done|].
  rewrite !filter_cons.
  destruct (decide (settled (UserHistory.status (UserHistory.tips e)))) as [H|H].
  - rewrite filter_cons. case_decide; by rewrite IH.
  - rewrite IH. case_decide; [|done]. exfalso. apply H. congruence.
Qed.

Lemma winRate_settled_only (entries : list UserHistory.TrackingEntry) :
  UserHistory.winRate
    (filter (fun e => settled (UserHistory.status (UserHistory.tips e))) entries)
  = UserHistory.winRate entries.
Proof.
  unfold UserHistory.winRate, UserHistory.wonEntries, UserHistory.lostEntries.
  rewrite !filter_settled_status; [done | by right | by left].
Qed.

Lemma count_status_length (s : tip_status) (entries : list UserHistory.TrackingEntry) :
  count_status s ((fun e => UserHistory.status (UserHistory.tips e)) <$> entries)
  = length (filter (fun e => UserHistory.status (UserHistory.tips e) = s) entries).
Proof.
  induction entries as [|e entries IH]; [done|].
  rewrite fmap_cons, filter_cons. cbn [count_status]. rewrite IH.
  repeat case_decide; simpl; congruence.
Qed.
End WinRate.

(** C8. The win rate is wins / (wins + losses) * 100 when some stake is
    settled and 0 otherwise, where wins and losses count the stakes whose
    tip is won, respectively lost; stakes on pending or void tips change
    neither count, nor the rate. *)
Theorem winRate_formula :
  forall (entries : list UserHistory.TrackingEntry),
    let statuses := (fun e => UserHistory.status (UserHistory.tips e)) <$> entries in
    let wins := count_status won statuses in
    let losses := count_status lost statuses in
    (0 < wins + losses ->
       UserHistory.winRate entries = (Js.num wins / Js.num (wins + losses) * 100)%Q)
    /\ (wins + losses = 0 -> UserHistory.winRate entries = 0%Q)
    /\ UserHistory.winRate
         (filter (fun e => settled (UserHistory.status (UserHistory.tips e))) entries)
       = UserHistory.winRate entries.
Proof.
  intros entries statuses wins losses.
  assert (Hw : wins = length (UserHistory.wonEntries entries))
    by apply count_status_length.
  assert (Hl : losses = length (UserHistory.lostEntries entries))
    by apply count_status_length.
  split; [|split].
  - intros H. unfold UserHistory.winRate. rewrite <- Hw, <- Hl.
    apply Nat.ltb_lt in H. by rewrite H.
  - intros H. unfold UserHistory.winRate. rewrite <- Hw, <- Hl. by rewrite H.
  - apply winRate_settled_only.
Qed.

Lemma winRate_formula_witness :
  UserHistory.winRate Sample.history = (Js.num 1 / Js.num 2 * 100)%Q
  /\ UserHistory.winRate [] = 0%Q.
Proof.
  destruct (winRate_formula Sample.history) as (Hrate & _ & _).
  destruct (winRate_formula []) as (_ & Hnone & _).
  split.
  - apply Hrate. vm_compute. lia.
  - apply Hnone. reflexivity.
Defined.

(** ** Insertion-ordered maps *)
Section JsMap.
Context {V : Type}.
Implicit Types (m : Js.Map V) (k : string) (v : V).

Lemma get_set k k' v m :
  Js.get k (Js.set k' v m) = if decide (k = k') then Some v else Js.get k m.
Proof.
  induction m as [|[k0 v0] m IH]; simpl.
  - case_decide; subst.
    + by rewrite String.eqb_refl.
    + destruct (String.eqb_spec k' k); congruence.
  - destruct (String.eqb_spec k0 k'); simpl.
    + subst k0. destruct (String.eqb_spec k' k); case_decide; congruence.
    + rewrite IH. destruct (String.eqb_spec k0 k); case_decide; congruence.
Qed.

Lemma get_mutate k k' (f : V -> V) m :
  Js.get k (Js.mutate k' f m) = if decide (k = k') then f <$> Js.get k m else Js.get k m.
Proof.
  induction m as [|[k0 v0] m IH]; simpl.
  - by case_decide.
  - destruct (String.eqb_spec k0 k'); simpl.
    + subst k0. destruct (String.eqb_spec k' k); case_decide; simpl; congruence.
    + rewrite IH. destruct (String.eqb_spec k0 k); case_decide; simpl; congruence.
Qed.

Lemma has_get k m : Js.has k m = true <-> is_Some (Js.get k m).
Proof.
  induction m as [|[k0 v0] m IH]; simpl.
  - split; [discriminate | by intros [? ?]].
  - destruct (String.eqb_spec k0 k); simpl; [by split; eauto | done].
Qed.

Lemma has_false_get k m : Js.has k m = false <-> Js.get k m = None.
Proof.
  rewrite <- not_true_iff_false, has_get, <- eq_None_not_Some. done.
Qed.

Lemma keys_mutate k (f : V -> V) m : (Js.mutate k f m).*1 = m.*1.
Proof.
  induction m as [|[k0 v0] m IH]; [done|]. cbn [Js.mutate].
  destruct (String.eqb k0 k); rewrite !fmap_cons; [done | by rewrite IH].
Qed.

Lemma keys_set_fresh k v m : Js.get k m = None -> (Js.set k v m).*1 = m.*1 ++ [k].
Proof.
  induction m as [|[k0 v0] m IH]; [done|]. cbn [Js.get Js.set].
  destruct (String.eqb k0 k); [discriminate|]. intros H.
  rewrite !fmap_cons, IH by done. done.
Qed.

Lemma get_None_keys k m : Js.get k m = None <-> k ∉ m.*1.
Proof.
  induction m as [|[k0 v0] m IH]; simpl.
  - split; [intros _; apply not_elem_of_nil | done].
  - rewrite not_elem_of_cons. destruct (String.eqb_spec k0 k).
    + split; [discriminate | intros []; congruence].
    + rewrite IH. split; [by intros ?; split | by intros [_ ?]].
Qed.

Lemma elem_of_get k v m : NoDup m.*1 -> (k, v) ∈ m -> Js.get k m = Some v.
Proof.
  induction m as [|[k0 v0] m IH]; simpl; intros Hnd Hin.
  - by apply elem_of_nil in Hin.
  - apply NoDup_cons in Hnd as [Hk0 Hnd].
    apply elem_of_cons in Hin as [Heq|Hin].
    + inversion Heq; subst. by rewrite String.eqb_refl.
    + destruct (String.eqb_spec k0 k); [|by apply IH].
      subst k0. exfalso. apply Hk0. apply list_elem_of_fmap. by exists (k, v).
Qed.

Lemma get_elem_of k v m : Js.get k m = Some v -> (k, v) ∈ m.
Proof.
  induction m as [|[k0 v0] m IH]; simpl; [done|].
  destruct (String.eqb_spec k0 k).
  - intros [= ->]. subst. apply list_elem_of_here.
  - intros H. apply list_elem_of_further. by apply IH.
Qed.

Lemma elem_of_values v m : v ∈ Js.values m <-> exists k, (k, v) ∈ m.
Proof.
  unfold Js.values. rewrite list_elem_of_fmap. split.
  - intros ([k v'] & -> & Hin). by exists k.
  - intros (k & Hin). by exists (k, v).
Qed.
End JsMap.

(** ** The leaderboard's grouping loop *)
Section Grouping.
Local Open Scope Q_scope.
Implicit Types (m : Js.Map Leaderboard.LeaderboardEntry) (t : Leaderboard.Row.t).
Implicit Types (rows : list Leaderboard.Row.t) (e : Leaderboard.LeaderboardEntry).

Lemma visit_unsettled m t : ~ settled_row t -> Leaderboard.visit m t = m.
Proof.
  unfold settled_row, settled, Leaderboard.visit.
  destruct (Leaderboard.Row.tips t) as [tip|]; [|done].
  destruct (Leaderboard.Row.status tip); simpl; tauto.
Qed.

Lemma visit_settled m t tip :
  Leaderboard.Row.tips t = Some tip -> settled (Leaderboard.Row.status tip) ->
  Leaderboard.visit m t =
  Js.mutate (Leaderboard.Row.user_id t)
    (Leaderboard.account (Leaderboard.Row.status tip) (Leaderboard.Row.odds tip)
       (Leaderboard.Row.stake t))
    (if Js.has (Leaderboard.Row.user_id t) m then m
     else Js.set (Leaderboard.Row.user_id t)
            {| Leaderboard.user_id := Leaderboard.Row.user_id t;
               Leaderboard.username := Leaderboard.display_name (Leaderboard.Row.profiles t);
               Leaderboard.total_profit := 0; Leaderboard.total_staked := 0;
               Leaderboard.wins := 0; Leaderboard.total_bets := 0 |} m).
Proof.
  unfold Leaderboard.visit. intros -> [H|H]; by rewrite H.
Qed.


Lemma settled_stakes_snoc k rows t :
  settled_stakes k (rows ++ [t]) =
  settled_stakes k rows
    ++ (if decide (settled_row t /\ Leaderboard.Row.user_id t = k) then [t] else []).
Proof.
  unfold settled_stakes. rewrite filter_app, filter_cons, filter_nil.
  by case_decide.
Qed.

Lemma settled_stakes_other k rows t :
  ~ (settled_row t /\ Leaderboard.Row.user_id t = k) ->
  settled_stakes k (rows ++ [t]) = settled_stakes k rows.
Proof.
  intros H. rewrite settled_stakes_snoc. case_decide; [done|]. apply app_nil_r.
Qed.

Lemma summarizes_other rows t e :
  ~ (settled_row t /\ Leaderboard.Row.user_id t = Leaderboard.user_id e) ->
  summarizes rows e -> summarizes (rows ++ [t]) e.
Proof.
  intros H. unfold summarizes, totals. by rewrite settled_stakes_other.
Qed.

Lemma account_user_id s o a e :
  Leaderboard.user_id (Leaderboard.account s o a e) = Leaderboard.user_id e.
Proof. unfold Leaderboard.account. by repeat case_decide. Qed.

(** One settled row of the entry's user, added to its totals. *)
Lemma account_totals rows t tip e :
  Leaderboard.Row.tips t = Some tip -> settled (Leaderboard.Row.status tip) ->
  Leaderboard.Row.user_id t = Leaderboard.user_id e ->
  totals rows e ->
  summarizes (rows ++ [t])
    (Leaderboard.account (Leaderboard.Row.status tip) (Leaderboard.Row.odds tip)
       (Leaderboard.Row.stake t) e).
Proof.
  intros Htip Hs Huid (Hstaked & Hprofit & Hwins & Hbets).
  assert (Hrow : settled_row t) by (unfold settled_row; by rewrite Htip).
  unfold summarizes, totals. rewrite account_user_id, settled_stakes_snoc.
  rewrite decide_True by done.
  split; [|by destruct (settled_stakes _ rows)].
  rewrite !fmap_app, !Qsum_app, filter_app, length_app, length_app.
  rewrite filter_cons, filter_nil.
  cbn [fmap list_fmap length]. rewrite !Qsum_cons, !Qsum_nil.
  assert (Hp : row_profit t = profit (Leaderboard.Row.status tip)
                 (Leaderboard.Row.stake t) (Leaderboard.Row.odds tip))
    by (unfold row_profit; by rewrite Htip).
  assert (Hw : won_row t <-> Leaderboard.Row.status tip = won)
    by (unfold won_row; by rewrite Htip).
  rewrite Hp. unfold Leaderboard.account.
  destruct (decide (won_row t)) as [Hwon|Hwon]; rewrite Hw in Hwon;
    destruct Hs as [Hs|Hs]; rewrite Hs in *; try done; simpl;
    rewrite Hstaked, Hprofit, Hwins, Hbets;
    (split; [ring|]); (split; [ring|]); split; lia.
Qed.

Lemma tracks_nil : tracks [] [].
Proof.
  split; [constructor|]. split; [done|]. done.
Qed.

Lemma tracks_visit rows m t : tracks rows m -> tracks (rows ++ [t]) (Leaderboard.visit m t).
Proof.
  intros (Hnd & Hsome & Hnone).
  destruct (decide (settled_row t)) as [Hrow|Hrow].
  2:{ rewrite visit_unsettled by done.
      split; [done|]. split.
      - intros k e Hget. destruct (Hsome k e Hget) as [Hk Hsum].
        split; [done|]. apply summarizes_other; [tauto | done].
      - intros k Hget. rewrite settled_stakes_other by tauto. by apply Hnone. }
  pose proof Hrow as Hrow'. unfold settled_row in Hrow'.
  destruct (Leaderboard.Row.tips t) as [tip|] eqn:Htip; [|done].
  rewrite (visit_settled m t tip) by done.
  set (uid := Leaderboard.Row.user_id t).
  set (fresh := Leaderboard.Build_LeaderboardEntry uid _ _ _ _ _).
  set (f := Leaderboard.account _ _ _).
  split; [|split].
  - rewrite keys_mutate. destruct (Js.has uid m) eqn:Hhas; [done|].
    apply has_false_get in Hhas. rewrite keys_set_fresh by done.
    apply NoDup_app. split; [done|]. split; [|apply NoDup_singleton].
    intros k Hk ->%list_elem_of_singleton. by apply get_None_keys in Hhas.
  - intros k e. rewrite get_mutate. case_decide as Hk.
    + subst k. intros Hget.
      assert (exists e0, e = f e0 /\ Leaderboard.user_id e0 = uid /\ totals rows e0)
        as (e0 & -> & Huid & Htot).
      { destruct (Js.has uid m) eqn:Hhas.
        - destruct (Js.get uid m) as [e0|] eqn:Hget0; [|done].
          injection Hget as <-. exists e0.
          destruct (Hsome uid e0 Hget0) as [Hu [Ht _]]. done.
        - apply has_false_get in Hhas.
          rewrite get_set, decide_True in Hget by done.
          injection Hget as <-. exists fresh. split; [done|]. split; [done|].
          unfold totals. cbn [Leaderboard.user_id fresh].
          rewrite (Hnone uid Hhas). rewrite filter_nil, !fmap_nil, Qsum_nil.
          by cbn. }
      unfold f. rewrite account_user_id. split; [done|].
      by apply account_totals.
    + intros Hget.
      assert (Js.get k m = Some e) as Hget0.
      { destruct (Js.has uid m); [done|].
        by rewrite get_set, decide_False in Hget. }
      destruct (Hsome k e Hget0) as [Hu Hsum]. split; [done|].
      apply summarizes_other; [|done]. rewrite Hu. intros [_ ?]. by apply Hk.
  - intros k. rewrite get_mutate. case_decide as Hk.
    + subst k. destruct (Js.has uid m) eqn:Hhas.
      * apply has_get in Hhas as [e0 ->]. done.
      * by rewrite get_set, decide_True.
    + intros Hget. rewrite settled_stakes_other.
      * apply Hnone. destruct (Js.has uid m); [done|].
        by rewrite get_set, decide_False in Hget.
      * intros [_ ?]. by apply Hk.
Qed.

Lemma tracks_group rows : tracks rows (Leaderboard.group_by_user rows).
Proof.
  unfold Leaderboard.group_by_user.
  induction rows as [|t rows IH] using rev_ind; [apply tracks_nil|].
  rewrite fold_left_app. simpl. by apply tracks_visit.
Qed.
End Grouping.

(** ** Sorting by profit and keeping the first ten *)
Section Ranking.
Local Open Scope Q_scope.
Implicit Types (e x y : Leaderboard.LeaderboardEntry).
Implicit Types (l : list Leaderboard.LeaderboardEntry).

Lemma by_profit_le x y :
  Qle_bool (Leaderboard.by_profit x y) 0 = true <-> profit_ge x y.
Proof.
  rewrite Qle_bool_iff. unfold Leaderboard.by_profit, profit_ge. split; intros H; lra.
Qed.

Lemma profit_ge_total x y : ~ profit_ge x y -> profit_ge y x.
Proof. unfold profit_ge. intros H. apply Qnot_le_lt in H. lra. Qed.

Lemma profit_ge_trans x y z : profit_ge x y -> profit_ge y z -> profit_ge x z.
Proof. unfold profit_ge. intros. lra. Qed.

Lemma insert_sorted_perm {A : Type} (cmp : A -> A -> Q) (a : A) (s : list A) :
  Js.insert_sorted cmp a s ≡ₚ a :: s.
Proof.
  induction s as [|b s IH]; simpl; [done|].
  destruct (Qle_bool (cmp a b) 0); [done|].
  rewrite IH. apply perm_swap.
Qed.

Lemma sort_perm {A : Type} (cmp : A -> A -> Q) (s : list A) : Js.sort cmp s ≡ₚ s.
Proof.
  unfold Js.sort. induction s as [|a s IH]; simpl; [done|].
  by rewrite insert_sorted_perm, IH.
Qed.

Lemma insert_sorted_sorted x l :
  StronglySorted profit_ge l ->
  StronglySorted profit_ge (Js.insert_sorted Leaderboard.by_profit x l).
Proof.
  induction 1 as [|y l Hl IH Hy]; simpl.
  - repeat constructor.
  - destruct (Qle_bool (Leaderboard.by_profit x y) 0) eqn:E.
    + apply by_profit_le in E. constructor; [by constructor|].
      constructor; [done|].
      eapply Forall_impl; [exact Hy|]. intros z Hz. by eapply profit_ge_trans.
    + assert (profit_ge y x) as Hyx.
      { apply profit_ge_total. rewrite <- by_profit_le. congruence. }
      constructor; [done|].
      rewrite insert_sorted_perm. by constructor.
Qed.

Lemma sort_sorted l : StronglySorted profit_ge (Js.sort Leaderboard.by_profit l).
Proof.
  unfold Js.sort. induction l as [|x l IH]; simpl; [constructor|].
  by apply insert_sorted_sorted.
Qed.


Lemma board_subset rows e :
  e ∈ Leaderboard.fetchLeaderboard rows ->
  exists k, Js.get k (Leaderboard.group_by_user rows) = Some e.
Proof.
  unfold Leaderboard.fetchLeaderboard. intros Hin.
  eapply elem_of_sublist in Hin; [|apply sublist_take].
  rewrite sort_perm in Hin. apply elem_of_values in Hin as [k Hin].
  exists k. apply elem_of_get; [|done]. apply tracks_group.
Qed.

(** Every entry on the board sums up the settled stakes of its user. *)
Lemma board_summarizes rows e :
  e ∈ Leaderboard.fetchLeaderboard rows -> summarizes rows e.
Proof.
  intros [k Hget]%board_subset.
  destruct (tracks_group rows) as (_ & Hsome & _). by destruct (Hsome k e Hget).
Qed.

End Ranking.



(** C10. When every stake is positive, every entry of the leaderboard has a
    positive total staked and counts at least one bet, so its ROI is
    computed by the division, never by the fallback for a zero total. *)
Theorem leaderboard_entry_staked_positive :
  forall (rows : list Leaderboard.Row.t) (e : Leaderboard.LeaderboardEntry),
    Forall (fun t => (0 < Leaderboard.Row.stake t)%Q) rows ->
    e ∈ Leaderboard.fetchLeaderboard rows ->
    (0 < Leaderboard.total_staked e)%Q
    /\ 1 <= Leaderboard.total_bets e
    /\ Leaderboard.roi e
       = (Leaderboard.total_profit e / Leaderboard.total_staked e * 100)%Q.
Proof.
  intros rows e Hpos He.
  destruct (board_summarizes rows e He) as [(Hstaked & _ & _ & Hbets) Hmine].
  assert (Forall (fun t => (0 < Leaderboard.Row.stake t)%Q)
            (settled_stakes (Leaderboard.user_id e) rows)) as Hmine_pos.
  { rewrite Forall_forall in Hpos |- *.
    intros t [_ Ht]%list_elem_of_filter. by apply Hpos. }
  assert ((0 < Leaderboard.total_staked e)%Q) as Hgt.
  { rewrite Hstaked.
    destruct (settled_stakes (Leaderboard.user_id e) rows) as [|t mine]; [done|].
    apply Forall_cons in Hmine_pos as [Ht Hrest].
    rewrite fmap_cons, Qsum_cons.
    assert ((0 <= Qsum (Leaderboard.Row.stake <$> mine))%Q).
    { apply Qsum_nonneg. apply Forall_fmap. eapply Forall_impl; [exact Hrest|].
      intros t' Ht'. by apply Qlt_le_weak. }
    lra. }
  split; [done|]. split.
  - rewrite Hbets. destruct (settled_stakes _ rows); [done | simpl; lia].
  - unfold Leaderboard.roi. apply gt_true in Hgt. by rewrite Hgt.
Qed.

Lemma leaderboard_entry_staked_positive_witness :
  Forall (fun t => (0 < Leaderboard.Row.stake t)%Q) SampleBoard.rows
  /\ forall e, e ∈ Leaderboard.fetchLeaderboard SampleBoard.rows ->
       (0 < Leaderboard.total_staked e)%Q /\ 1 <= Leaderboard.total_bets e.
Proof.
  assert (H : Forall (fun t => (0 < Leaderboard.Row.stake t)%Q) SampleBoard.rows)
    by (repeat constructor).
  split; [exact H|]. intros e He.
  destruct (leaderboard_entry_staked_positive SampleBoard.rows e H He) as (? & ? & _).
  by split.
Defined.

(** ** Running sums *)
Section RunningSums.
Local Open Scope Q_scope.

Lemma fold_left_Qsum (l : list Q) (a : Q) : fold_left Qplus l a == a + Qsum l.
Proof.
  revert a. induction l as [|x l IH]; intros a.
  - rewrite Qsum_nil. simpl. ring.
  - rewrite Qsum_cons. simpl. rewrite IH. ring.
Qed.

Lemma sum_left_Qsum (l : list Q) : sum_left l == Qsum l.
Proof. unfold sum_left. rewrite fold_left_Qsum. ring. Qed.

(** A [reduce] that adds one term per element is the running sum of the
    terms: the same additions in the same order. *)
Lemma reduce_sum_left {A : Type} (f : A -> Q) (l : list A) :
  fold_left (fun acc x => acc + f x) l 0 = sum_left (f <$> l).
Proof.
  unfold sum_left. generalize 0. induction l as [|x l IH]; intros a; [done|].
  rewrite fmap_cons. simpl. apply IH.
Qed.

Lemma history_totalProfit_terms (entries : list UserHistory.TrackingEntry) :
  UserHistory.totalProfit entries
  = sum_left (UserHistory.pl <$> UserHistory.wonEntries entries)
    - sum_left (UserHistory.stake <$> UserHistory.lostEntries entries).
Proof.
  unfold UserHistory.totalProfit. rewrite !reduce_sum_left. do 2 f_equal.
  apply list_fmap_ext. intros i e He.
  apply list_elem_of_lookup_2, list_elem_of_filter in He as [Hwon _].
  unfold UserHistory.pl. by rewrite decide_True.
Qed.

Lemma history_totalProfit_settled_only (entries : list UserHistory.TrackingEntry) :
  UserHistory.totalProfit
    (filter (fun e => settled (UserHistory.status (UserHistory.tips e))) entries)
  = UserHistory.totalProfit entries.
Proof.
  unfold UserHistory.totalProfit, UserHistory.wonEntries, UserHistory.lostEntries.
  rewrite !filter_settled_status; [done | by right | by left].
Qed.

Lemma dashboard_totalProfit_running tips tracking :
  NoDup (Dashboard.id <$> tips) ->
  Dashboard.totalProfit tips tracking == sum_left (contribution tips <$> tracking).
Proof.
  intros Hnd. rewrite dashboard_totalProfit_sum by done. by rewrite sum_left_Qsum.
Qed.

Lemma grouped_entry rows uid :
  settled_stakes uid rows <> [] ->
  exists e, Js.get uid (Leaderboard.group_by_user rows) = Some e
            /\ Leaderboard.user_id e = uid
            /\ Leaderboard.total_profit e
               == sum_left (row_profit <$> settled_stakes uid rows).
Proof.
  intros Hmine. destruct (tracks_group rows) as (_ & Hsome & Hnone).
  destruct (Js.get uid (Leaderboard.group_by_user rows)) as [e|] eqn:E.
  2:{ by apply Hnone in E. }
  destruct (Hsome uid e E) as [Hid [(_ & Hprofit & _) _]].
  exists e. split; [done|]. split; [done|].
  by rewrite sum_left_Qsum, <- Hid.
Qed.
End RunningSums.

(** C1. The realised profit of a stake is amount * (odds - 1) when its tip
    is won, - amount when it is lost and 0 when it is pending or void.  This
    is the P/L figure of a history row, and it is the term each stake adds
    to a total profit: the history adds the figures of the won stakes and
    takes off the sum of the lost stakes' amounts, and is the same without
    the stakes on pending and void tips; the dashboard (whose tips have
    unique ids) and each leaderboard entry are the running sum of the
    profits of their stakes, in the order of the rows.  Every user with a
    settled stake has such an entry, on the board when the users are at
    most ten. *)
Theorem realized_profit_by_status :
  forall (entries : list UserHistory.TrackingEntry)
         (tips : list Dashboard.Tip) (tracking : list Dashboard.TrackingEntry)
         (rows : list Leaderboard.Row.t),
    NoDup (Dashboard.id <$> tips) ->
    (forall e : UserHistory.TrackingEntry,
       let s := UserHistory.status (UserHistory.tips e) in
       (s = won ->
          UserHistory.pl e
          = (UserHistory.stake e * (UserHistory.odds (UserHistory.tips e) - 1))%Q)
       /\ (s = lost -> UserHistory.pl e = (- UserHistory.stake e)%Q)
       /\ (s = pending \/ s = void -> UserHistory.pl e = 0%Q))
    /\ (UserHistory.totalProfit entries
        = (sum_left (UserHistory.pl <$> UserHistory.wonEntries entries)
           - sum_left (UserHistory.stake <$> UserHistory.lostEntries entries))%Q
        /\ UserHistory.totalProfit
             (filter (fun e => settled (UserHistory.status (UserHistory.tips e))) entries)
           = UserHistory.totalProfit entries)
    /\ (Dashboard.totalProfit tips tracking == sum_left (contribution tips <$> tracking))%Q
    /\ (forall e, e ∈ Leaderboard.fetchLeaderboard rows ->
          (Leaderboard.total_profit e
           == sum_left (row_profit <$> settled_stakes (Leaderboard.user_id e) rows))%Q)
    /\ (forall uid, settled_stakes uid rows <> [] ->
          exists e, e ∈ Js.values (Leaderboard.group_by_user rows)
            /\ Leaderboard.user_id e = uid
            /\ (Leaderboard.total_profit e
                == sum_left (row_profit <$> settled_stakes uid rows))%Q
            /\ (length (Leaderboard.group_by_user rows) <= 10 ->
                  e ∈ Leaderboard.fetchLeaderboard rows)).
Proof.
  intros entries tips tracking rows Hnd. split; [|split; [|split; [|split]]].
  - intros e s. rewrite pl_profit. fold s.
    split; [|split]; [intros -> | intros -> | intros [-> | ->]]; reflexivity.
  - split; [apply history_totalProfit_terms | apply history_totalProfit_settled_only].
  - by apply dashboard_totalProfit_running.
  - intros e He. destruct (board_summarizes rows e He) as [(_ & Hprofit & _) _].
    by rewrite sum_left_Qsum.
  - intros uid Hmine. destruct (grouped_entry rows uid Hmine) as (e & Hget & Hid & Hsum).
    exists e. assert (e ∈ Js.values (Leaderboard.group_by_user rows)) as Hin.
    { apply elem_of_values. exists uid. by apply get_elem_of. }
    split; [done|]. split; [done|]. split; [done|].
    intros Hlen. unfold Leaderboard.fetchLeaderboard.
    rewrite take_ge; [by rewrite sort_perm|].
    rewrite sort_perm. unfold Js.values. by rewrite length_fmap.
Qed.

Lemma realized_profit_by_status_witness :
  NoDup (Dashboard.id <$> Sample.tips)
  /\ (UserHistory.totalProfit Sample.history == 10)%Q
  /\ (Dashboard.totalProfit Sample.tips Sample.tracking == - 10)%Q
  /\ exists e, e ∈ Leaderboard.fetchLeaderboard SampleBoard.rows
       /\ Leaderboard.user_id e = "alice"%string
       /\ (Leaderboard.total_profit e == 50)%Q.
Proof.
  assert (H : NoDup (Dashboard.id <$> Sample.tips))
    by (apply (bool_decide_unpack _); vm_compute; exact I).
  split; [exact H|].
  destruct (realized_profit_by_status Sample.history Sample.tips Sample.tracking
              SampleBoard.rows H) as (_ & [Hhistory _] & Hdashboard & _ & Hboard).
  split; [by rewrite Hhistory|]. split; [by rewrite Hdashboard|].
  destruct (Hboard "alice"%string) as (e & _ & Hid & Hsum & Hon); [discriminate|].
  exists e. split; [apply Hon; vm_compute; lia|]. split; [done|].
  by rewrite Hsum.
Defined.

(** ** A stake whose tip is missing *)
Section Unresolved.
Local Open Scope Q_scope.



End Unresolved.




(** ** Updating a tip *)
Section TipUpdate.
Import Migration.
Implicit Types (OLD NEW r : tips.row) (tbl : list tips.row) (now : Z).


Lemma anti_cheat_accepts_same_terms now OLD NEW :
  ~ changes_terms OLD NEW -> tips.enforce_tip_anti_cheat now OLD NEW = Ok NEW.
Proof.
  intros Hsame. unfold tips.enforce_tip_anti_cheat, changes_terms in *.
  destruct (tips.match_start_time OLD <=? now)%Z; [|done].
  destruct (String.eqb_spec (tips.bet_type NEW) (tips.bet_type OLD)); [|tauto].
  destruct (String.eqb_spec (tips.match_name NEW) (tips.match_name OLD)); [|tauto].
  destruct (Qeq_bool (tips.odds NEW) (tips.odds OLD)) eqn:E; [done|].
  exfalso. apply Hsame. right. right. intros H. apply Qeq_bool_iff in H. congruence.
Qed.

Lemma anti_cheat_before_start now OLD NEW :
  (now < tips.match_start_time OLD)%Z -> tips.enforce_tip_anti_cheat now OLD NEW = Ok NEW.
Proof.
  intros H. unfold tips.enforce_tip_anti_cheat.
  apply Z.leb_gt in H. by rewrite H.
Qed.

Lemma set_status_same_terms s OLD : ~ changes_terms OLD (tips.set_status s OLD).
Proof. unfold changes_terms. simpl. intros [?|[?|H]]; [done..|]. by apply H. Qed.







Lemma update_status_ok now s where_ tbl :
  tips.update now (tips.only_status s) where_ tbl
  = Ok ((fun r => if where_ r then tips.set_updated_at now (tips.set_status s r) else r)
          <$> tbl).
Proof.
  unfold tips.update.
  change (tips.cast (tips.only_status s)) with (Ok (tips.only_status s)).
  change (tips.update_rows now (tips.set_status s) where_ tbl = Ok
            ((fun r => if where_ r then tips.set_updated_at now (tips.set_status s r) else r)
               <$> tbl)).
  induction tbl as [|r tbl IH]; simpl; [done|].
  rewrite IH. destruct (where_ r); simpl; [|done].
  unfold tips.before_update.
  by rewrite anti_cheat_accepts_same_terms by apply set_status_same_terms.
Qed.
End TipUpdate.



(** ** Comments of a tip *)
Section Comments.
Import Migration.

Lemma insert_asc_perm {A : Type} (key : A -> Z) (x : A) (l : list A) :
  insert_asc key x l ≡ₚ x :: l.
Proof.
  induction l as [|y l IH]; simpl; [done|].
  destruct (key x <=? key y)%Z; [done|]. rewrite IH. apply perm_swap.
Qed.

Lemma order_by_asc_perm {A : Type} (key : A -> Z) (l : list A) :
  order_by_asc key l ≡ₚ l.
Proof.
  unfold order_by_asc. induction l as [|x l IH]; simpl; [done|].
  by rewrite insert_asc_perm, IH.
Qed.

Lemma insert_asc_sorted {A : Type} (key : A -> Z) (x : A) (l : list A) :
  StronglySorted (fun a b => (key a <= key b)%Z) l ->
  StronglySorted (fun a b => (key a <= key b)%Z) (insert_asc key x l).
Proof.
  induction 1 as [|y l Hl IH Hy]; simpl.
  - repeat constructor.
  - destruct (Z.leb_spec (key x) (key y)).
    + constructor; [by constructor|]. constructor; [done|].
      eapply Forall_impl; [exact Hy|]. simpl. intros z Hz. lia.
    + constructor; [done|]. rewrite insert_asc_perm.
      constructor; [lia | done].
Qed.

Lemma order_by_asc_sorted {A : Type} (key : A -> Z) (l : list A) :
  StronglySorted (fun a b => (key a <= key b)%Z) (order_by_asc key l).
Proof.
  unfold order_by_asc. induction l as [|x l IH]; simpl; [constructor|].
  by apply insert_asc_sorted.
Qed.

Lemma fmap_sorted {A B : Type} (f : A -> B) (R : B -> B -> Prop) (l : list A) :
  StronglySorted (fun a b => R (f a) (f b)) l -> StronglySorted R (f <$> l).
Proof.
  induction 1 as [|x l Hl IH Hx]; [constructor|].
  rewrite fmap_cons. constructor; [done|]. by apply Forall_fmap.
Qed.
End Comments.

(** C9. The comments fetched for a tip are exactly the stored comments that
    reference the tip (each once, with its author's profile), in ascending
    order of creation time. *)
Theorem comments_of_tip_ascending :
  forall (profiles_tbl : list Migration.profiles.row)
         (tbl : list Migration.tip_comments.row) (tipId : string),
    let comments := TipComments.fetchComments profiles_tbl tbl tipId in
    comments ≡ₚ
      TipComments.with_profile profiles_tbl
        <$> filter (fun c => Migration.tip_comments.tip_id c = tipId) tbl
    /\ (forall c, c ∈ tbl ->
          (TipComments.with_profile profiles_tbl c ∈ comments
           <-> Migration.tip_comments.tip_id c = tipId))
    /\ Forall (fun c => TipComments.tip_id c = tipId) comments
    /\ StronglySorted created_le comments.
Proof.
  intros profiles_tbl tbl tipId comments.
  assert (Hfilter : List.filter
            (fun c => String.eqb (Migration.tip_comments.tip_id c) tipId) tbl
          = filter (fun c => Migration.tip_comments.tip_id c = tipId) tbl).
  { induction tbl as [|c tbl IH]; [done|]. simpl. rewrite filter_cons, IH.
    destruct (String.eqb_spec (Migration.tip_comments.tip_id c) tipId);
      case_decide; congruence. }
  assert (Hperm : comments ≡ₚ
            TipComments.with_profile profiles_tbl
              <$> filter (fun c => Migration.tip_comments.tip_id c = tipId) tbl).
  { unfold comments, TipComments.fetchComments.
    by rewrite Hfilter, order_by_asc_perm. }
  split; [exact Hperm|]. split; [|split].
  - intros c Hc. rewrite Hperm, list_elem_of_fmap. split.
    + intros (c' & Heq & [Htip _]%list_elem_of_filter).
      apply (f_equal TipComments.tip_id) in Heq. simpl in Heq. congruence.
    + intros Htip. exists c. split; [done|]. by apply list_elem_of_filter.
  - rewrite Hperm. apply Forall_fmap, Forall_forall.
    by intros c [Htip _]%list_elem_of_filter.
  - unfold comments, TipComments.fetchComments. apply fmap_sorted.
    apply (order_by_asc_sorted Migration.tip_comments.created_at).
Qed.

Lemma comments_of_tip_ascending_witness :
  TipComments.id <$> TipComments.fetchComments SampleComments.profiles
                       SampleComments.table "t1"
  = ["c3"; "c4"; "c1"]%string
  /\ StronglySorted created_le
       (TipComments.fetchComments SampleComments.profiles SampleComments.table "t1").
Proof.
  split; [reflexivity|].
  apply (comments_of_tip_ascending SampleComments.profiles SampleComments.table "t1").
Defined.

(** ** Tracking a tip twice *)
Section Tracking.
Import Migration.
Local Open Scope Q_scope.

Lemma round_half_away_pos (y : Q) : (0 < round_half_away y)%Z -> 0 < y.
Proof.
  unfold round_half_away. destruct (Qle_bool 0 y) eqn:E.
  - intros H. pose proof (Qfloor_le (y + (1 # 2))) as Hfl.
    assert (1 <= inject_Z (Qfloor (y + (1 # 2)))) as H1.
    { change 1 with (inject_Z 1). rewrite <- Zle_Qle. lia. }
    lra.
  - intros H. exfalso.
    assert (y < 0) as Hneg.
    { apply Qnot_le_lt. intros Hle. apply Qle_bool_iff in Hle. congruence. }
    assert (Qfloor 0 <= Qfloor (- y + (1 # 2)))%Z as Hfl
      by (apply Qfloor_resp_le; lra).
    change (Qfloor 0) with 0%Z in Hfl. lia.
Qed.

Lemma numeric_10_2_pos (x s : Q) : numeric_10_2 x = Ok s -> 0 < s -> 0 < x.
Proof.
  unfold numeric_10_2. destruct (_ <? _)%Z; [|done]. intros [= <-] H.
  assert (0 < round_half_away (x * 100))%Z as Hr.
  { unfold Qlt in H. simpl in H. lia. }
  apply round_half_away_pos in Hr. lra.
Qed.

Lemma tracked_by_existsb uid tid tbl :
  existsb (fun r => String.eqb (user_tracking.user_id r) uid
                    && String.eqb (user_tracking.tip_id r) tid) tbl = true
  <-> tracked_by uid tid tbl.
Proof.
  rewrite existsb_exists. unfold tracked_by.
  split; intros (r & Hin & H); exists r.
  - apply andb_true_iff in H as [?%String.eqb_eq ?%String.eqb_eq].
    by rewrite list_elem_of_In.
  - destruct H as [-> ->]. rewrite <- list_elem_of_In, !String.eqb_refl. done.
Qed.

Lemma insert_duplicate tips_tbl fresh_id now uid tid stake s tbl :
  numeric_10_2 stake = Ok s -> 0 < s -> tracked_by uid tid tbl ->
  user_tracking.insert tips_tbl fresh_id now uid tid stake tbl
  = Err (unique_violation "user_tracking_user_id_tip_id_key").
Proof.
  intros Hnum Hpos Hdup. unfold user_tracking.insert. rewrite Hnum. simpl.
  apply gt_true in Hpos. rewrite Hpos. simpl.
  apply tracked_by_existsb in Hdup. by rewrite Hdup.
Qed.

Lemma already_tracked_only_on_duplicate tips_tbl fresh_id now uid tid stake tbl :
  fst (TipCard.handleStake tips_tbl fresh_id now uid tid stake tbl) = already_tracked ->
  tracked_by uid tid tbl.
Proof.
  unfold TipCard.handleStake, already_tracked.
  destruct stake as [stakeNum|]; [|discriminate].
  destruct (_ || _); [discriminate|].
  unfold user_tracking.insert.
  destruct (numeric_10_2 stakeNum) as [s|e] eqn:Hnum; simpl.
  2:{ unfold numeric_10_2 in Hnum. destruct (_ <? _)%Z; [done|].
      injection Hnum as <-. vm_compute. discriminate. }
  destruct (negb (Js.gt s 0)); [vm_compute; discriminate|].
  destruct (existsb _ tbl) eqn:E.
  - intros _. by apply tracked_by_existsb.
  - destruct (negb (existsb _ tips_tbl)); [vm_compute|simpl]; discriminate.
Qed.
End Tracking.

Section DuplicateStake.
Import Migration.
Local Open Scope Q_scope.

Lemma client_accepts_positive (stake : Q) :
  0 < stake -> Qeq_bool stake 0 || Qle_bool stake 0 = false.
Proof.
  intros Hpos. apply orb_false_iff. split.
  - destruct (Qeq_bool stake 0) eqn:E; [|done]. apply Qeq_bool_iff in E. lra.
  - destruct (Qle_bool stake 0) eqn:E; [|done]. apply Qle_bool_iff in E. lra.
Qed.

(** A (user, tip) pair that is tracked is never inserted again. *)
Lemma insert_tracked_fails tips_tbl fresh_id now uid tid stake tbl :
  tracked_by uid tid tbl ->
  exists e, user_tracking.insert tips_tbl fresh_id now uid tid stake tbl = Err e.
Proof.
  intros Hdup%tracked_by_existsb. unfold user_tracking.insert.
  destruct (numeric_10_2 stake) as [s|e]; simpl; [|by eexists].
  destruct (negb (Js.gt s 0)); [by eexists|]. rewrite Hdup. by eexists.
Qed.

Lemma handleStake_tracked tips_tbl fresh_id now uid tid stake tbl :
  tracked_by uid tid tbl ->
  snd (TipCard.handleStake tips_tbl fresh_id now uid tid stake tbl) = tbl.
Proof.
  intros Hdup. unfold TipCard.handleStake.
  destruct stake as [stakeNum|]; [|done].
  destruct (_ || _); [done|].
  destruct (insert_tracked_fails tips_tbl fresh_id now uid tid stakeNum tbl Hdup) as [e ->].
  by destruct (Js.includes _ _).
Qed.

Lemma insert_not_positive tips_tbl fresh_id now uid tid stake s tbl :
  numeric_10_2 stake = Ok s -> ~ 0 < s ->
  user_tracking.insert tips_tbl fresh_id now uid tid stake tbl
  = Err (check_violation "user_tracking" "user_tracking_stake_check").
Proof.
  intros Hnum Hs. unfold user_tracking.insert. rewrite Hnum. simpl.
  destruct (Js.gt s 0) eqn:E; [|done]. by apply gt_true in E.
Qed.

Lemma insert_out_of_range tips_tbl fresh_id now uid tid stake tbl :
  numeric_10_2 stake = Err numeric_value_out_of_range ->
  user_tracking.insert tips_tbl fresh_id now uid tid stake tbl
  = Err numeric_value_out_of_range.
Proof. intros Hnum. unfold user_tracking.insert. by rewrite Hnum. Qed.
End DuplicateStake.

(** C7, as the table and the card behave.  Tracking a tip that the user
    already tracks always fails: no row is added and every figure computed
    from the table is unchanged.  With a stake the column stores as a
    positive amount, the failure is the uniqueness error and the card
    reports it as "already tracked", which no other failure is reported as.
    With a positive stake that the column rounds to 0.00 the check of the
    stake fails first, and with one beyond the column's range the cast does;
    the card reports both as the plain failure. *)
Theorem duplicate_stake_rejected :
  forall (tips_tbl : list Migration.tips.row) (fresh_id : string) (now : Z)
         (uid tid : string) (stake : Q) (tbl : list Migration.user_tracking.row),
    tracked_by uid tid tbl ->
    let outcome := Migration.user_tracking.insert tips_tbl fresh_id now uid tid stake tbl in
    let shown := TipCard.handleStake tips_tbl fresh_id now uid tid (Some stake) tbl in
    (exists e, outcome = Migration.Err e)
    /\ Migration.table_after tbl outcome = tbl
    /\ snd shown = tbl
    /\ (forall (A : Type) (figure : list Migration.user_tracking.row -> A),
          figure (snd shown) = figure tbl)
    /\ (forall s, Migration.numeric_10_2 stake = Migration.Ok s -> (0 < s)%Q ->
          outcome
          = Migration.Err (Migration.unique_violation "user_tracking_user_id_tip_id_key")
          /\ shown = (already_tracked, tbl))
    /\ (forall s, (0 < stake)%Q ->
          Migration.numeric_10_2 stake = Migration.Ok s -> ~ (0 < s)%Q ->
          outcome
          = Migration.Err
              (Migration.check_violation "user_tracking" "user_tracking_stake_check")
          /\ shown = (failed_to_track, tbl))
    /\ ((0 < stake)%Q ->
        Migration.numeric_10_2 stake = Migration.Err Migration.numeric_value_out_of_range ->
          outcome = Migration.Err Migration.numeric_value_out_of_range
          /\ shown = (failed_to_track, tbl))
    /\ already_tracked <> failed_to_track
    /\ (forall stake' tbl',
          fst (TipCard.handleStake tips_tbl fresh_id now uid tid stake' tbl')
          = already_tracked -> tracked_by uid tid tbl').
Proof.
  intros tips_tbl fresh_id now uid tid stake tbl Hdup outcome shown.
  assert (Hfail := insert_tracked_fails tips_tbl fresh_id now uid tid stake tbl Hdup).
  assert (Hsnd : snd shown = tbl) by (by apply handleStake_tracked).
  split; [exact Hfail|]. split; [unfold outcome; by destruct Hfail as [e ->]|].
  split; [exact Hsnd|]. split; [intros A figure; by rewrite Hsnd|].
  split; [|split; [|split; [|split]]].
  - intros s Hnum Hpos.
    assert (Hout : outcome
              = Migration.Err (Migration.unique_violation "user_tracking_user_id_tip_id_key"))
      by (by eapply insert_duplicate).
    split; [done|]. unfold shown, TipCard.handleStake. fold outcome. rewrite Hout.
    by rewrite client_accepts_positive by (by eapply numeric_10_2_pos).
  - intros s Hstake Hnum Hs.
    assert (Hout : outcome
              = Migration.Err
                  (Migration.check_violation "user_tracking" "user_tracking_stake_check"))
      by (by eapply insert_not_positive).
    split; [done|]. unfold shown, TipCard.handleStake. fold outcome. rewrite Hout.
    by rewrite client_accepts_positive.
  - intros Hstake Hnum.
    assert (Hout : outcome = Migration.Err Migration.numeric_value_out_of_range)
      by (by apply insert_out_of_range).
    split; [done|]. unfold shown, TipCard.handleStake. fold outcome. rewrite Hout.
    by rewrite client_accepts_positive.
  - discriminate.
  - intros stake' tbl'. apply already_tracked_only_on_duplicate.
Qed.

Lemma duplicate_stake_rejected_witness :
  tracked_by "alice" "t1" SampleStakes.table
  /\ TipCard.handleStake SampleTips.table "s3" 60 "alice" "t1" (Some 25%Q)
       SampleStakes.table
     = (already_tracked, SampleStakes.table)
  /\ TipCard.handleStake SampleTips.table "s3" 60 "alice" "t1" (Some (1 # 250)%Q)
       SampleStakes.table
     = (failed_to_track, SampleStakes.table).
Proof.
  assert (H : tracked_by "alice" "t1" SampleStakes.table).
  { eexists. split; [apply list_elem_of_here|]. by split. }
  split; [exact H|].
  destruct (duplicate_stake_rejected SampleTips.table "s3" 60 "alice" "t1" 25
              SampleStakes.table H) as (_ & _ & _ & _ & Hstored & _).
  destruct (duplicate_stake_rejected SampleTips.table "s3" 60 "alice" "t1" (1 # 250)
              SampleStakes.table H) as (_ & _ & _ & _ & _ & Hzero & _).
  split.
  - apply (Hstored (2500 # 100)%Q); reflexivity.
  - apply (Hzero (0 # 100)%Q); [reflexivity | reflexivity | vm_compute; discriminate].
Defined.

(** C7 as stated fails: a second stake of a tenth of a cent on a tracked
    tip passes the card's test, is refused by the check of the stake and not
    by the uniqueness constraint, and is reported as the plain failure. *)
Lemma duplicate_stake_counterexample :
  tracked_by "alice" "t1" SampleStakes.table
  /\ Migration.user_tracking.insert SampleTips.table "s3" 60 "alice" "t1" (1 # 1000)
       SampleStakes.table
     = Migration.Err
         (Migration.check_violation "user_tracking" "user_tracking_stake_check")
  /\ Js.includes
       (Migration.message
          (Migration.check_violation "user_tracking" "user_tracking_stake_check"))
       "duplicate" = false
  /\ TipCard.handleStake SampleTips.table "s3" 60 "alice" "t1" (Some (1 # 1000)%Q)
       SampleStakes.table
     = (failed_to_track, SampleStakes.table)
  /\ failed_to_track <> already_tracked.
Proof.
  split; [|split; [|split; [|split]]]; [|reflexivity..|discriminate].
  eexists. split; [apply list_elem_of_here|]. by split.
Qed.

(** ** The reaction tally *)
Section Tally.
Import Migration.
Implicit Types (user : option string) (k : string * string * string).
Implicit Types (keys : list (string * string * string)) (r : tip_reactions.row).
Implicit Types (m : gmap string Index.Reactions) (tid : string).

Lemma is_viewer_true user uid : Index.is_viewer user uid = true <-> user = Some uid.
Proof.
  unfold Index.is_viewer. destruct user as [u|]; [|by split].
  rewrite String.eqb_eq. split; [by intros -> | by intros [= ->]].
Qed.

Lemma filter_none {A : Type} (P : A -> Prop) `{!forall x, Decision (P x)} (l : list A) :
  (forall x, x ∈ l -> ~ P x) -> filter P l = [].
Proof.
  induction l as [|a l IH]; intros Hno; [done|].
  rewrite filter_cons, decide_False by (apply Hno, list_elem_of_here).
  apply IH. intros x Hx. by apply Hno, list_elem_of_further.
Qed.

Lemma count_reaction_lookup user m r tid :
  Index.count_reaction user m r !! tid =
  if decide (tid = tip_reactions.tip_id r)
  then Some (bump user (reaction_key r) (default Index.no_reactions (m !! tid)))
  else m !! tid.
Proof.
  unfold Index.count_reaction, bump, reaction_key. cbn [fst snd].
  set (t := tip_reactions.tip_id r).
  set (m' := match m !! t with None => <[t:=Index.no_reactions]> m | Some _ => m end).
  assert (Hsame : m' !! t = Some (default Index.no_reactions (m !! t))).
  { unfold m'. destruct (m !! t) eqn:E; [done|]. by rewrite lookup_insert_eq. }
  assert (Hother : tid <> t -> m' !! tid = m !! tid).
  { intros Hne. unfold m'. destruct (m !! t); [done|]. by rewrite lookup_insert_ne. }
  case_decide as Htid.
  - subst tid.
    destruct (String.eqb _ "like"); [by rewrite lookup_alter_eq, Hsame|].
    destruct (String.eqb _ "fire"); [by rewrite lookup_alter_eq, Hsame|].
    done.
  - destruct (String.eqb _ "like"); [by rewrite lookup_alter_ne, Hother|].
    destruct (String.eqb _ "fire"); [by rewrite lookup_alter_ne, Hother|].
    by apply Hother.
Qed.

Lemma counts_none user keys tid :
  ~ Exists (on_tip tid) keys -> counts user keys tid = Index.no_reactions.
Proof.
  intros Hnone. unfold counts, Index.no_reactions.
  assert (Hkind : forall ty, filter (of_kind tid ty) keys = []).
  { intros ty. apply filter_none. intros k Hk [Ht _].
    apply Hnone, Exists_exists. by exists k. }
  assert (Hview : forall ty, bool_decide (Exists (by_viewer user tid ty) keys) = false).
  { intros ty. apply bool_decide_eq_false. intros (k & Hk & _ & Ht & _)%Exists_exists.
    apply Hnone, Exists_exists. by exists k. }
  by rewrite !Hkind, !Hview.
Qed.

Lemma tally_default user keys tid :
  default Index.no_reactions (tally_of user keys tid) = counts user keys tid.
Proof.
  unfold tally_of. case_decide; [done|]. simpl. by rewrite counts_none.
Qed.

Lemma of_kind_snoc tid ty keys k :
  length (filter (of_kind tid ty) (keys ++ [k]))
  = length (filter (of_kind tid ty) keys)
    + (if decide (of_kind tid ty k) then 1 else 0).
Proof.
  rewrite filter_app, length_app, filter_cons, filter_nil. by case_decide.
Qed.

Lemma by_viewer_snoc user tid ty keys k :
  bool_decide (Exists (by_viewer user tid ty) (keys ++ [k]))
  = bool_decide (Exists (by_viewer user tid ty) keys)
    || bool_decide (by_viewer user tid ty k).
Proof.
  apply eq_true_iff_eq. rewrite orb_true_iff, !bool_decide_eq_true, Exists_app.
  rewrite Exists_cons, Exists_nil. tauto.
Qed.

Lemma counts_snoc_same user keys k :
  counts user (keys ++ [k]) k.1.2 = bump user k (counts user keys k.1.2).
Proof.
  destruct k as [[uid tid] ty]. cbn [fst snd].
  unfold counts, bump. cbn [fst snd].
  rewrite !of_kind_snoc, !by_viewer_snoc.
  unfold of_kind, by_viewer, Index.add_like, Index.add_fire. cbn [fst snd].
  assert (Hv : forall ty', bool_decide (user = Some uid /\ tid = tid /\ ty = ty')
                 = Index.is_viewer user uid && bool_decide (ty = ty')).
  { intros ty'. apply eq_true_iff_eq.
    rewrite andb_true_iff, !bool_decide_eq_true, is_viewer_true. tauto. }
  rewrite !Hv.
  destruct (String.eqb_spec ty "like") as [->|Hl];
    [|destruct (String.eqb_spec ty "fire") as [->|Hf]];
    repeat case_decide; repeat case_bool_decide;
    try (exfalso; intuition congruence);
    cbn [Index.like Index.fire Index.userLiked Index.userFired];
    rewrite ?andb_true_r, ?andb_false_r, ?orb_false_r, ?Nat.add_0_r, ?Nat.add_1_r;
    try done;
    f_equal; by destruct (Index.is_viewer user uid).
Qed.

Lemma counts_snoc_other user keys k tid :
  tid <> k.1.2 -> counts user (keys ++ [k]) tid = counts user keys tid.
Proof.
  intros Hne. unfold counts. rewrite !of_kind_snoc, !by_viewer_snoc.
  repeat case_decide; repeat case_bool_decide; unfold of_kind, by_viewer in *;
    try (exfalso; intuition congruence).
  all: by rewrite ?orb_false_r, ?Nat.add_0_r.
Qed.

Lemma tally_of_snoc user keys k tid :
  tally_of user (keys ++ [k]) tid =
  if decide (tid = k.1.2)
  then Some (bump user k (default Index.no_reactions (tally_of user keys tid)))
  else tally_of user keys tid.
Proof.
  rewrite tally_default. unfold tally_of.
  destruct (decide (tid = k.1.2)) as [->|Htid].
  - rewrite decide_True.
    + by rewrite counts_snoc_same.
    + apply Exists_app. right. by constructor.
  - rewrite counts_snoc_other by done.
    destruct (decide (Exists (on_tip tid) keys)) as [H|H].
    + rewrite decide_True; [done|]. apply Exists_app. by left.
    + rewrite decide_False; [done|]. rewrite Exists_app, Exists_cons, Exists_nil.
      unfold on_tip at 2. intros [?|[?|[]]]; [done | congruence].
Qed.

(** The fetched tally is the tally of the stored reactions. *)
Lemma fetchReactions_lookup user (data : list tip_reactions.row) tid :
  Index.fetchReactions user data !! tid = tally_of user (reaction_key <$> data) tid.
Proof.
  unfold Index.fetchReactions.
  induction data as [|r data IH] using rev_ind; [done|].
  rewrite fold_left_app, fmap_app. simpl.
  rewrite count_reaction_lookup, tally_of_snoc, IH. done.
Qed.

Lemma tally_of_perm user keys keys' tid :
  keys ≡ₚ keys' -> tally_of user keys tid = tally_of user keys' tid.
Proof.
  intros Hp. unfold tally_of, counts.
  assert (He : forall P : string * string * string -> Prop,
             Exists P keys <-> Exists P keys') by (intros P; by rewrite Hp).
  rewrite !(bool_decide_ext _ _ (He _)).
  assert (Hl : forall ty, length (filter (of_kind tid ty) keys)
                          = length (filter (of_kind tid ty) keys'))
    by (intros ty; by rewrite Hp).
  rewrite !Hl.
  destruct (decide (Exists (on_tip tid) keys)) as [H|H];
    destruct (decide (Exists (on_tip tid) keys')) as [H'|H']; try done;
    exfalso; rewrite He in H; done.
Qed.


Lemma by_viewer_reacted uid tid ty (tbl : list tip_reactions.row) :
  Exists (by_viewer (Some uid) tid ty) (reaction_key <$> tbl) <-> reacted uid tid ty tbl.
Proof.
  unfold reacted. rewrite Exists_exists. split.
  - intros ([[u t] y] & Hin & [= <-] & <- & <-). done.
  - intros Hin. exists (uid, tid, ty). by repeat split.
Qed.

(** The flag [handleReact] reads tells whether the viewer has reacted. *)
Lemma current_flag uid tid ty (tbl : list tip_reactions.row) :
  ty = "like"%string \/ ty = "fire"%string ->
  match Index.fetchReactions (Some uid) tbl !! tid with
  | Some m => if String.eqb ty "like" then Index.userLiked m else Index.userFired m
  | None => false
  end = bool_decide (reacted uid tid ty tbl).
Proof.
  intros Hty. rewrite fetchReactions_lookup. unfold tally_of.
  case_decide as Hex.
  - unfold counts. destruct Hty as [-> | ->]; simpl;
      apply bool_decide_ext, by_viewer_reacted.
  - symmetry. apply bool_decide_eq_false. intros Hr. apply Hex.
    apply Exists_exists. exists (uid, tid, ty). split; [done|]. done.
Qed.
End Tally.

(** ** Toggling a reaction *)
Section Toggle.
Import Migration.
Implicit Types (tbl : list tip_reactions.row) (r : tip_reactions.row).
Implicit Types (uid tid ty : string).

Lemma same_key_spec uid tid ty r :
  tip_reactions.same_key uid tid ty r = true <-> reaction_key r = (uid, tid, ty).
Proof.
  unfold tip_reactions.same_key, reaction_key.
  rewrite !andb_true_iff, !String.eqb_eq. split.
  - by intros [[-> ->] ->].
  - by intros [= -> -> ->].
Qed.

Lemma existsb_same_key uid tid ty tbl :
  existsb (tip_reactions.same_key uid tid ty) tbl = bool_decide (reacted uid tid ty tbl).
Proof.
  apply eq_true_iff_eq. rewrite existsb_exists, bool_decide_eq_true.
  unfold reacted. rewrite list_elem_of_fmap. split.
  - intros (r & Hin & Hk). exists r. split; [symmetry; by apply same_key_spec|].
    by apply list_elem_of_In.
  - intros (r & Hk & Hin). exists r. split; [by apply list_elem_of_In|].
    by apply same_key_spec.
Qed.

Lemma existsb_tip tips_tbl tid :
  existsb (fun tp => String.eqb (tips.id tp) tid) tips_tbl
  = bool_decide (tip_exists tips_tbl tid).
Proof.
  apply eq_true_iff_eq. rewrite existsb_exists, bool_decide_eq_true.
  unfold tip_exists. rewrite list_elem_of_fmap. split.
  - intros (tp & Hin & Hk%String.eqb_eq). exists tp. split; [done|].
    by apply list_elem_of_In.
  - intros (tp & -> & Hin). exists tp. split; [by apply list_elem_of_In|].
    apply String.eqb_refl.
Qed.

Lemma delete_filter uid tid ty tbl :
  tip_reactions.delete uid tid ty tbl
  = filter (fun r => reaction_key r <> (uid, tid, ty)) tbl.
Proof.
  unfold tip_reactions.delete. induction tbl as [|r tbl IH]; [done|].
  simpl. rewrite filter_cons, IH.
  destruct (tip_reactions.same_key uid tid ty r) eqn:E; simpl.
  - apply same_key_spec in E. by rewrite decide_False by (intros H; by apply H).
  - rewrite decide_True; [done|]. intros H%same_key_spec. congruence.
Qed.

(** One step of [handleReact] from a page that shows the stored reactions. *)
Lemma handleReact_toggled tips_tbl fresh_id now uid tid ty tbl :
  ty = "like"%string \/ ty = "fire"%string ->
  Index.handleReact (Some uid) tips_tbl fresh_id now tid ty
    {| Index.tip_reactions_tbl := tbl;
       Index.reactions := Index.fetchReactions (Some uid) tbl |}
  = {| Index.tip_reactions_tbl := toggled tips_tbl fresh_id now uid tid ty tbl;
       Index.reactions :=
         Index.fetchReactions (Some uid) (toggled tips_tbl fresh_id now uid tid ty tbl) |}.
Proof.
  intros Hty. unfold Index.handleReact. cbn [Index.reactions Index.tip_reactions_tbl].
  rewrite (current_flag uid tid ty tbl Hty).
  assert (Htbl :
    (if bool_decide (reacted uid tid ty tbl)
     then tip_reactions.delete uid tid ty tbl
     else table_after tbl (tip_reactions.insert tips_tbl fresh_id now uid tid ty tbl))
    = toggled tips_tbl fresh_id now uid tid ty tbl).
  { unfold toggled, tip_reactions.insert.
    rewrite existsb_same_key, existsb_tip, delete_filter.
    destruct (decide (reacted uid tid ty tbl)) as [H|H].
    - by rewrite bool_decide_eq_true_2.
    - rewrite bool_decide_eq_false_2 by done.
      destruct (decide (tip_exists tips_tbl tid)) as [Ht|Ht].
      + by rewrite bool_decide_eq_true_2.
      + by rewrite bool_decide_eq_false_2. }
  by rewrite Htbl.
Qed.

Lemma filter_other_keys_absent uid tid ty tbl :
  ~ reacted uid tid ty tbl ->
  filter (fun r => reaction_key r <> (uid, tid, ty)) tbl = tbl.
Proof.
  unfold reacted. induction tbl as [|r tbl IH]; [done|].
  rewrite fmap_cons, not_elem_of_cons. intros [Hr Htbl].
  rewrite filter_cons, decide_True by congruence. by rewrite IH.
Qed.


Lemma keys_without uid tid ty tbl :
  unique_reactions tbl -> reacted uid tid ty tbl ->
  reaction_key <$> tbl
  ≡ₚ (uid, tid, ty)
     :: (reaction_key <$> filter (fun r => reaction_key r <> (uid, tid, ty)) tbl).
Proof.
  unfold unique_reactions, reacted. induction tbl as [|r tbl IH].
  - intros _ H. by apply elem_of_nil in H.
  - rewrite fmap_cons. intros [Hr Hnd]%NoDup_cons Hin.
    rewrite filter_cons. destruct (decide (reaction_key r = (uid, tid, ty))) as [E|E].
    + rewrite decide_False by (intros H; by apply H).
      rewrite filter_other_keys_absent by (unfold reacted; congruence).
      by rewrite E.
    + rewrite decide_True by done.
      apply elem_of_cons in Hin as [Hin|Hin]; [congruence|].
      rewrite fmap_cons, (IH Hnd Hin). apply perm_swap.
Qed.

Lemma unique_after_filter (P : tip_reactions.row -> Prop) `{!forall r, Decision (P r)} tbl :
  unique_reactions tbl -> unique_reactions (filter P tbl).
Proof.
  unfold unique_reactions. intros Hnd.
  eapply sublist_NoDup; [exact Hnd | apply fmap_sublist, sublist_filter].
Qed.


End Toggle.



(** * Further properties *)

(** ** Bounds on the figures *)
Section Bounds.
Local Open Scope Q_scope.

Lemma Qsum_le {A : Type} (f g : A -> Q) (l : list A) :
  (forall x, x ∈ l -> f x <= g x) -> Qsum (f <$> l) <= Qsum (g <$> l).
Proof.
  induction l as [|a l IH]; intros H; [apply Qle_refl|].
  rewrite !fmap_cons, !Qsum_cons.
  pose proof (H a (list_elem_of_here _ _)).
  assert (Qsum (f <$> l) <= Qsum (g <$> l))
    by (apply IH; intros x Hx; by apply H, list_elem_of_further).
  lra.
Qed.

Lemma Qsum_opp {A : Type} (f : A -> Q) (l : list A) :
  Qsum ((fun x => - f x) <$> l) == - Qsum (f <$> l).
Proof.
  induction l as [|a l IH]; [reflexivity|].
  rewrite !fmap_cons, !Qsum_cons, IH. ring.
Qed.

Lemma percent_floor (p s : Q) : 0 < s -> - s <= p -> - (100) <= p / s * 100.
Proof.
  intros Hs Hp.
  assert (- (1) <= p / s) by (apply Qle_shift_div_l; [done | lra]).
  lra.
Qed.

Lemma pl_floor (e : UserHistory.TrackingEntry) :
  0 <= UserHistory.stake e -> 1 <= UserHistory.odds (UserHistory.tips e) ->
  - UserHistory.stake e <= UserHistory.pl e.
Proof.
  intros Hs Ho. rewrite pl_profit.
  destruct (UserHistory.status (UserHistory.tips e)); cbn [profit]; try lra.
  nra.
Qed.

Lemma profit_step_floor tips acc t :
  0 <= Dashboard.stake t ->
  (forall tip, tip ∈ tips -> 1 <= Dashboard.odds tip) ->
  acc - Dashboard.stake t <= Dashboard.profit_step tips acc t.
Proof.
  intros Hs Ho. unfold Dashboard.profit_step.
  destruct (Dashboard.find_tip tips (Dashboard.tip_id t)) as [tip|] eqn:E; [|lra].
  apply find_tip_Some in E as [Hin _]. pose proof (Ho tip Hin).
  repeat case_decide; try lra. nra.
Qed.
End Bounds.

(** X1. In the history of one user, with stakes that are not negative and
    odds of at least 1, the loss never exceeds the total staked, and the ROI
    is never below -100. *)
Theorem history_loss_bounded :
  forall entries : list UserHistory.TrackingEntry,
    Forall (fun e => (0 <= UserHistory.stake e)%Q
                     /\ (1 <= UserHistory.odds (UserHistory.tips e))%Q) entries ->
    (- UserHistory.totalStaked entries <= UserHistory.totalProfit entries)%Q
    /\ (- (100) <= UserHistory.roi entries)%Q.
Proof.
  intros entries Hall.
  assert (H : (- UserHistory.totalStaked entries <= UserHistory.totalProfit entries)%Q).
  { rewrite history_totalProfit_sum, history_totalStaked_sum, <- Qsum_opp.
    apply Qsum_le. intros e He.
    rewrite Forall_forall in Hall. destruct (Hall e He). by apply pl_floor. }
  split; [exact H|]. unfold UserHistory.roi.
  destruct (Js.gt (UserHistory.totalStaked entries) 0) eqn:E; [|done].
  apply gt_true in E. by apply percent_floor.
Qed.

Lemma history_loss_bounded_witness :
  (- (100) <= UserHistory.roi Sample.history)%Q.
Proof.
  apply (history_loss_bounded Sample.history).
  repeat constructor; discriminate.
Defined.

(** X2. On the dashboard, with stakes that are not negative and tips whose
    odds are at least 1, the loss never exceeds the total stakes, and the
    ROI is never below -100; stakes on missing tips do not change this. *)
Theorem dashboard_loss_bounded :
  forall (tips : list Dashboard.Tip) (tracking : list Dashboard.TrackingEntry),
    Forall (fun t => (0 <= Dashboard.stake t)%Q) tracking ->
    Forall (fun tip => (1 <= Dashboard.odds tip)%Q) tips ->
    (- Dashboard.totalStakes tracking <= Dashboard.totalProfit tips tracking)%Q
    /\ (- (100) <= Dashboard.roi tips tracking)%Q.
Proof.
  intros tips tracking Hstakes Hodds.
  rewrite Forall_forall in Hodds.
  assert (Hfold : forall a : Q,
    (a - Qsum (Dashboard.stake <$> tracking)
     <= fold_left (Dashboard.profit_step tips) tracking a)%Q).
  { induction Hstakes as [|t tracking Ht _ IH]; intros a.
    - rewrite fmap_nil, Qsum_nil. simpl. lra.
    - rewrite fmap_cons, Qsum_cons. simpl.
      pose proof (IH (Dashboard.profit_step tips a t)).
      pose proof (profit_step_floor tips a t Ht Hodds). lra. }
  assert (H : (- Dashboard.totalStakes tracking <= Dashboard.totalProfit tips tracking)%Q).
  { rewrite dashboard_totalStakes_sum. unfold Dashboard.totalProfit.
    pose proof (Hfold 0%Q). lra. }
  split; [exact H|]. unfold Dashboard.roi.
  destruct (Js.gt (Dashboard.totalStakes tracking) 0) eqn:E; [|done].
  apply gt_true in E. by apply percent_floor.
Qed.

Lemma dashboard_loss_bounded_witness :
  (- (100) <= Dashboard.roi Sample.tips (Sample.tracking ++ [Sample.orphan]))%Q.
Proof.
  apply (dashboard_loss_bounded Sample.tips (Sample.tracking ++ [Sample.orphan]));
    repeat constructor; discriminate.
Defined.

(** X3. The win rate lies between 0 and 100. *)
Theorem winRate_range :
  forall entries : list UserHistory.TrackingEntry,
    (0 <= UserHistory.winRate entries <= 100)%Q.
Proof.
  intros entries. unfold UserHistory.winRate.
  set (w := length (UserHistory.wonEntries entries)).
  set (l := length (UserHistory.lostEntries entries)).
  destruct (Nat.ltb_spec 0 (w + l)) as [Hpos|_]; [|split; discriminate].
  assert (Hw : (0 <= Js.num w)%Q).
  { unfold Js.num. change 0%Q with (inject_Z 0). rewrite <- Zle_Qle. lia. }
  assert (Hwl : (Js.num w <= Js.num (w + l))%Q).
  { unfold Js.num. rewrite <- Zle_Qle. lia. }
  assert (Hd : (0 < Js.num (w + l))%Q).
  { unfold Js.num. change 0%Q with (inject_Z 0). rewrite <- Zlt_Qlt. lia. }
  assert ((0 <= Js.num w / Js.num (w + l))%Q)
    by (apply Qle_shift_div_l; [done | lra]).
  assert ((Js.num w / Js.num (w + l) <= 1)%Q)
    by (apply Qle_shift_div_r; [done | lra]).
  split; lra.
Qed.

(** ** One entry per user, ties and truncation *)
Section Board.
Local Open Scope Q_scope.
Implicit Types (m : Js.Map Leaderboard.LeaderboardEntry) (rows : list Leaderboard.Row.t).

Lemma group_user_ids rows :
  Leaderboard.user_id <$> Js.values (Leaderboard.group_by_user rows)
  = (Leaderboard.group_by_user rows).*1.
Proof.
  destruct (tracks_group rows) as (Hnd & Hsome & _).
  unfold Js.values. rewrite <- list_fmap_compose.
  apply list_fmap_ext. intros i [k e] Hi. simpl.
  apply (Hsome k e), elem_of_get; [done|]. by eapply list_elem_of_lookup_2.
Qed.

Lemma board_sublist rows :
  exists l, Leaderboard.fetchLeaderboard rows `sublist_of` l
            /\ l ≡ₚ Js.values (Leaderboard.group_by_user rows).
Proof.
  eexists. split; [apply sublist_take | apply sort_perm].
Qed.

Lemma first_seen_elem u users : u ∈ first_seen users <-> u ∈ users.
Proof.
  induction users as [|v users IH]; [done|]. cbn [first_seen].
  rewrite !elem_of_cons, list_elem_of_filter, IH.
  destruct (decide (u = v)) as [->|Hne]; [by split; left|].
  split; [intros [?|[_ ?]]; [done | by right] | intros [?|?]; [done | by right]].
Qed.

Lemma first_seen_snoc users u :
  first_seen (users ++ [u])
  = if decide (u ∈ users) then first_seen users else first_seen users ++ [u].
Proof.
  induction users as [|v users IH]; [done|].
  rewrite <- app_comm_cons. cbn [first_seen]. rewrite IH.
  destruct (decide (u ∈ users)) as [Hin|Hin].
  - by rewrite (decide_True (P := u ∈ v :: users)) by (by apply list_elem_of_further).
  - rewrite filter_app, filter_cons, filter_nil.
    destruct (decide (u = v)) as [->|Hne].
    + rewrite (decide_True (P := v ∈ v :: users)) by apply list_elem_of_here.
      rewrite (decide_False (P := v <> v)) by (intros H'; by apply H').
      by rewrite app_nil_r.
    + rewrite (decide_False (P := u ∈ v :: users)) by (rewrite elem_of_cons; tauto).
      by rewrite (decide_True (P := u <> v)) by done.
Qed.

Lemma settled_users_snoc rows t :
  Leaderboard.Row.user_id <$> filter settled_row (rows ++ [t])
  = (Leaderboard.Row.user_id <$> filter settled_row rows)
    ++ (if decide (settled_row t) then [Leaderboard.Row.user_id t] else []).
Proof.
  rewrite filter_app, fmap_app, filter_cons, filter_nil. by case_decide.
Qed.

Lemma sorted_app_elem {A : Type} (R : A -> A -> Prop) (l1 l2 : list A) (x1 x2 : A) :
  StronglySorted R (l1 ++ l2) -> x1 ∈ l1 -> x2 ∈ l2 -> R x1 x2.
Proof.
  induction l1 as [|a l1 IH]; intros Hs H1 H2; [by apply elem_of_nil in H1|].
  rewrite <- app_comm_cons in Hs. apply StronglySorted_inv in Hs as [Hs Ha].
  apply elem_of_cons in H1 as [->|H1]; [|by apply IH].
  rewrite Forall_forall in Ha. apply Ha, elem_of_app. by right.
Qed.

End Board.

(** X6. The leaderboard has at most one entry per user, and no entry counts
    more wins than bets. *)
Theorem leaderboard_one_entry_per_user :
  forall rows : list Leaderboard.Row.t,
    NoDup (Leaderboard.user_id <$> Leaderboard.fetchLeaderboard rows)
    /\ Forall (fun e => Leaderboard.wins e <= Leaderboard.total_bets e)
         (Leaderboard.fetchLeaderboard rows).
Proof.
  intros rows. split.
  - destruct (board_sublist rows) as (l & Hsub & Hperm).
    eapply sublist_NoDup; [|by apply fmap_sublist].
    rewrite Hperm, group_user_ids. apply tracks_group.
  - apply Forall_forall. intros e He.
    destruct (board_summarizes rows e He) as [(_ & _ & -> & ->) _].
    apply length_filter.
Qed.

(** X8. Cutting the ranking after ten entries keeps the best: an entry of
    the grouping that is left off the leaderboard has no more profit than
    any entry on it, and when at most ten users have settled stakes nobody
    is left off. *)
Theorem leaderboard_keeps_the_best :
  forall rows : list Leaderboard.Row.t,
    (forall e e',
       e ∈ Leaderboard.fetchLeaderboard rows ->
       e' ∈ Js.values (Leaderboard.group_by_user rows) ->
       e' ∉ Leaderboard.fetchLeaderboard rows ->
       profit_ge e e')
    /\ (length (Leaderboard.group_by_user rows) <= 10 ->
          Leaderboard.fetchLeaderboard rows ≡ₚ Js.values (Leaderboard.group_by_user rows)).
Proof.
  intros rows. split.
  - intros e e' He He' Hout.
    assert (Hsorted := sort_sorted (Js.values (Leaderboard.group_by_user rows))).
    rewrite <- (take_drop 10) in Hsorted.
    eapply sorted_app_elem; [exact Hsorted | exact He |].
    rewrite <- (sort_perm Leaderboard.by_profit), <- (take_drop 10) in He'.
    apply elem_of_app in He' as [?|?]; done.
  - intros Hlen. unfold Leaderboard.fetchLeaderboard.
    rewrite take_ge; [apply sort_perm|].
    rewrite sort_perm. unfold Js.values. by rewrite length_fmap.
Qed.

Lemma leaderboard_keeps_the_best_witness :
  Leaderboard.fetchLeaderboard SampleBoard.rows
  ≡ₚ Js.values (Leaderboard.group_by_user SampleBoard.rows).
Proof.
  apply (leaderboard_keeps_the_best SampleBoard.rows). vm_compute. lia.
Defined.

(** ** Every outcome of tracking a tip *)
Section StakeOutcomes.
Import Migration.
Local Open Scope Q_scope.

Lemma tracked_by_pairs uid tid (tbl : list user_tracking.row) :
  tracked_by uid tid tbl
  <-> (uid, tid) ∈ (fun r => (user_tracking.user_id r, user_tracking.tip_id r)) <$> tbl.
Proof.
  unfold tracked_by. rewrite list_elem_of_fmap. split.
  - intros (r & Hin & <- & <-). by exists r.
  - intros (r & [= -> ->] & Hin). by exists r.
Qed.

(** What [handleStake] does, case by case. *)
Lemma handleStake_cases tips_tbl fresh_id now uid tid stake tbl :
  (exists x s,
     stake = Some x /\ numeric_10_2 x = Ok s /\ 0 < s
     /\ ~ tracked_by uid tid tbl /\ tip_exists tips_tbl tid
     /\ TipCard.handleStake tips_tbl fresh_id now uid tid stake tbl
        = (toast_success "Tip tracked!",
           tbl ++ [ {| user_tracking.id := fresh_id; user_tracking.user_id := uid;
                       user_tracking.tip_id := tid; user_tracking.stake := s;
                       user_tracking.created_at := now |} ]))
  \/ (exists msg,
        TipCard.handleStake tips_tbl fresh_id now uid tid stake tbl
        = (toast_error msg, tbl)).
Proof.
  unfold TipCard.handleStake.
  destruct stake as [x|]; [|right; by eexists].
  destruct (_ || _); [right; by eexists|].
  unfold user_tracking.insert.
  destruct (numeric_10_2 x) as [s|e] eqn:Hnum; cbn [mbind result_bind].
  2:{ right. destruct (Js.includes _ _); by eexists. }
  destruct (Js.gt s 0) eqn:Hgt; cbn [negb].
  2:{ right. destruct (Js.includes _ _); by eexists. }
  destruct (existsb _ tbl) eqn:Hdup.
  { right. destruct (Js.includes _ _); by eexists. }
  rewrite existsb_tip.
  destruct (decide (tip_exists tips_tbl tid)) as [Htip|Htip].
  - rewrite bool_decide_eq_true_2 by done. cbn [negb]. left. exists x, s.
    repeat split; try done.
    + by apply gt_true.
    + rewrite <- tracked_by_existsb. congruence.
  - rewrite bool_decide_eq_false_2 by done. cbn [negb].
    right. destruct (Js.includes _ _); by eexists.
Qed.
End StakeOutcomes.

(** X9. Tracking a tip either succeeds, and then exactly one row is added
    at the end of the table, for this user and tip, with a positive stake,
    the user did not track the tip before and the tip is stored; or it
    shows an error and leaves the table as it was. *)
Theorem handleStake_outcomes :
  forall (tips_tbl : list Migration.tips.row) (fresh_id : string) (now : Z)
         (uid tid : string) (stake : option Q) (tbl : list Migration.user_tracking.row),
    let shown := TipCard.handleStake tips_tbl fresh_id now uid tid stake tbl in
    (fst shown = toast_success "Tip tracked!"
     /\ ~ tracked_by uid tid tbl /\ tip_exists tips_tbl tid
     /\ exists r, snd shown = tbl ++ [r]
          /\ Migration.user_tracking.user_id r = uid
          /\ Migration.user_tracking.tip_id r = tid
          /\ (0 < Migration.user_tracking.stake r)%Q)
    \/ (exists msg, fst shown = toast_error msg) /\ snd shown = tbl.
Proof.
  intros tips_tbl fresh_id now uid tid stake tbl shown. unfold shown.
  destruct (handleStake_cases tips_tbl fresh_id now uid tid stake tbl)
    as [(x & s & _ & _ & Hpos & Hnew & Htip & ->) | (msg & ->)].
  - left. repeat split; try done. eexists. by repeat split.
  - right. split; [by exists msg | done].
Qed.

(** X10. Tracking a tip keeps the constraints of the table: no user tracks
    a tip twice, every stake is positive and references a stored tip; the
    rows that were there stay, in place. *)
Theorem handleStake_keeps_constraints :
  forall (tips_tbl : list Migration.tips.row) (fresh_id : string) (now : Z)
         (uid tid : string) (stake : option Q) (tbl : list Migration.user_tracking.row),
    tracking_constraints tips_tbl tbl ->
    let tbl' := snd (TipCard.handleStake tips_tbl fresh_id now uid tid stake tbl) in
    tracking_constraints tips_tbl tbl' /\ tbl `prefix_of` tbl'.
Proof.
  intros tips_tbl fresh_id now uid tid stake tbl [Hnd Hall] tbl'. unfold tbl'.
  destruct (handleStake_cases tips_tbl fresh_id now uid tid stake tbl)
    as [(x & s & _ & _ & Hpos & Hnew & Htip & ->) | (msg & ->)]; cbn [snd].
  - split; [|by apply prefix_app_r]. split.
    + rewrite fmap_app. apply NoDup_app. split; [done|].
      split; [|apply NoDup_singleton].
      intros k Hk ->%list_elem_of_singleton. by apply Hnew, tracked_by_pairs.
    + apply Forall_app. split; [done|]. by repeat constructor.
  - by split.
Qed.

Lemma handleStake_keeps_constraints_witness :
  tracking_constraints SampleTips.table SampleStakes.table
  /\ tracking_constraints SampleTips.table
       (snd (TipCard.handleStake SampleTips.table "s3" 60 "carol" "t2" (Some 12%Q)
               SampleStakes.table)).
Proof.
  assert (H : tracking_constraints SampleTips.table SampleStakes.table).
  { split; [apply (bool_decide_unpack _); vm_compute; exact I|].
    repeat constructor; apply (bool_decide_unpack _); vm_compute; exact I. }
  split; [exact H|].
  apply (handleStake_keeps_constraints SampleTips.table "s3" 60 "carol" "t2" (Some 12%Q)
           SampleStakes.table H).
Defined.

(** ** The tracked tips of the feed *)
Section TrackedTips.
Import Migration.

Lemma fetchTracking_elem uid tid (tbl : list user_tracking.row) (T : gset string) :
  tid ∈ Index.fetchTracking (Some uid) tbl T <-> tracked_by uid tid tbl.
Proof.
  unfold Index.fetchTracking, tracked_by.
  rewrite elem_of_list_to_set, list_elem_of_fmap. split.
  - intros (r & -> & Hin). apply list_elem_of_In, filter_In in Hin as [Hin Hu].
    exists r. apply String.eqb_eq in Hu. by rewrite list_elem_of_In.
  - intros (r & Hin & Hu & Ht). exists r. split; [done|].
    apply list_elem_of_In, filter_In. split; [by apply list_elem_of_In|].
    by apply String.eqb_eq.
Qed.
End TrackedTips.

(** X11. The feed marks a tip as tracked exactly when the signed-in user has
    a stake on it.  A card that offers the button, on a feed that shows the
    stored stakes, is never answered "already tracked"; and once tracking
    succeeded, the refreshed feed marks the tip and the card stops offering
    the button. *)
Theorem tracked_tips_and_button :
  forall (tips_tbl : list Migration.tips.row) (fresh_id : string) (now : Z)
         (uid tid : string) (stake : option Q) (status : tip_status)
         (tbl : list Migration.user_tracking.row) (T : gset string),
    let trackedTips := Index.fetchTracking (Some uid) tbl T in
    let shown := TipCard.handleStake tips_tbl fresh_id now uid tid stake tbl in
    (tid ∈ trackedTips <-> tracked_by uid tid tbl)
    /\ (TipCard.offers_tracking (Some uid) status (bool_decide (tid ∈ trackedTips)) = true ->
          fst shown <> already_tracked)
    /\ (fst shown = toast_success "Tip tracked!" ->
          let trackedTips' := Index.fetchTracking (Some uid) (snd shown) trackedTips in
          tid ∈ trackedTips'
          /\ TipCard.offers_tracking (Some uid) status (bool_decide (tid ∈ trackedTips'))
             = false).
Proof.
  intros tips_tbl fresh_id now uid tid stake status tbl T trackedTips shown.
  split; [apply fetchTracking_elem|]. split.
  - unfold TipCard.offers_tracking. rewrite !andb_true_iff, negb_true_iff.
    intros [_ Hno]. apply bool_decide_eq_false in Hno.
    intros Hshown. apply Hno, fetchTracking_elem.
    by eapply already_tracked_only_on_duplicate.
  - intros Hok trackedTips'.
    assert (tid ∈ trackedTips') as Hin.
    { apply fetchTracking_elem. unfold shown in *.
      destruct (handleStake_cases tips_tbl fresh_id now uid tid stake tbl)
        as [(x & s & _ & _ & _ & _ & _ & Heq) | (msg & Heq)];
        rewrite Heq in *; [|discriminate]. cbn [snd].
      eexists. split; [apply elem_of_app; right; apply list_elem_of_here|done]. }
    split; [done|]. unfold TipCard.offers_tracking.
    rewrite (bool_decide_eq_true_2 _ Hin). apply andb_false_r.
Qed.

Lemma tracked_tips_and_button_witness :
  fst (TipCard.handleStake SampleTips.table "s3" 60 "carol" "t2" (Some 12%Q)
         SampleStakes.table)
  <> already_tracked.
Proof.
  apply (tracked_tips_and_button SampleTips.table "s3" 60 "carol" "t2" (Some 12%Q)
           pending SampleStakes.table ∅).
  reflexivity.
Defined.

(** ** More on the reaction tally *)
Section TallyFacts.
Import Migration.
Implicit Types (tbl : list tip_reactions.row) (uid tid ty : string).

Lemma shown_counts user (data : list tip_reactions.row) tid :
  Index.shown (Index.fetchReactions user data) tid
  = counts user (reaction_key <$> data) tid.
Proof. unfold Index.shown. by rewrite fetchReactions_lookup, tally_default. Qed.

Lemma counts_perm user keys keys' tid :
  keys ≡ₚ keys' -> counts user keys tid = counts user keys' tid.
Proof.
  intros Hp. by rewrite <- !tally_default, (tally_of_perm user keys keys' tid Hp).
Qed.

Lemma toggled_other_tip tips_tbl fresh_id now uid tid ty tbl user tid' :
  unique_reactions tbl -> tid' <> tid ->
  tally_of user (reaction_key <$> toggled tips_tbl fresh_id now uid tid ty tbl) tid'
  = tally_of user (reaction_key <$> tbl) tid'.
Proof.
  intros Hu Hne. unfold toggled.
  destruct (decide (reacted uid tid ty tbl)) as [H|H].
  - rewrite (tally_of_perm _ _ _ tid' (keys_without uid tid ty tbl Hu H)).
    rewrite (tally_of_perm _ _ _ tid' (Permutation_cons_append _ _)).
    rewrite tally_of_snoc. by rewrite decide_False.
  - destruct (decide (tip_exists tips_tbl tid)); [|done].
    rewrite fmap_app. cbn [fmap list_fmap]. rewrite tally_of_snoc.
    by rewrite decide_False.
Qed.
End TallyFacts.

(** X12. The fetched tally has an entry for exactly the tips that have a
    reaction; its like and fire counts are the numbers of stored reactions
    of that kind on the tip, and its flags tell whether the viewer is among
    them.  Without a viewer both flags are off, and a flag that is on comes
    with a count of at least one. *)
Theorem reaction_tally_counts :
  forall (user : option string) (data : list Migration.tip_reactions.row) (tid : string),
    Index.fetchReactions user data !! tid = tally_of user (reaction_key <$> data) tid
    /\ (user = None ->
          Index.userLiked (Index.shown (Index.fetchReactions user data) tid) = false
          /\ Index.userFired (Index.shown (Index.fetchReactions user data) tid) = false)
    /\ (Index.userLiked (Index.shown (Index.fetchReactions user data) tid) = true ->
          1 <= Index.like (Index.shown (Index.fetchReactions user data) tid))
    /\ (Index.userFired (Index.shown (Index.fetchReactions user data) tid) = true ->
          1 <= Index.fire (Index.shown (Index.fetchReactions user data) tid)).
Proof.
  intros user data tid. split; [apply fetchReactions_lookup|].
  rewrite shown_counts. unfold counts. cbn [Index.userLiked Index.userFired Index.like Index.fire].
  assert (Hflag : forall ty keys,
    bool_decide (Exists (by_viewer user tid ty) keys) = true ->
    1 <= length (filter (of_kind tid ty) keys)).
  { intros ty keys (k & Hk & _ & Ht & Hy)%bool_decide_eq_true%Exists_exists.
    assert (k ∈ filter (of_kind tid ty) keys) as Hin by (by apply list_elem_of_filter).
    destruct (filter (of_kind tid ty) keys); [by apply elem_of_nil in Hin | simpl; lia]. }
  split; [|split; apply Hflag].
  intros ->. split; apply bool_decide_eq_false; by intros (k & _ & [=] & _)%Exists_exists.
Qed.

Lemma reaction_tally_counts_witness :
  Index.shown (Index.fetchReactions (Some "alice"%string) SampleReactions.table) "t1"
  = {| Index.like := 2; Index.fire := 0; Index.userLiked := true; Index.userFired := false |}
  /\ 1 <= Index.like
            (Index.shown (Index.fetchReactions (Some "alice"%string) SampleReactions.table)
               "t1").
Proof.
  split; [reflexivity|].
  apply (reaction_tally_counts (Some "alice"%string) SampleReactions.table "t1").
  reflexivity.
Defined.

(** X13. One toggle changes the toggled kind on the toggled tip by one
    reaction and nothing else: the tally of every other tip stays as it was;
    when the viewer had reacted, the tally before is the tally after plus
    the viewer's reaction, and when the viewer had not (and the tip is
    stored), the tally after is the tally before plus that reaction. *)
Theorem reaction_toggle_changes_one_count :
  forall (tips_tbl : list Migration.tips.row) (uid tipId type fresh_id : string)
         (now : Z) (tbl : list Migration.tip_reactions.row),
    unique_reactions tbl ->
    type = "like"%string \/ type = "fire"%string ->
    let st0 := {| Index.tip_reactions_tbl := tbl;
                  Index.reactions := Index.fetchReactions (Some uid) tbl |} in
    let st1 := Index.handleReact (Some uid) tips_tbl fresh_id now tipId type st0 in
    (forall tid, tid <> tipId -> Index.reactions st1 !! tid = Index.reactions st0 !! tid)
    /\ (reacted uid tipId type tbl ->
          Index.shown (Index.reactions st0) tipId
          = bump (Some uid) (uid, tipId, type) (Index.shown (Index.reactions st1) tipId))
    /\ (~ reacted uid tipId type tbl -> tip_exists tips_tbl tipId ->
          Index.shown (Index.reactions st1) tipId
          = bump (Some uid) (uid, tipId, type) (Index.shown (Index.reactions st0) tipId))
    /\ (~ reacted uid tipId type tbl -> ~ tip_exists tips_tbl tipId -> st1 = st0).
Proof.
  intros tips_tbl uid tipId type fresh_id now tbl Hu Hty st0 st1.
  assert (H1 : st1 = {| Index.tip_reactions_tbl := toggled tips_tbl fresh_id now uid tipId type tbl;
                        Index.reactions := Index.fetchReactions (Some uid)
                          (toggled tips_tbl fresh_id now uid tipId type tbl) |})
    by (by apply handleReact_toggled).
  rewrite H1. cbn [Index.reactions st0]. split; [|split; [|split]].
  - intros tid Hne. rewrite !fetchReactions_lookup. by apply toggled_other_tip.
  - intros Hr. rewrite !shown_counts. unfold toggled. rewrite decide_True by done.
    rewrite (counts_perm _ _ _ tipId (keys_without uid tipId type tbl Hu Hr)).
    rewrite (counts_perm _ _ _ tipId (Permutation_cons_append _ _)).
    apply (counts_snoc_same (Some uid) _ (uid, tipId, type)).
  - intros Hr Htip. rewrite !shown_counts. unfold toggled.
    rewrite decide_False, decide_True by done.
    rewrite fmap_app. apply (counts_snoc_same (Some uid) _ (uid, tipId, type)).
  - intros Hr Htip. unfold toggled. by rewrite !decide_False.
Qed.

Lemma reaction_toggle_changes_one_count_witness :
  unique_reactions SampleReactions.table
  /\ Index.like
       (Index.shown
          (Index.reactions
             (Index.handleReact (Some "alice"%string) SampleTips.table "r4" 70 "t1" "like"
                (SampleReactions.page (Some "alice"%string)))) "t1") = 1
  /\ forall tid, tid <> "t1"%string ->
       Index.reactions
         (Index.handleReact (Some "alice"%string) SampleTips.table "r4" 70 "t1" "like"
            (SampleReactions.page (Some "alice"%string))) !! tid
       = Index.reactions (SampleReactions.page (Some "alice"%string)) !! tid.
Proof.
  assert (Hu : unique_reactions SampleReactions.table)
    by (apply (bool_decide_unpack _); vm_compute; exact I).
  split; [exact Hu|]. split; [reflexivity|].
  apply (reaction_toggle_changes_one_count SampleTips.table "alice" "t1" "like" "r4" 70
           SampleReactions.table Hu). by left.
Defined.

(** X14. Whatever tally the page holds, even an outdated one, a toggle
    never stores a duplicate reaction and never touches the reactions of
    other users, other tips or the other kind; afterwards the page holds
    the tally of the stored reactions.  Without a signed-in user it does
    nothing. *)
Theorem handleReact_any_page :
  forall (tips_tbl : list Migration.tips.row) (user : option string)
         (tipId type fresh_id : string) (now : Z) (st : Index.State),
    unique_reactions (Index.tip_reactions_tbl st) ->
    let st1 := Index.handleReact user tips_tbl fresh_id now tipId type st in
    unique_reactions (Index.tip_reactions_tbl st1)
    /\ (user = None -> st1 = st)
    /\ (forall uid, user = Some uid ->
          filter (fun r => reaction_key r <> (uid, tipId, type)) (Index.tip_reactions_tbl st1)
          = filter (fun r => reaction_key r <> (uid, tipId, type)) (Index.tip_reactions_tbl st)
          /\ Index.reactions st1 = Index.fetchReactions user (Index.tip_reactions_tbl st1)).
Proof.
  intros tips_tbl user tipId type fresh_id now st Hu st1.
  destruct user as [uid|]; [|by repeat split].
  unfold st1, Index.handleReact. cbn [Index.tip_reactions_tbl Index.reactions].
  set (tbl := Index.tip_reactions_tbl st) in *.
  destruct (match Index.reactions st !! tipId with Some _ => _ | None => _ end).
  - rewrite delete_filter. split; [by apply unique_after_filter|].
    split; [done|]. intros ? [= <-]. split; [|done].
    apply list_filter_filter_l. tauto.
  - unfold Migration.tip_reactions.insert. rewrite existsb_same_key.
    destruct (decide (reacted uid tipId type tbl)) as [Hr|Hr].
    + rewrite bool_decide_eq_true_2 by done. cbn [Migration.table_after].
      split; [done|]. split; [done|]. by intros ? [= <-].
    + rewrite bool_decide_eq_false_2 by done.
      destruct (negb _); cbn [Migration.table_after].
      * split; [done|]. split; [done|]. by intros ? [= <-].
      * split.
        { unfold unique_reactions. rewrite fmap_app. apply NoDup_app.
          split; [done|]. split; [|apply NoDup_singleton].
          intros k Hk ->%list_elem_of_singleton. by apply Hr. }
        split; [done|]. intros ? [= <-]. split; [|done].
        rewrite filter_app, filter_cons, decide_False by (intros H'; by apply H').
        by rewrite filter_nil, app_nil_r.
Qed.

Lemma handleReact_any_page_witness :
  unique_reactions SampleReactions.table
  /\ unique_reactions
       (Index.tip_reactions_tbl
          (Index.handleReact (Some "alice"%string) SampleTips.table "r4" 70 "t1" "like"
             {| Index.tip_reactions_tbl := SampleReactions.table;
                Index.reactions := ∅ |})).
Proof.
  assert (Hu : unique_reactions SampleReactions.table)
    by (apply (bool_decide_unpack _); vm_compute; exact I).
  split; [exact Hu|].
  apply (handleReact_any_page SampleTips.table (Some "alice"%string) "t1" "like" "r4" 70
           {| Index.tip_reactions_tbl := SampleReactions.table; Index.reactions := ∅ |} Hu).
Defined.

(** ** The comment badge *)
Section CommentCounts.
Import Migration.

Lemma count_comment_lookup (counts : gmap string nat) (c : tip_comments.row) tid :
  Index.commentCount (Index.count_comment counts c) tid
  = Index.commentCount counts tid
    + (if decide (tip_comments.tip_id c = tid) then 1 else 0).
Proof.
  unfold Index.commentCount, Index.count_comment.
  case_decide as Htid.
  - subst tid. by rewrite lookup_insert_eq.
  - rewrite lookup_insert_ne by done. lia.
Qed.

Lemma fetchCommentCounts_count (data : list tip_comments.row) tid :
  Index.commentCount (Index.fetchCommentCounts data) tid
  = length (filter (fun c => tip_comments.tip_id c = tid) data).
Proof.
  unfold Index.fetchCommentCounts.
  induction data as [|c data IH] using rev_ind; [done|].
  rewrite fold_left_app. cbn [fold_left].
  rewrite count_comment_lookup, IH, filter_app, length_app, filter_cons, filter_nil.
  by case_decide.
Qed.
Lemma fetchComments_perm profiles_tbl (tbl : list tip_comments.row) tipId :
  TipComments.fetchComments profiles_tbl tbl tipId
  ≡ₚ TipComments.with_profile profiles_tbl
       <$> filter (fun c => tip_comments.tip_id c = tipId) tbl.
Proof.
  unfold TipComments.fetchComments. rewrite order_by_asc_perm.
  apply eq_subrelation; [apply _|]. f_equal.
  induction tbl as [|c tbl IH]; [done|]. simpl. rewrite filter_cons, IH.
  destruct (String.eqb_spec (tip_comments.tip_id c) tipId); case_decide; congruence.
Qed.
End CommentCounts.

(** X15. The number on the comment button of a tip is the number of stored
    comments that reference the tip, which is the length of the list the
    comment panel fetches; the counts have no entry for a tip without
    comments. *)
Theorem comment_count_matches_comments :
  forall (profiles_tbl : list Migration.profiles.row)
         (data : list Migration.tip_comments.row) (tipId : string),
    Index.commentCount (Index.fetchCommentCounts data) tipId
    = length (filter (fun c => Migration.tip_comments.tip_id c = tipId) data)
    /\ Index.commentCount (Index.fetchCommentCounts data) tipId
       = length (TipComments.fetchComments profiles_tbl data tipId)
    /\ (Index.fetchCommentCounts data !! tipId = None
        <-> forall c, c ∈ data -> Migration.tip_comments.tip_id c <> tipId).
Proof.
  intros profiles_tbl data tipId.
  assert (H := fetchCommentCounts_count data tipId).
  split; [exact H|]. split.
  - rewrite H.
    by rewrite fetchComments_perm, length_fmap.
  - split.
    + intros Hnone c Hc Htip.
      unfold Index.commentCount in H. rewrite Hnone in H. simpl in H.
      assert (c ∈ filter (fun c => Migration.tip_comments.tip_id c = tipId) data) as Hin
        by (by apply list_elem_of_filter).
      destruct (filter _ data); [by apply elem_of_nil in Hin | done].
    + intros Hno. clear H. unfold Index.fetchCommentCounts.
      induction data as [|c data IH] using rev_ind; [done|].
      rewrite fold_left_app. cbn [fold_left]. unfold Index.count_comment at 1.
      rewrite lookup_insert_ne.
      * apply IH. intros c' Hc'. apply Hno, elem_of_app. by left.
      * apply Hno, elem_of_app. right. apply list_elem_of_here.
Qed.

(** ** What the anti-cheat guard leaves open *)
Section TipEdits.
Import Migration.
Implicit Types (OLD NEW r : tips.row) (tbl : list tips.row) (now : Z).

Lemma before_update_same_terms now OLD NEW :
  ~ changes_terms OLD NEW ->
  tips.before_update now OLD NEW = Ok (tips.set_updated_at now NEW).
Proof.
  intros H. unfold tips.before_update. by rewrite anti_cheat_accepts_same_terms.
Qed.

Lemma before_update_before_start now OLD NEW :
  (now < tips.match_start_time OLD)%Z ->
  tips.before_update now OLD NEW = Ok (tips.set_updated_at now NEW).
Proof.
  intros H. unfold tips.before_update. by rewrite anti_cheat_before_start.
Qed.

Lemma update_status_rows now s tipId tbl :
  snd (Dashboard.updateTipStatus now tipId s tbl)
  = (fun r => if String.eqb (tips.id r) tipId
              then tips.set_updated_at now (tips.set_status s r) else r) <$> tbl.
Proof. unfold Dashboard.updateTipStatus. by rewrite update_status_ok. Qed.
End TipEdits.

(** X16. The guard looks at the match name, the bet type and the odds only,
    and at the start time the row had before the update.  So an update
    that moves the start time is accepted even after the match has started,
    and once the start time lies in the future again, any update of the row
    is accepted, a change of the odds included. *)
Theorem anti_cheat_start_time_unprotected :
  forall (now1 now2 new_start : Z) (OLD NEW2 : Migration.tips.row),
    (now2 < new_start)%Z ->
    let NEW1 := set_match_start_time new_start OLD in
    (forall NEW, ~ changes_terms OLD NEW ->
       Migration.tips.before_update now1 OLD NEW
       = Migration.Ok (Migration.tips.set_updated_at now1 NEW))
    /\ Migration.tips.before_update now1 OLD NEW1
       = Migration.Ok (Migration.tips.set_updated_at now1 NEW1)
    /\ Migration.tips.before_update now2 (Migration.tips.set_updated_at now1 NEW1) NEW2
       = Migration.Ok (Migration.tips.set_updated_at now2 NEW2).
Proof.
  intros now1 now2 new_start OLD NEW2 Hfuture NEW1. split; [|split].
  - intros NEW. apply before_update_same_terms.
  - apply before_update_same_terms. unfold changes_terms, NEW1. simpl.
    intros [?|[?|H]]; [done..|]. by apply H.
  - by apply before_update_before_start.
Qed.

Lemma anti_cheat_start_time_unprotected_witness :
  (Migration.tips.match_start_time SampleTips.psg_om <= 150)%Z
  /\ Migration.tips.odds
       (Migration.table_after SampleTips.psg_om
          (Migration.tips.before_update 160
             (Migration.table_after SampleTips.psg_om
                (Migration.tips.before_update 150 SampleTips.psg_om
                   (set_match_start_time 1000 SampleTips.psg_om)))
             (SampleTips.set_odds 3
                (set_match_start_time 1000 SampleTips.psg_om))))
     = 3%Q.
Proof.
  split; [vm_compute; discriminate|].
  destruct (anti_cheat_start_time_unprotected 150 160 1000 SampleTips.psg_om
              (SampleTips.set_odds 3 (set_match_start_time 1000 SampleTips.psg_om)))
    as (_ & H1 & H2); [reflexivity|].
  rewrite H1. cbn [Migration.table_after]. rewrite H2. reflexivity.
Defined.

(** X17. Marking a tip never adds or removes a row and never changes an id;
    when no stored tip has the given id, the dashboard still reports
    success and the table is as it was. *)
Theorem updateTipStatus_rows_and_unknown_tip :
  forall (now : Z) (tipId : string) (s : tip_status) (tbl : list Migration.tips.row),
    let shown := Dashboard.updateTipStatus now tipId s tbl in
    length (snd shown) = length tbl
    /\ Migration.tips.id <$> snd shown = Migration.tips.id <$> tbl
    /\ (tipId ∉ Migration.tips.id <$> tbl ->
          shown = (toast_success ("Tip marked as " ++ Dashboard.status_text s), tbl)).
Proof.
  intros now tipId s tbl shown. unfold shown. rewrite update_status_rows.
  split; [by rewrite length_fmap|]. split.
  - rewrite <- list_fmap_compose. apply list_fmap_ext. intros i r _. simpl.
    by destruct (String.eqb _ _).
  - intros Hno. unfold Dashboard.updateTipStatus. rewrite update_status_ok.
    f_equal. rewrite <- (list_fmap_id tbl) at 2.
    apply list_fmap_ext. intros i r Hr. simpl.
    destruct (String.eqb_spec (Migration.tips.id r) tipId) as [<-|]; [|done].
    exfalso. apply Hno, list_elem_of_fmap. exists r. split; [done|].
    by eapply list_elem_of_lookup_2.
Qed.

Lemma updateTipStatus_rows_and_unknown_tip_witness :
  Dashboard.updateTipStatus 150 "t404" won SampleTips.table
  = (toast_success "Tip marked as won", SampleTips.table).
Proof.
  apply (updateTipStatus_rows_and_unknown_tip 150 "t404" won SampleTips.table).
  apply (bool_decide_unpack _). vm_compute. exact I.
Defined.

(** ** Roles *)
Section Roles.
Import Migration.

Lemma has_role_select roles_tbl uid (r : app_role) :
  has_role roles_tbl uid r = bool_decide (r ∈ useAuth.select_roles roles_tbl uid).
Proof.
  apply eq_true_iff_eq. unfold has_role, useAuth.select_roles.
  rewrite existsb_exists, bool_decide_eq_true, list_elem_of_fmap. split.
  - intros (x & Hin & [Hu Hr%bool_decide_eq_true]%andb_true_iff).
    exists x. split; [done|]. apply list_elem_of_In, filter_In. by split.
  - intros (x & -> & [Hin Hu]%list_elem_of_In%filter_In).
    exists x. split; [done|]. apply andb_true_iff. split; [done|].
    by apply bool_decide_eq_true.
Qed.
End Roles.

(** X18. When the user has at least one role row, the role the client
    derives is the highest one held (admin before moderator before user),
    and the client's [isModerator] is exactly the condition under which the
    server lets the user insert or update tips.  When the user has no role
    row, the client keeps the role it had, while the server grants
    nothing. *)
Theorem client_role_matches_policy :
  forall (roles_tbl : list Migration.user_roles.row) (uid : string)
         (role : Migration.app_role),
    let data := useAuth.select_roles roles_tbl uid in
    let role' := useAuth.fetchRole roles_tbl uid role in
    (data <> [] ->
       useAuth.isModerator role' = Migration.may_manage_tips roles_tbl uid
       /\ (Migration.has_role roles_tbl uid Migration.admin = true ->
             role' = Migration.admin)
       /\ (Migration.has_role roles_tbl uid Migration.admin = false ->
           Migration.has_role roles_tbl uid Migration.moderator = true ->
             role' = Migration.moderator)
       /\ (Migration.has_role roles_tbl uid Migration.admin = false ->
           Migration.has_role roles_tbl uid Migration.moderator = false ->
             role' = Migration.user))
    /\ (data = [] ->
          role' = role /\ Migration.may_manage_tips roles_tbl uid = false).
Proof.
  intros roles_tbl uid role data role'.
  unfold role', useAuth.fetchRole, useAuth.on_roles, Migration.may_manage_tips.
  rewrite !has_role_select. fold data. split.
  - intros Hne.
    assert ((0 <? length data) = true) as ->
      by (apply Nat.ltb_lt; destruct data; [done | simpl; lia]).
    destruct (bool_decide (Migration.admin ∈ data)),
             (bool_decide (Migration.moderator ∈ data)); by repeat split.
  - intros ->. split; [done|].
    rewrite !bool_decide_eq_false_2 by apply not_elem_of_nil. done.
Qed.

Lemma client_role_matches_policy_witness :
  useAuth.select_roles SampleRoles.table "mod" <> []
  /\ useAuth.fetchRole SampleRoles.table "mod" Migration.user = Migration.moderator
  /\ useAuth.fetchRole SampleRoles.table "nobody" Migration.admin = Migration.admin
  /\ Migration.may_manage_tips SampleRoles.table "nobody" = false.
Proof.
  assert (H : useAuth.select_roles SampleRoles.table "mod" <> []) by discriminate.
  destruct (client_role_matches_policy SampleRoles.table "mod" Migration.user)
    as [Hsome _].
  destruct (client_role_matches_policy SampleRoles.table "nobody" Migration.admin)
    as [_ Hnone].
  destruct (Hsome H) as (_ & _ & Hmod & _).
  destruct (Hnone eq_refl) as [Hkeep Hdeny].
  split; [exact H|]. split; [by apply Hmod|]. by split.
Defined.

(** X19. For an account whose id has no profile and no role yet,
    [handle_new_user] succeeds: it adds one profile, named after the
    username of the sign-up or else after the part of the email before the
    [@], and the role [user] and nothing more; the client then derives the
    role [user], the server refuses the account the tip management, and the
    roles of the other users are as before. *)
Theorem new_user_is_plain_user :
  forall (role_id : string) (now : Z) (NEW : Migration.auth_user)
         (profiles_tbl : list Migration.profiles.row)
         (roles_tbl : list Migration.user_roles.row) (role : Migration.app_role),
    Migration.auth_id NEW ∉ Migration.profiles.id <$> profiles_tbl ->
    useAuth.select_roles roles_tbl (Migration.auth_id NEW) = [] ->
    exists p roles_tbl',
      Migration.handle_new_user role_id now NEW (profiles_tbl, roles_tbl)
      = Migration.Ok (profiles_tbl ++ [p], roles_tbl')
      /\ Migration.profiles.id p = Migration.auth_id NEW
      /\ Migration.profiles.username p
         = default (Migration.split_part_at_1 (Migration.email NEW))
             (Migration.meta_username NEW)
      /\ useAuth.select_roles roles_tbl' (Migration.auth_id NEW) = [Migration.user]
      /\ useAuth.fetchRole roles_tbl' (Migration.auth_id NEW) role = Migration.user
      /\ Migration.may_manage_tips roles_tbl' (Migration.auth_id NEW) = false
      /\ forall uid, uid <> Migration.auth_id NEW ->
           useAuth.select_roles roles_tbl' uid = useAuth.select_roles roles_tbl uid.
Proof.
  intros role_id now NEW profiles_tbl roles_tbl role Hfresh Hnone.
  unfold Migration.handle_new_user.
  assert (existsb (fun p => String.eqb (Migration.profiles.id p) (Migration.auth_id NEW))
            profiles_tbl = false) as ->.
  { apply not_true_iff_false. intros (p & Hin & Heq%String.eqb_eq)%existsb_exists.
    apply Hfresh, list_elem_of_fmap. exists p. split; [done | by apply list_elem_of_In]. }
  rewrite has_role_select, Hnone, bool_decide_eq_false_2 by apply not_elem_of_nil.
  eexists _, _. split; [reflexivity|]. split; [done|]. split; [done|].
  assert (Hsel : forall uid,
    useAuth.select_roles
      (roles_tbl ++ [ {| Migration.user_roles.id := role_id;
                         Migration.user_roles.user_id := Migration.auth_id NEW;
                         Migration.user_roles.role := Migration.user |} ]) uid
    = useAuth.select_roles roles_tbl uid
      ++ (if String.eqb (Migration.auth_id NEW) uid then [Migration.user] else [])).
  { intros uid. unfold useAuth.select_roles. rewrite List.filter_app, fmap_app. simpl.
    by destruct (String.eqb (Migration.auth_id NEW) uid). }
  assert (Hmine : useAuth.select_roles
      (roles_tbl ++ [ {| Migration.user_roles.id := role_id;
                         Migration.user_roles.user_id := Migration.auth_id NEW;
                         Migration.user_roles.role := Migration.user |} ])
      (Migration.auth_id NEW) = [Migration.user])
    by (by rewrite Hsel, Hnone, String.eqb_refl).
  split; [exact Hmine|]. split; [|split].
  - unfold useAuth.fetchRole. by rewrite Hmine.
  - unfold Migration.may_manage_tips. by rewrite !has_role_select, Hmine.
  - intros uid Hne. rewrite Hsel.
    destruct (String.eqb_spec (Migration.auth_id NEW) uid); [congruence|].
    apply app_nil_r.
Qed.

Lemma new_user_is_plain_user_witness :
  (Migration.auth_id SampleRoles.newcomer
     ∉ Migration.profiles.id <$> SampleComments.profiles)
  /\ exists tables,
       Migration.handle_new_user "ur9" 90 SampleRoles.newcomer
         (SampleComments.profiles, SampleRoles.table) = Migration.Ok tables
       /\ useAuth.fetchRole tables.2 "erin" Migration.admin = Migration.user.
Proof.
  assert (H : Migration.auth_id SampleRoles.newcomer
                ∉ (Migration.profiles.id <$> SampleComments.profiles))
    by (apply (bool_decide_unpack _); vm_compute; exact I).
  split; [exact H|].
  destruct (new_user_is_plain_user "ur9" 90 SampleRoles.newcomer SampleComments.profiles
              SampleRoles.table Migration.admin H eq_refl)
    as (p & roles' & Heq & _ & _ & _ & Hrole & _).
  exists (SampleComments.profiles ++ [p], roles'). by split.
Defined.

(** X20. Every tip of the feed is on exactly one of the two tabs, pending
    tips on the active one and the others on the settled one, each tab in
    the order of the feed; a card on the settled tab never offers the
    tracking button. *)
Theorem feed_tabs_partition :
  forall tips : list Index.Tip,
    Index.activeTips tips ++ Index.settledTips tips ≡ₚ tips
    /\ Index.activeTips tips `sublist_of` tips
    /\ Index.settledTips tips `sublist_of` tips
    /\ (forall t, t ∈ Index.activeTips tips -> t ∉ Index.settledTips tips)
    /\ (forall t user isTracked, t ∈ Index.settledTips tips ->
          TipCard.offers_tracking user (Index.status t) isTracked = false).
Proof.
  intros tips. unfold Index.activeTips, Index.settledTips.
  split; [apply filter_app_complement|].
  split; [apply sublist_filter|]. split; [apply sublist_filter|]. split.
  - intros t [Hp _]%list_elem_of_filter [Hn _]%list_elem_of_filter. done.
  - intros t user isTracked [Hn _]%list_elem_of_filter.
    unfold TipCard.offers_tracking. rewrite (bool_decide_eq_false_2 _ Hn).
    by rewrite andb_false_r.
Qed.

(** ** Stakes the client lets through and the table refuses *)
Section SubCent.
Import Migration.
Local Open Scope Q_scope.

Lemma numeric_10_2_sub_cent (x : Q) :
  0 < x -> x < 1 # 200 -> numeric_10_2 x = Ok (0 # 100).
Proof.
  intros Hpos Hsmall. unfold numeric_10_2, round_half_away.
  assert (Qle_bool 0 (x * 100) = true) as -> by (apply Qle_bool_iff; lra).
  assert (Qfloor (x * 100 + (1 # 2)) = 0%Z) as ->; [|done].
  pose proof (Qfloor_le (x * 100 + (1 # 2))) as Hle.
  pose proof (Qlt_floor (x * 100 + (1 # 2))) as Hlt.
  assert (inject_Z (Qfloor (x * 100 + (1 # 2))) < inject_Z 1) as H1
    by (change (inject_Z 1) with 1; lra).
  assert (inject_Z (-1) < inject_Z (Qfloor (x * 100 + (1 # 2)))) as H0.
  { rewrite inject_Z_plus in Hlt. change (inject_Z 1) with 1 in Hlt.
    change (inject_Z (-1)) with (-1 # 1). lra. }
  rewrite <- Zlt_Qlt in H1, H0. lia.
Qed.
End SubCent.

(** X21. A positive stake below half a cent passes the check of the card
    but is stored as 0.00, which the table refuses; the card reports the
    plain failure and nothing is stored, whether or not the tip was already
    tracked. *)
Theorem sub_cent_stake_fails :
  forall (tips_tbl : list Migration.tips.row) (fresh_id : string) (now : Z)
         (uid tid : string) (x : Q) (tbl : list Migration.user_tracking.row),
    (0 < x)%Q -> (x < 1 # 200)%Q ->
    Migration.user_tracking.insert tips_tbl fresh_id now uid tid x tbl
    = Migration.Err (Migration.check_violation "user_tracking" "user_tracking_stake_check")
    /\ TipCard.handleStake tips_tbl fresh_id now uid tid (Some x) tbl
       = (failed_to_track, tbl).
Proof.
  intros tips_tbl fresh_id now uid tid x tbl Hpos Hsmall.
  assert (Hins : Migration.user_tracking.insert tips_tbl fresh_id now uid tid x tbl
    = Migration.Err (Migration.check_violation "user_tracking" "user_tracking_stake_check")).
  { unfold Migration.user_tracking.insert. by rewrite numeric_10_2_sub_cent. }
  split; [exact Hins|]. unfold TipCard.handleStake. rewrite Hins.
  assert (Qeq_bool x 0 || Qle_bool x 0 = false) as ->; [|done].
  apply orb_false_iff. split.
  - destruct (Qeq_bool x 0) eqn:E; [|done]. apply Qeq_bool_iff in E. lra.
  - destruct (Qle_bool x 0) eqn:E; [|done]. apply Qle_bool_iff in E. lra.
Qed.

Lemma sub_cent_stake_fails_witness :
  TipCard.handleStake SampleTips.table "s3" 60 "alice" "t1" (Some (1 # 1000)%Q)
    SampleStakes.table
  = (failed_to_track, SampleStakes.table).
Proof.
  apply (sub_cent_stake_fails SampleTips.table "s3" 60 "alice" "t1" (1 # 1000)
           SampleStakes.table); reflexivity.
Defined.

(** * The figures in binary64 *)

(** ** Facts about binary64 numbers *)
Section Binary64Numbers.
Local Open Scope float_scope.

Lemma SFeqb_true (f g : spec_float) :
  SFeqb f g = true ->
  (exists s s', f = S754_zero s /\ g = S754_zero s') \/ f = g.
Proof.
  unfold SFeqb. intros H.
  destruct g as [s'|s'| |s' m' e'], f as [s|s| |s m e]; simpl in H; try discriminate.
  - left. eauto.
  - destruct s; discriminate.
  - destruct s; discriminate.
  - destruct s'; discriminate.
  - right. destruct s, s'; try discriminate; reflexivity.
  - destruct s'; discriminate.
  - destruct s'; discriminate.
  - destruct s; discriminate.
  - right.
    assert (s = s' /\ e = e' /\ m = m') as (-> & -> & ->); [|done].
    change (PosDef.Pos.compare_cont Eq m m') with (Pos.compare m m') in H.
    destruct s, s'; try discriminate;
      destruct (Z.compare_spec e e') as [->| |]; try discriminate;
      (split; [reflexivity|]; split; [reflexivity|]);
      apply Pos.compare_eq;
      destruct (Pos.compare m m'); try discriminate; reflexivity.
Qed.

(** A number taken off itself leaves nothing above zero: the difference is
    a zero, or undefined for an infinite number. *)
Lemma SFsub_same (f : spec_float) :
  SFltb (S754_zero false) (SF64sub f f) = false.
Proof.
  destruct f as [s|s| |s m e]; try reflexivity.
  - by destruct s.
  - by destruct s.
  - unfold SF64sub, SFsub. cbv zeta. rewrite Z.min_id.
    unfold shl_align. by rewrite !Z.sub_diag.
Qed.

(** Two numbers equal to the same number are not swapped by a comparator
    [b - a]: the difference is not above zero. *)
Lemma sub_not_above_0 (x y p : float) :
  (x =? p) = true -> (y =? p) = true -> (0 <? y - x) = false.
Proof.
  intros Hx Hy. rewrite FloatAxioms.eqb_spec in Hx, Hy.
  rewrite ltb_spec, sub_spec. change (Prim2SF 0) with (S754_zero false).
  apply SFeqb_true in Hx, Hy.
  destruct Hx as [(s1 & s1' & -> & Hp1)| ->]; destruct Hy as [(s2 & s2' & -> & Hp2)| ->].
  - by destruct s1, s2.
  - rewrite Hp1. by destruct s1, s1'.
  - rewrite Hp2. by destruct s2, s2'.
  - apply SFsub_same.
Qed.

(** Taking off zero changes nothing. *)
Lemma sub_0_r (x : float) : x - 0 = x.
Proof.
  assert (H : Prim2SF (x - 0) = Prim2SF x).
  { rewrite sub_spec. change (Prim2SF 0) with (S754_zero false).
    destruct (Prim2SF x) as [s|s| |s m e]; try reflexivity. by destruct s. }
  apply (f_equal SF2Prim) in H. by rewrite !SF2Prim_Prim2SF in H.
Qed.
End Binary64Numbers.

(** ** The history in binary64 *)
Section History64.

Lemma winRate_binary64_perm (entries entries' : list UserHistory.TrackingEntry) :
  entries ≡ₚ entries' ->
  Binary64.UserHistory.winRate entries = Binary64.UserHistory.winRate entries'.
Proof.
  intros Hp.
  unfold Binary64.UserHistory.winRate, UserHistory.wonEntries, UserHistory.lostEntries.
  assert (Hlen : forall s,
    length (filter (fun e => UserHistory.status (UserHistory.tips e) = s) entries)
    = length (filter (fun e => UserHistory.status (UserHistory.tips e) = s) entries'))
    by (intros s; by rewrite Hp).
  by rewrite !Hlen.
Qed.
End History64.

(** X4. In the arithmetic of the page the total profit of the history
    depends on the order of the entries: the same four stakes, whose profits
    cancel exactly, give a negative total (printed as a loss) in one order
    and zero in another.  The win rate, which is computed from two counts,
    is the same in every order. *)
Theorem history_total_depends_on_order :
  (forall entries entries' : list UserHistory.TrackingEntry,
     entries ≡ₚ entries' ->
     Binary64.UserHistory.winRate entries = Binary64.UserHistory.winRate entries')
  /\ SampleRounding.history ≡ₚ SampleRounding.history_reordered
  /\ PrimFloat.ltb (Binary64.UserHistory.totalProfit SampleRounding.history) 0 = true
  /\ Binary64.UserHistory.shown_as_loss SampleRounding.history = true
  /\ Binary64.UserHistory.totalProfit SampleRounding.history_reordered = 0%float
  /\ Binary64.UserHistory.shown_as_loss SampleRounding.history_reordered = false
  /\ (Qsum (UserHistory.pl <$> SampleRounding.history) == 0)%Q.
Proof.
  split; [apply winRate_binary64_perm|].
  split; [|by vm_compute].
  unfold SampleRounding.history, SampleRounding.history_reordered.
  apply perm_skip. rewrite (Permutation_rev [_; _; _]). reflexivity.
Qed.

Lemma history_total_depends_on_order_witness :
  SampleRounding.history ≡ₚ SampleRounding.history_reordered
  /\ Binary64.UserHistory.winRate SampleRounding.history
     = Binary64.UserHistory.winRate SampleRounding.history_reordered.
Proof.
  destruct history_total_depends_on_order as (Hrate & Hperm & _).
  split; [exact Hperm|]. by apply Hrate.
Defined.

(** ** The dashboard and the history in binary64 *)
Section Pages64.
Local Open Scope float_scope.

Lemma fold_left_fmap_arg {A B C : Type} (g : C -> B -> C) (f : A -> B) (l : list A) (a : C) :
  fold_left (fun acc x => g acc (f x)) l a = fold_left g (f <$> l) a.
Proof. revert a. induction l as [|x l IH]; intros a; [done|]. simpl. apply IH. Qed.

Lemma history_of_stakes tips tracking :
  Forall (fun t => is_Some (Dashboard.find_tip tips (Dashboard.tip_id t))) tracking ->
  UserHistory.stake <$> history_of tips tracking = Dashboard.stake <$> tracking.
Proof.
  unfold history_of. induction 1 as [|t tracking [tip Ht] _ IH]; [done|].
  cbn [omap list_omap]. unfold history_entry_of at 1. rewrite Ht.
  cbn [mbind option_bind]. fold (omap (history_entry_of tips) tracking).
  rewrite !fmap_cons. by rewrite IH.
Qed.

Lemma totalStakes_binary64_history tips tracking :
  Forall (fun t => is_Some (Dashboard.find_tip tips (Dashboard.tip_id t))) tracking ->
  Binary64.Dashboard.totalStakes tracking
  = Binary64.UserHistory.totalStaked (history_of tips tracking).
Proof.
  intros Hall. unfold Binary64.Dashboard.totalStakes, Binary64.UserHistory.totalStaked.
  rewrite (fold_left_fmap_arg (fun acc x => acc + Binary64.Number x) Dashboard.stake).
  rewrite (fold_left_fmap_arg (fun acc x => acc + Binary64.Number x) UserHistory.stake).
  by rewrite history_of_stakes.
Qed.

(** With unique tip ids the reducer of the dashboard goes by the status of
    the tip that [find] returns. *)
Lemma profit_step_binary64 tips acc t :
  NoDup (Dashboard.id <$> tips) ->
  Binary64.Dashboard.profit_step tips acc t
  = match Dashboard.find_tip tips (Dashboard.tip_id t) with
    | Some tip =>
        match Dashboard.status tip with
        | won => acc + Binary64.Number (Dashboard.stake t)
                       * (Binary64.Number (Dashboard.odds tip) - 1)
        | lost => acc - Binary64.Number (Dashboard.stake t)
        | _ => acc
        end
    | None => acc
    end.
Proof.
  intros Hnd. unfold Binary64.Dashboard.profit_step.
  destruct (Dashboard.find_tip tips (Dashboard.tip_id t)) as [tip|] eqn:Hfind; [|done].
  apply find_tip_Some in Hfind as [Hin Hid].
  assert (Hset : forall s,
    Dashboard.tip_id t ∈
      (list_to_set (Dashboard.id <$> filter (fun t => Dashboard.status t = s) tips) : gset string)
    <-> Dashboard.status tip = s).
  { intros s. rewrite elem_of_ids_with. split.
    - intros (t' & Hin' & Hs & Hid'). rewrite <- Hs. f_equal.
      apply (unique_id tips); [done..|congruence].
    - intros Hs. eauto. }
  unfold Dashboard.wonTipIds, Dashboard.lostTipIds.
  repeat case_decide;
    repeat match goal with
           | H : _ ∈ _ |- _ => apply Hset in H
           | H : _ ∉ _ |- _ => rewrite Hset in H
           end;
    destruct (Dashboard.status tip); congruence.
Qed.

Lemma dashboard_binary64_won_only tips tracking (acc : float) :
  NoDup (Dashboard.id <$> tips) ->
  UserHistory.lostEntries (history_of tips tracking) = [] ->
  fold_left (Binary64.Dashboard.profit_step tips) tracking acc
  = fold_left (fun acc e =>
                 acc + Binary64.Number (UserHistory.stake e)
                       * (Binary64.Number (UserHistory.odds (UserHistory.tips e)) - 1))
      (UserHistory.wonEntries (history_of tips tracking)) acc.
Proof.
  intros Hnd. unfold history_of, UserHistory.lostEntries, UserHistory.wonEntries.
  revert acc. induction tracking as [|t tracking IH]; intros acc Hlost; [done|].
  cbn [fold_left omap list_omap] in *. rewrite profit_step_binary64 by done.
  unfold history_entry_of in *.
  destruct (Dashboard.find_tip tips (Dashboard.tip_id t)) as [tip|];
    cbn [mbind option_bind] in *; [|by apply IH].
  rewrite filter_cons in Hlost |- *. cbn in Hlost |- *.
  destruct (Dashboard.status tip) eqn:Hs;
    repeat case_decide; try done; cbn [fold_left]; by apply IH.
Qed.

Lemma totalProfit_binary64_won_only tips tracking :
  NoDup (Dashboard.id <$> tips) ->
  UserHistory.lostEntries (history_of tips tracking) = [] ->
  Binary64.Dashboard.totalProfit tips tracking
  = Binary64.UserHistory.totalProfit (history_of tips tracking).
Proof.
  intros Hnd Hlost.
  unfold Binary64.Dashboard.totalProfit, Binary64.UserHistory.totalProfit.
  rewrite Hlost. cbn [fold_left]. rewrite sub_0_r.
  by apply dashboard_binary64_won_only.
Qed.
End Pages64.

(** X5. The dashboard and the history computed from the same stakes, in the
    arithmetic of the pages.  When every stake resolves to a tip the two
    totals staked are the same number, and when moreover the tips have
    unique ids and no stake is on a lost tip, so are the two total profits.
    With lost stakes they can differ, even in sign: the dashboard keeps one
    running sum, the history takes the sum of the lost stakes off the sum of
    the won profits. *)
Theorem dashboard_and_history_in_binary64 :
  (forall (tips : list Dashboard.Tip) (tracking : list Dashboard.TrackingEntry),
     Forall (fun t => is_Some (Dashboard.find_tip tips (Dashboard.tip_id t))) tracking ->
     Binary64.Dashboard.totalStakes tracking
     = Binary64.UserHistory.totalStaked (history_of tips tracking))
  /\ (forall (tips : list Dashboard.Tip) (tracking : list Dashboard.TrackingEntry),
        NoDup (Dashboard.id <$> tips) ->
        UserHistory.lostEntries (history_of tips tracking) = [] ->
        Binary64.Dashboard.totalProfit tips tracking
        = Binary64.UserHistory.totalProfit (history_of tips tracking))
  /\ NoDup (Dashboard.id <$> SampleRounding.tips)
  /\ Forall (fun t => is_Some (Dashboard.find_tip SampleRounding.tips (Dashboard.tip_id t)))
       SampleRounding.tracking
  /\ PrimFloat.ltb
       (Binary64.Dashboard.totalProfit SampleRounding.tips SampleRounding.tracking) 0 = true
  /\ Binary64.UserHistory.totalProfit
       (history_of SampleRounding.tips SampleRounding.tracking) = 0%float.
Proof.
  split; [apply totalStakes_binary64_history|].
  split; [apply totalProfit_binary64_won_only|].
  split; [apply (bool_decide_unpack _); vm_compute; exact I|].
  split; [repeat constructor; by eexists|].
  split; by vm_compute.
Qed.

Lemma dashboard_and_history_in_binary64_witness :
  NoDup (Dashboard.id <$> Sample.tips)
  /\ UserHistory.lostEntries (history_of Sample.tips (take 1 Sample.tracking)) = []
  /\ Binary64.Dashboard.totalProfit Sample.tips (take 1 Sample.tracking)
     = Binary64.UserHistory.totalProfit (history_of Sample.tips (take 1 Sample.tracking))
  /\ Binary64.Dashboard.totalStakes Sample.tracking
     = Binary64.UserHistory.totalStaked (history_of Sample.tips Sample.tracking).
Proof.
  assert (H : NoDup (Dashboard.id <$> Sample.tips))
    by (apply (bool_decide_unpack _); vm_compute; exact I).
  destruct dashboard_and_history_in_binary64 as (Hstakes & Hprofit & _).
  split; [exact H|]. split; [reflexivity|]. split.
  - by apply Hprofit.
  - apply Hstakes. repeat constructor; by eexists.
Defined.

(** ** The leaderboard in binary64 *)
Section Board64.
Local Open Scope float_scope.
Implicit Types (m : Js.Map Binary64.Leaderboard.LeaderboardEntry).
Implicit Types (rows : list Leaderboard.Row.t) (t : Leaderboard.Row.t).

Lemma visit_binary64_unsettled m t :
  ~ settled_row t -> Binary64.Leaderboard.visit m t = m.
Proof.
  unfold settled_row, settled, Binary64.Leaderboard.visit.
  destruct (Leaderboard.Row.tips t) as [tip|]; [|done].
  destruct (Leaderboard.Row.status tip); simpl; tauto.
Qed.

Lemma visit_binary64_settled m t tip :
  Leaderboard.Row.tips t = Some tip -> settled (Leaderboard.Row.status tip) ->
  Binary64.Leaderboard.visit m t =
  Js.mutate (Leaderboard.Row.user_id t)
    (Binary64.Leaderboard.account (Leaderboard.Row.status tip)
       (Binary64.Number (Leaderboard.Row.odds tip))
       (Binary64.Number (Leaderboard.Row.stake t)))
    (if Js.has (Leaderboard.Row.user_id t) m then m
     else Js.set (Leaderboard.Row.user_id t)
            {| Binary64.Leaderboard.user_id := Leaderboard.Row.user_id t;
               Binary64.Leaderboard.username :=
                 Leaderboard.display_name (Leaderboard.Row.profiles t);
               Binary64.Leaderboard.total_profit := 0;
               Binary64.Leaderboard.total_staked := 0;
               Binary64.Leaderboard.wins := 0; Binary64.Leaderboard.total_bets := 0 |} m).
Proof.
  unfold Binary64.Leaderboard.visit. intros -> [H|H]; by rewrite H.
Qed.

Lemma group_binary64_keys rows :
  (Binary64.Leaderboard.group_by_user rows).*1
  = first_seen (Leaderboard.Row.user_id <$> filter settled_row rows).
Proof.
  unfold Binary64.Leaderboard.group_by_user.
  induction rows as [|t rows IH] using rev_ind; [done|].
  rewrite fold_left_app, settled_users_snoc. cbn [fold_left].
  set (m := fold_left Binary64.Leaderboard.visit rows []) in *.
  destruct (decide (settled_row t)) as [Hrow|Hrow].
  2:{ by rewrite visit_binary64_unsettled, app_nil_r. }
  pose proof Hrow as Hrow'. unfold settled_row in Hrow'.
  destruct (Leaderboard.Row.tips t) as [tip|] eqn:Htip; [|done].
  rewrite (visit_binary64_settled m t tip), keys_mutate, first_seen_snoc by done.
  destruct (Js.has (Leaderboard.Row.user_id t) m) eqn:Hhas.
  - rewrite decide_True; [done|].
    apply has_get in Hhas. rewrite <- first_seen_elem, <- IH.
    destruct (decide (Leaderboard.Row.user_id t ∈ m.*1)) as [|Hn]; [done|].
    apply get_None_keys in Hn. destruct Hhas as [? Hs]. congruence.
  - apply has_false_get in Hhas. rewrite keys_set_fresh by done.
    rewrite decide_False; [by rewrite IH|].
    rewrite <- first_seen_elem, <- IH. by apply get_None_keys.
Qed.

Lemma Forall_set {V : Type} (P : string * V -> Prop) k v (m : Js.Map V) :
  Forall P m -> P (k, v) -> Forall P (Js.set k v m).
Proof.
  intros Hm Hv. induction Hm as [|[k0 v0] m H0 Hm IH]; cbn [Js.set].
  - by repeat constructor.
  - destruct (String.eqb_spec k0 k) as [->|]; by constructor.
Qed.

Lemma Forall_mutate {V : Type} (P : string * V -> Prop) k (f : V -> V) (m : Js.Map V) :
  (forall k' v, P (k', v) -> P (k', f v)) -> Forall P m -> Forall P (Js.mutate k f m).
Proof.
  intros Hf Hm. induction Hm as [|[k0 v0] m H0 Hm IH]; cbn [Js.mutate]; [done|].
  destruct (String.eqb k0 k); constructor; auto.
Qed.

Lemma account_binary64_user_id s o a e :
  Binary64.Leaderboard.user_id (Binary64.Leaderboard.account s o a e)
  = Binary64.Leaderboard.user_id e.
Proof. unfold Binary64.Leaderboard.account. by repeat case_decide. Qed.

(** Every entry is filed under the id of its user. *)
Lemma group_binary64_ids rows :
  Forall (fun kv => Binary64.Leaderboard.user_id kv.2 = kv.1)
    (Binary64.Leaderboard.group_by_user rows).
Proof.
  unfold Binary64.Leaderboard.group_by_user.
  induction rows as [|t rows IH] using rev_ind; [constructor|].
  rewrite fold_left_app. cbn [fold_left].
  set (m := fold_left Binary64.Leaderboard.visit rows []) in *.
  destruct (decide (settled_row t)) as [Hrow|Hrow].
  2:{ by rewrite visit_binary64_unsettled. }
  pose proof Hrow as Hrow'. unfold settled_row in Hrow'.
  destruct (Leaderboard.Row.tips t) as [tip|] eqn:Htip; [|done].
  rewrite (visit_binary64_settled m t tip) by done.
  apply Forall_mutate.
  - intros k' v. simpl. by rewrite account_binary64_user_id.
  - destruct (Js.has _ m); [done|]. by apply Forall_set.
Qed.

Lemma group_binary64_user_ids rows :
  Binary64.Leaderboard.user_id <$> Js.values (Binary64.Leaderboard.group_by_user rows)
  = first_seen (Leaderboard.Row.user_id <$> filter settled_row rows).
Proof.
  rewrite <- group_binary64_keys. unfold Js.values. rewrite <- list_fmap_compose.
  apply list_fmap_ext. intros i kv Hi.
  pose proof (group_binary64_ids rows) as Hall.
  rewrite Forall_forall in Hall. apply Hall. by eapply list_elem_of_lookup_2.
Qed.

(** The sort is stable on entries whose profits are the same number. *)
Lemma insert_sorted_binary64_ties (p : float) x l :
  filter (fun e => PrimFloat.eqb (Binary64.Leaderboard.total_profit e) p = true)
    (Binary64.insert_sorted Binary64.Leaderboard.by_profit x l)
  = filter (fun e => PrimFloat.eqb (Binary64.Leaderboard.total_profit e) p = true)
      (x :: l).
Proof.
  induction l as [|y l IH]; [done|]. cbn [Binary64.insert_sorted].
  destruct (PrimFloat.ltb 0 (Binary64.Leaderboard.by_profit x y)) eqn:E; [|done].
  rewrite filter_cons, IH, !filter_cons.
  destruct (decide (PrimFloat.eqb (Binary64.Leaderboard.total_profit y) p = true)) as [Hy|Hy];
    destruct (decide (PrimFloat.eqb (Binary64.Leaderboard.total_profit x) p = true))
      as [Hx|Hx]; try done.
  exfalso. unfold Binary64.Leaderboard.by_profit in E.
  by rewrite (sub_not_above_0 _ _ p) in E.
Qed.

Lemma sort_binary64_ties (p : float) l :
  filter (fun e => PrimFloat.eqb (Binary64.Leaderboard.total_profit e) p = true)
    (Binary64.sort Binary64.Leaderboard.by_profit l)
  = filter (fun e => PrimFloat.eqb (Binary64.Leaderboard.total_profit e) p = true) l.
Proof.
  unfold Binary64.sort. induction l as [|x l IH]; [done|]. simpl.
  by rewrite insert_sorted_binary64_ties, !filter_cons, IH.
Qed.
End Board64.

(** X7. Ties on the leaderboard, in the arithmetic of the page.  The
    grouping lists the users in the order in which their first settled stake
    appears in the fetched rows, and the ranking keeps that order among the
    entries whose total profits are the same number.  Whether two totals
    are the same number depends on the additions that made them: two users
    who each won 0.30 in all are no tie when one of them won it as
    0.10 + 0.20, and that one is ranked first although the other's stake
    came first. *)
Theorem leaderboard_ties_in_binary64 :
  (forall (rows : list Leaderboard.Row.t) (p : float),
     Binary64.Leaderboard.user_id
       <$> Js.values (Binary64.Leaderboard.group_by_user rows)
     = first_seen (Leaderboard.Row.user_id <$> filter settled_row rows)
     /\ filter (fun e => PrimFloat.eqb (Binary64.Leaderboard.total_profit e) p = true)
          (Binary64.Leaderboard.ranking rows)
        = filter (fun e => PrimFloat.eqb (Binary64.Leaderboard.total_profit e) p = true)
            (Js.values (Binary64.Leaderboard.group_by_user rows)))
  /\ Binary64.Leaderboard.user_id
       <$> filter (fun e => PrimFloat.eqb (Binary64.Leaderboard.total_profit e)
                              (Binary64.Number (1 # 2)) = true)
             (Binary64.Leaderboard.ranking SampleRounding.tied)
     = ["zoe"; "yan"]%string
  /\ first_seen (Leaderboard.Row.user_id <$> filter settled_row SampleRounding.rows)
     = ["bea"; "abe"]%string
  /\ (Qsum (row_profit <$> settled_stakes "bea" SampleRounding.rows)
      == Qsum (row_profit <$> settled_stakes "abe" SampleRounding.rows))%Q
  /\ Binary64.Leaderboard.user_id
       <$> Binary64.Leaderboard.fetchLeaderboard SampleRounding.rows
     = ["abe"; "bea"]%string.
Proof.
  split; [|by vm_compute].
  intros rows p. split; [apply group_binary64_user_ids | apply sort_binary64_ties].
Qed.
